(** * chart-generator-api: a shallow embedding of [app.py]

    The service of [app.py] is a Flask application with three handlers that
    matter here: [generate_chart] (POST /generate-chart), [download_chart]
    (GET /download-chart/<id>) and [cleanup] (GET /cleanup), sharing the
    module-level dictionary [GENERATED_FILES].

    The embedding follows the source statement by statement:
    - Python values that the handlers inspect (cells of the data frame, form
      fields) are an inductive type; floats are IEEE-754 binary64 values
      ([spec_float] with precision 53), integers are [Z];
    - text is a [string] whose characters are code points below 256; text
      with other characters is outside the model;
    - the builtins the handlers call on them ([float], [int], [str.strip],
      [str.lower], [in], [str.endswith]) are executable functions;
    - exceptions and early [return]s are an explicit outcome type;
    - [GENERATED_FILES] is a finite map threaded through the handlers; the
      [BytesIO] of an entry is open or closed, and a download closes it;
    - what pandas and python-pptx read out of uploaded bytes is part of the
      request (the table, the presentation, or the exception they raise);
    - what python-pptx answers to [add_chart] and [save] is not decided by
      [app.py]: it is a parameter of the handler, a [Pptx]. *)

From Stdlib Require Import ZArith String Ascii List Bool Lia DecimalString DecimalNat.
From Stdlib Require Import Floats.SpecFloat.
From stdpp Require Import gmap strings list fin_maps.

Local Open Scope string_scope.
Local Open Scope list_scope.
Local Open Scope Z_scope.

(* ===================================================================== *)
(** * Python strings

    A character is its code point, a number below 256. *)
(* ===================================================================== *)

Module Str.

Definition chars (s : string) : list ascii := list_ascii_of_string s.
Definition of_chars (l : list ascii) : string := string_of_list_ascii l.

Definition code (c : ascii) : nat := nat_of_ascii c.

(** The characters [c.lower()] changes: A-Z, and of the code points
    above 127 the capital letters 0xc0-0xde but the sign 0xd7. Each goes 32
    code points up. *)
Definition is_upper (c : ascii) : bool :=
  ((65 <=? code c)%nat && (code c <=? 90)%nat)
  || ((192 <=? code c)%nat && (code c <=? 214)%nat)
  || ((216 <=? code c)%nat && (code c <=? 222)%nat).

Definition is_digit (c : ascii) : bool :=
  (48 <=? code c)%nat && (code c <=? 57)%nat.

(** The blanks [int()] and [float()] skip around a number: TAB, LF, VT,
    FF, CR and the space, and of the code points above 127 the two that
    Unicode counts as blanks, NEL (0x85) and the no-break space (0xa0).
    The separators 0x1c-0x1f are blanks to [str.strip()], not to these
    two. *)
Definition is_space (c : ascii) : bool :=
  ((9 <=? code c)%nat && (code c <=? 13)%nat)
  || (code c =? 32)%nat || (code c =? 133)%nat || (code c =? 160)%nat.

Definition lower_char (c : ascii) : ascii :=
  if is_upper c then ascii_of_nat (code c + 32) else c.

(** [s.lower()] *)
Definition lower (s : string) : string :=
  of_chars (List.map lower_char (chars s)).

(** [needle in hay] for strings: some suffix of [hay] starts with
    [needle]. *)
Fixpoint contains (needle hay : string) : bool :=
  if String.prefix needle hay then true
  else match hay with
       | EmptyString => false
       | String _ rest => contains needle rest
       end.

Fixpoint lstrip_chars (p : ascii -> bool) (l : list ascii) : list ascii :=
  match l with
  | c :: t => if p c then lstrip_chars p t else l
  | [] => []
  end.

Definition strip_chars (p : ascii -> bool) (l : list ascii) : list ascii :=
  rev (lstrip_chars p (rev (lstrip_chars p l))).

(** [s.strip(set)]: leading and trailing characters of [set] removed. *)
Definition strip (set : string) (s : string) : string :=
  of_chars (strip_chars (fun c => existsb (Ascii.eqb c) (chars set)) (chars s)).

Fixpoint list_prefix (p l : list ascii) : bool :=
  match p, l with
  | [], _ => true
  | a :: p', b :: l' => Ascii.eqb a b && list_prefix p' l'
  | _ :: _, [] => false
  end.

(** [s.endswith(suffix)] *)
Definition endswith (s suffix : string) : bool :=
  list_prefix (rev (chars suffix)) (rev (chars s)).

(** The double-quote character, for literals that contain it. *)
Definition dquote : string := String (ascii_of_nat 34) EmptyString.

End Str.

(* ===================================================================== *)
(** * Numeric literals: what [float()] and [int()] share *)
(* ===================================================================== *)

Module Lex.

Definition digit_val (c : ascii) : Z := Z.of_nat (Str.code c) - 48.

(** The rest of a digitpart: [acc] holds the digits read so far, last
    first. *)
Fixpoint digitpart_rest (s : list ascii) (acc : list Z) : list Z * list ascii :=
  match s with
  | c :: t =>
      if Str.is_digit c then digitpart_rest t (digit_val c :: acc)
      else if Ascii.eqb c "_"%char then
        match t with
        | d :: t' =>
            if Str.is_digit d then digitpart_rest t' (digit_val d :: acc)
            else (rev acc, s)
        | [] => (rev acc, s)
        end
      else (rev acc, s)
  | [] => (rev acc, s)
  end.

(** A digitpart at the head of [s]: its digits and what follows. *)
Definition digitpart (s : list ascii) : option (list Z * list ascii) :=
  match s with
  | c :: t => if Str.is_digit c then Some (digitpart_rest t [digit_val c]) else None
  | [] => None
  end.

Definition digits_value (ds : list Z) : Z :=
  fold_left (fun acc d => 10 * acc + d) ds 0.

(** An optional sign: [true] for "-". *)
Definition sign (s : list ascii) : bool * list ascii :=
  match s with
  | c :: t =>
      if Ascii.eqb c "-"%char then (true, t)
      else if Ascii.eqb c "+"%char then (false, t)
      else (false, s)
  | [] => (false, s)
  end.

End Lex.

(* ===================================================================== *)
(** * Python floats: binary64 *)
(* ===================================================================== *)

Module Float.

Definition prec : Z := 53.
Definition emax : Z := 1024.

(** The float nearest to the integer [z] (ties to even), infinite when
    [z] rounds beyond the largest float. *)
Definition of_Z (z : Z) : spec_float := binary_normalize prec emax z 0 false.

Definition is_infinite (f : spec_float) : bool :=
  match f with S754_infinity _ => true | _ => false end.

(** The float nearest to [m * 10^e10], with the sign [neg]: what
    [float(str)] returns for a decimal literal of digits [m] and decimal
    exponent [e10] (CPython rounds correctly, overflowing to infinity). *)
Definition of_decimal (neg : bool) (m : Z) (e10 : Z) : spec_float :=
  if m =? 0 then S754_zero neg
  else if 0 <=? e10 then
    binary_normalize prec emax ((if neg then - m else m) * 10 ^ e10) 0 neg
  else
    let d := 10 ^ (- e10) in
    let s := 64 + Z.log2 d + 1 in
    let n := m * 2 ^ s in
    binary_round_aux prec emax neg (n / d) (- s) (new_location d (n mod d)).

Definition zero : spec_float := S754_zero false.
Definition one : spec_float := of_Z 1.

Definition is_nan (f : spec_float) : bool :=
  match f with S754_nan => true | _ => false end.

(** ** [float(str)]

    The grammar of the Python reference for [float]:
<<
    floatvalue  ::= [sign] (floatnumber | infinity | nan)
    floatnumber ::= number [exponent]
    number      ::= [digitpart] "." digitpart | digitpart ["."]
    exponent    ::= ("e" | "E") [sign] digitpart
    digitpart   ::= digit (["_"] digit)*
>>
    surrounded by optional whitespace; "inf", "infinity" and "nan" in any
    case. *)

Import Lex.

(** The exponent, when one follows: its value and what follows it. *)
Definition exponent (s : list ascii) : option (Z * list ascii) :=
  match s with
  | c :: t =>
      if Ascii.eqb c "e"%char || Ascii.eqb c "E"%char then
        let '(neg, t1) := sign t in
        match digitpart t1 with
        | Some (ds, rest) =>
            Some (if neg then - digits_value ds else digits_value ds, rest)
        | None => None
        end
      else None
  | [] => None
  end.

(** [number]: the digits before and after the point, and what follows. *)
Definition number (s : list ascii) : option (list Z * list Z * list ascii) :=
  let '(ip, s1) := match digitpart s with
                   | Some (ds, rest) => (ds, rest)
                   | None => ([], s)
                   end in
  match s1 with
  | c :: t =>
      if Ascii.eqb c "."%char then
        match digitpart t with
        | Some (fs, rest) => Some (ip, fs, rest)
        | None => match ip with [] => None | _ :: _ => Some (ip, [], t) end
        end
      else match ip with [] => None | _ :: _ => Some (ip, [], s1) end
  | [] => match ip with [] => None | _ :: _ => Some (ip, [], s1) end
  end.

Definition floatnumber (neg : bool) (s : list ascii) : option spec_float :=
  match number s with
  | Some (ip, fs, rest) =>
      let m := digits_value (ip ++ fs) in
      let shift := Z.of_nat (length fs) in
      match rest with
      | [] => Some (of_decimal neg m (- shift))
      | _ :: _ =>
          match exponent rest with
          | Some (e, []) => Some (of_decimal neg m (e - shift))
          | _ => None
          end
      end
  | None => None
  end.

Definition floatvalue (s : list ascii) : option spec_float :=
  let '(neg, body) := sign s in
  let word := Str.lower (Str.of_chars body) in
  if String.eqb word "inf" || String.eqb word "infinity" then Some (S754_infinity neg)
  else if String.eqb word "nan" then Some S754_nan
  else floatnumber neg body.

(** [float(s)] for a string [s]: [None] is the [ValueError]. *)
Definition of_string (s : string) : option spec_float :=
  floatvalue (Str.strip_chars Str.is_space (Str.chars s)).

End Float.

(* ===================================================================== *)
(** * Python integers from text, and decimal text from integers *)
(* ===================================================================== *)

Module Int.

(** [sys.get_int_max_str_digits()]: the longest decimal numeral [int]
    converts, in digits. 4300 is the default of the interpreter, which
    [app.py] does not change. *)
Definition max_str_digits : nat := 4300.

(** [int(s)] for a string [s], base 10: optional whitespace around an
    optional sign and a digitpart of at most [max_str_digits] digits (the
    zeros in front count, the underscores do not). [None] is the
    [ValueError]. *)
Definition of_string (s : string) : option Z :=
  let '(neg, body) := Lex.sign (Str.strip_chars Str.is_space (Str.chars s)) in
  match Lex.digitpart body with
  | Some (ds, []) =>
      if (length ds <=? max_str_digits)%nat
      then Some (if neg then - Lex.digits_value ds else Lex.digits_value ds)
      else None
  | _ => None
  end.

Definition digit_char (d : Z) : ascii := ascii_of_nat (Z.to_nat (48 + d)).

(** The last [n] decimal digits of [z], most significant first. *)
Fixpoint last_digits (n : nat) (z : Z) (acc : list ascii) : list ascii :=
  match n with
  | O => acc
  | S n' => last_digits n' (z / 10) (digit_char (z mod 10) :: acc)
  end.

(** [z] on [w] digits, zero-padded: the [%02d] and [%04d] of strftime. *)
Definition padded (w : nat) (z : Z) : string :=
  Str.of_chars (last_digits w z []).

(** [str(n)] for a natural number. *)
Definition to_string (n : nat) : string :=
  NilEmpty.string_of_uint (Nat.to_uint n).

End Int.

(* ===================================================================== *)
(** * datetime *)
(* ===================================================================== *)

Module Datetime.

(** A naive [datetime] has microsecond resolution: it is modelled by the
    number of microseconds since 1970-01-01 00:00:00 on its own calendar. *)
Definition datetime : Type := Z.

Definition us_per_second : Z := 1000000.
Definition us_per_day : Z := 86400 * us_per_second.

(** [(a - b)], a [timedelta], in microseconds. *)
Definition sub (a b : datetime) : Z := a - b.

(** [delta.total_seconds()]: the number of microseconds divided by
    [10**6], rounded to the nearest float. *)
Definition total_seconds (delta : Z) : spec_float :=
  Float.of_decimal (delta <? 0) (Z.abs delta) (-6).

(** [delta.total_seconds() > secs] for an integer [secs] that a float holds
    exactly. Rounding to the nearest float is monotone and leaves [secs]
    where it is, and a quotient above [secs] is above it by a microsecond
    at least, far more than the spacing of floats of that size: the
    comparison comes out as on the exact quotient. *)
Definition total_seconds_gt (delta : Z) (secs : Z) : bool :=
  secs * us_per_second <? delta.

(** The civil date of a day number (days since 1970-01-01), in the
    proleptic Gregorian calendar. *)
Definition civil_from_days (days : Z) : Z * Z * Z :=
  let z := days + 719468 in
  let era := z / 146097 in
  let doe := z - era * 146097 in
  let yoe := (doe - doe / 1460 + doe / 36524 - doe / 146096) / 365 in
  let doy := doe - (365 * yoe + yoe / 4 - yoe / 100) in
  let mp := (5 * doy + 2) / 153 in
  let d := doy - (153 * mp + 2) / 5 + 1 in
  let m := if mp <? 10 then mp + 3 else mp - 9 in
  let y := yoe + era * 400 + (if m <=? 2 then 1 else 0) in
  (y, m, d).

(** [t.strftime('%Y%m%d%H%M%S')] *)
Definition strftime_YmdHMS (t : datetime) : string :=
  let '(y, m, d) := civil_from_days (t / us_per_day) in
  let secs := (t mod us_per_day) / us_per_second in
  (Int.padded 4 y ++ Int.padded 2 m ++ Int.padded 2 d
   ++ Int.padded 2 (secs / 3600) ++ Int.padded 2 ((secs / 60) mod 60)
   ++ Int.padded 2 (secs mod 60))%string.

End Datetime.

(* ===================================================================== *)
(** * Cells, data frames and the series of a chart *)
(* ===================================================================== *)

(** The Python values a cell of a loaded [DataFrame] can hold, as the loop
    over [df.iloc[:, 1]] sees them. A missing cell is the float [nan]:
    that is how [pandas.read_csv] and [pandas.read_excel] load an empty
    field, in numeric and in text columns alike. An integer cell is any
    integer: those of an [int64] column are well inside the range of
    [float], those of an [object] column need not be. *)
Inductive pyval : Type :=
| PyStr (s : string)
| PyFloat (f : spec_float)
| PyInt (z : Z)
| PyBool (b : bool)
| PyNone
| PyObject (repr : string).   (* an object [float] does not take: a Timestamp, a time, ... *)

(** The exceptions that occur, each with what [str(e)] is built from. *)
Inductive exc : Type :=
| ValueError (arg : string)
| TypeError (arg : string)
| IndexError (msg : string)
| KeyError (key : string)
| OverflowError (msg : string)
| LibraryError (msg : string).  (* raised inside pandas or python-pptx *)

(** The [OverflowError] of [float] for an integer beyond its range. *)
Definition int_too_large : exc := OverflowError "int too large to convert to float".

(** [isinstance(val, str)] *)
Definition isinstance_str (val : pyval) : bool :=
  match val with PyStr _ => true | _ => false end.

(** [float(val)] *)
Definition py_float (val : pyval) : exc + spec_float :=
  match val with
  | PyStr s => match Float.of_string s with
               | Some f => inr f
               | None => inl (ValueError s)
               end
  | PyFloat f => inr f
  | PyInt z => if Float.is_infinite (Float.of_Z z)
               then inl int_too_large
               else inr (Float.of_Z z)
  | PyBool b => inr (if b then Float.one else Float.zero)
  | PyNone => inl (TypeError "NoneType")
  | PyObject r => inl (TypeError r)
  end.

(** ['%' in val], for a value known to be a string. *)
Definition has_percent (val : pyval) : bool :=
  match val with PyStr s => Str.contains "%" s | _ => false end.

(** [val.strip('%')] *)
Definition strip_percent (val : pyval) : pyval :=
  match val with PyStr s => PyStr (Str.strip "%" s) | _ => val end.

(** The body of the loop of [generate_chart] over the value column
    (lines 106-115): what it appends to [values] for the cell [val], or the
    exception that neither [except] clause catches. *)
Definition coerce_value (val : pyval) : exc + pyval :=
  if isinstance_str val && has_percent val then
    match py_float (strip_percent val) with
    | inr f => inr (PyFloat f)
    | inl (ValueError _) => inr (PyInt 0)
    | inl e => inl e
    end
  else
    match py_float val with
    | inr f => inr (PyFloat f)
    | inl (ValueError _) | inl (TypeError _) => inr (PyInt 0)
    | inl e => inl e
    end.

(** Lines 104-115: the loop, cell after cell. *)
Fixpoint coerce_values (cells : list pyval) : exc + list pyval :=
  match cells with
  | [] => inr []
  | val :: rest =>
      match coerce_value val with
      | inl e => inl e
      | inr v =>
          match coerce_values rest with
          | inl e => inl e
          | inr values => inr (v :: values)
          end
      end
  end.

(** A [DataFrame]: [nrows] rows, and its columns, each a list of [nrows]
    cells. *)
Record DataFrame : Type := mkDataFrame {
  nrows : nat;
  columns : list (list pyval)
}.


(** [df.shape[1]] *)
Definition shape1 (df : DataFrame) : nat := length (columns df).

(** [df.iloc[:, j]], for [j] below [df.shape[1]]. *)
Definition iloc_col (df : DataFrame) (j : nat) : list pyval :=
  nth j (columns df) [].

(** [ChartData]: the categories and the named series added to it. *)
Record ChartData : Type := mkChartData {
  categories : list pyval;
  series : list (string * list pyval)
}.

(** Lines 101-118: the categories and values taken from the frame. *)
Definition extract_categories (df : DataFrame) : list pyval := iloc_col df 0.

Definition extract_values (df : DataFrame) : exc + list pyval :=
  coerce_values (iloc_col df 1).

Definition build_chart_data (df : DataFrame) : exc + ChartData :=
  match extract_values df with
  | inr values =>
      inr {| categories := extract_categories df;
             series := [("Values", values)] |}
  | inl e => inl e
  end.


(* ===================================================================== *)
(** * Presentations (python-pptx) *)
(* ===================================================================== *)

Inductive XL_CHART_TYPE : Type :=
| PIE | COLUMN_CLUSTERED | LINE | XY_SCATTER | AREA.

Inductive XL_LEGEND_POSITION : Type :=
| LEGEND_BOTTOM | LEGEND_CORNER | LEGEND_LEFT | LEGEND_RIGHT | LEGEND_TOP.

(** [CHART_TYPE_MAP] *)
Definition CHART_TYPE_MAP : list (string * XL_CHART_TYPE) :=
  [("pie", PIE); ("bar", COLUMN_CLUSTERED); ("line", LINE);
   ("scatter", XY_SCATTER); ("area", AREA)].

(** [d.get(key, default)] on a dictionary literal. *)
Fixpoint dict_get {V : Type} (d : list (string * V)) (key : string) (default : V) : V :=
  match d with
  | [] => default
  | (k, v) :: rest => if String.eqb k key then v else dict_get rest key default
  end.

(** [Inches(n)]: English Metric Units. *)
Definition Inches (n : Z) : Z := 914400 * n.

(** A chart as the handler leaves it: its type, its frame, its data, the
    legend and the data labels of its first plot. *)
Record Chart : Type := mkChart {
  chart_type_of : XL_CHART_TYPE;
  chart_x : Z; chart_y : Z; chart_cx : Z; chart_cy : Z;
  chart_data : ChartData;
  has_legend : bool;
  legend_position : option XL_LEGEND_POSITION;
  has_data_labels : bool;
  data_labels_number_format : option string
}.

Inductive Shape : Type :=
| Placeholder (idx : nat)
| GraphicFrame (chart : Chart)
| OtherShape (name : string).

(** A slide layout: its name ([None] or empty when it has none) and the
    placeholders a new slide clones from it. *)
Record SlideLayout : Type := mkLayout {
  layout_name : option string;
  layout_placeholders : list nat
}.

Record Slide : Type := mkSlide {
  slide_layout : SlideLayout;
  shapes : list Shape
}.

Record Presentation : Type := mkPresentation {
  slide_layouts : list SlideLayout;
  slides : list Slide
}.

(** [Presentation()]: python-pptx's built-in template, with no slide and
    its eleven layouts. *)
Definition default_presentation : Presentation :=
  {| slide_layouts :=
       [ mkLayout (Some "Title Slide") [0; 1]%nat;
         mkLayout (Some "Title and Content") [0; 1]%nat;
         mkLayout (Some "Section Header") [0; 1]%nat;
         mkLayout (Some "Two Content") [0; 1; 2]%nat;
         mkLayout (Some "Comparison") [0; 1; 2; 3; 4]%nat;
         mkLayout (Some "Title Only") [0]%nat;
         mkLayout (Some "Blank") [];
         mkLayout (Some "Content with Caption") [0; 1; 2]%nat;
         mkLayout (Some "Picture with Caption") [0; 1; 2]%nat;
         mkLayout (Some "Title and Vertical Text") [0; 1]%nat;
         mkLayout (Some "Vertical Title and Text") [0; 1]%nat ];
     slides := [] |}.

(** [layout.name and ('blank' in layout.name.lower() or
    'title' in layout.name.lower())] *)
Definition layout_matches (layout : SlideLayout) : bool :=
  match layout_name layout with
  | Some name =>
      negb (String.eqb name EmptyString)
      && (Str.contains "blank" (Str.lower name) || Str.contains "title" (Str.lower name))
  | None => false
  end.

(** The [for idx, layout in enumerate(prs.slide_layouts)] of lines 83-86,
    from the index [idx] on: the index it [break]s at, if any. *)
Fixpoint scan_layouts (idx : nat) (layouts : list SlideLayout) : option nat :=
  match layouts with
  | [] => None
  | layout :: rest =>
      if layout_matches layout then Some idx else scan_layouts (S idx) rest
  end.

(** Lines 82-86: [layout_idx] when the scan is over. *)
Definition select_layout_idx (layouts : list SlideLayout) : nat :=
  match scan_layouts 0 layouts with
  | Some idx => idx
  | None => 5%nat
  end.

(** [seq[i]] with Python's index rule: a negative index counts from the
    end; [None] is the [IndexError]. *)
Definition py_index {A : Type} (l : list A) (i : Z) : option nat :=
  let n := Z.of_nat (length l) in
  let j := if i <? 0 then i + n else i in
  if (0 <=? j) && (j <? n) then Some (Z.to_nat j) else None.

(** [prs.slide_layouts[i]], for an index that is not negative. *)
Definition get_layout (prs : Presentation) (i : nat) : exc + SlideLayout :=
  match slide_layouts prs !! i with
  | Some layout => inr layout
  | None => inl (IndexError "slide layout index out of range")
  end.

(** The slide [add_slide] makes from a layout. *)
Definition new_slide (layout : SlideLayout) : Slide :=
  {| slide_layout := layout;
     shapes := List.map Placeholder (layout_placeholders layout) |}.

(** [prs.slides.add_slide(layout)] *)
Definition add_slide (layout : SlideLayout) (prs : Presentation) : Presentation :=
  {| slide_layouts := slide_layouts prs;
     slides := slides prs ++ [new_slide layout] |}.

(** Lines 80-87, the [while len(prs.slides) < slide_position] loop. [n]
    bounds the iterations left; [ensure_slides] starts it with the number
    of slides that are missing, which the loop never exceeds. *)
Fixpoint ensure_slides_loop (n : nat) (prs : Presentation) (slide_position : Z)
  : exc + Presentation :=
  match n with
  | O => inr prs
  | S n' =>
      if Z.of_nat (length (slides prs)) <? slide_position then
        match get_layout prs (select_layout_idx (slide_layouts prs)) with
        | inr layout => ensure_slides_loop n' (add_slide layout prs) slide_position
        | inl e => inl e
        end
      else inr prs
  end.

Definition ensure_slides (prs : Presentation) (slide_position : Z) : exc + Presentation :=
  ensure_slides_loop
    (Z.to_nat (slide_position - Z.of_nat (length (slides prs)))) prs slide_position.

(** [prs.slides[slide_idx]]: the position of the slide in [prs.slides]. *)
Definition get_slide (prs : Presentation) (slide_idx : Z) : exc + nat :=
  match py_index (slides prs) slide_idx with
  | Some j => inr j
  | None => inl (IndexError "slide index out of range")
  end.

(** ** What python-pptx decides

    [add_chart] writes the chart data into a workbook and the chart into
    XML from a template of its own for the chart type; [save] writes the
    package. Whether they raise, and how a chart starts out before the
    handler touches it, is not in [app.py]: a [Pptx] says it. *)

(** The legend and the data labels of the first plot of a chart as
    [add_chart] returns it. *)
Record ChartDefaults : Type := mkDefaults {
  default_has_legend : bool;
  default_legend_position : option XL_LEGEND_POSITION;
  default_has_data_labels : bool;
  default_number_format : option string
}.

Record Pptx : Type := mkPptx {
  (** the exception [add_chart] raises for a chart type and chart data,
      if any *)
  add_chart_raises : XL_CHART_TYPE -> ChartData -> option exc;
  (** how the chart it returns starts out *)
  chart_defaults : XL_CHART_TYPE -> ChartData -> ChartDefaults;
  (** the exception [prs.save(buffer)] raises for a document, if any *)
  save_raises : Presentation -> option exc
}.

(** The chart of the new graphic frame as [add_chart] returns it, before
    the handler customises it. *)
Definition new_chart (lib : Pptx) (t : XL_CHART_TYPE) (x y cx cy : Z) (cd : ChartData)
  : Chart :=
  {| chart_type_of := t;
     chart_x := x; chart_y := y; chart_cx := cx; chart_cy := cy;
     chart_data := cd;
     has_legend := default_has_legend (chart_defaults lib t cd);
     legend_position := default_legend_position (chart_defaults lib t cd);
     has_data_labels := default_has_data_labels (chart_defaults lib t cd);
     data_labels_number_format := default_number_format (chart_defaults lib t cd) |}.

(** [slide.shapes.add_chart(chart_type, x, y, cx, cy, chart_data).chart] *)
Definition add_chart (lib : Pptx) (t : XL_CHART_TYPE) (x y cx cy : Z) (cd : ChartData)
  : exc + Chart :=
  match add_chart_raises lib t cd with
  | Some e => inl e
  | None => inr (new_chart lib t x y cx cy cd)
  end.

Definition set_has_legend (b : bool) (c : Chart) : Chart :=
  {| chart_type_of := chart_type_of c;
     chart_x := chart_x c; chart_y := chart_y c;
     chart_cx := chart_cx c; chart_cy := chart_cy c;
     chart_data := chart_data c;
     has_legend := b;
     legend_position := legend_position c;
     has_data_labels := has_data_labels c;
     data_labels_number_format := data_labels_number_format c |}.

Definition set_legend_position (p : XL_LEGEND_POSITION) (c : Chart) : Chart :=
  {| chart_type_of := chart_type_of c;
     chart_x := chart_x c; chart_y := chart_y c;
     chart_cx := chart_cx c; chart_cy := chart_cy c;
     chart_data := chart_data c;
     has_legend := has_legend c;
     legend_position := Some p;
     has_data_labels := has_data_labels c;
     data_labels_number_format := data_labels_number_format c |}.

Definition set_has_data_labels (b : bool) (c : Chart) : Chart :=
  {| chart_type_of := chart_type_of c;
     chart_x := chart_x c; chart_y := chart_y c;
     chart_cx := chart_cx c; chart_cy := chart_cy c;
     chart_data := chart_data c;
     has_legend := has_legend c;
     legend_position := legend_position c;
     has_data_labels := b;
     data_labels_number_format := data_labels_number_format c |}.

Definition set_number_format (fmt : string) (c : Chart) : Chart :=
  {| chart_type_of := chart_type_of c;
     chart_x := chart_x c; chart_y := chart_y c;
     chart_cx := chart_cx c; chart_cy := chart_cy c;
     chart_data := chart_data c;
     has_legend := has_legend c;
     legend_position := legend_position c;
     has_data_labels := has_data_labels c;
     data_labels_number_format := Some fmt |}.

(** The number format of line 134: [0.0] followed by a quoted percent
    sign. *)
Definition pie_number_format : string :=
  ("0.0" ++ Str.dquote ++ "%" ++ Str.dquote)%string.

(** Lines 128-134: what the handler does to the chart it got. The handler
    mutates the chart object that sits in the slide; the document is read
    again only by [prs.save], after the last mutation, so the mutations
    are composed here and the result is placed in the slide. *)
Definition customize (chart_type : string) (chart : Chart) : Chart :=
  let chart := set_has_legend true chart in
  let chart := set_legend_position LEGEND_RIGHT chart in
  if String.eqb chart_type "pie" then
    set_number_format pie_number_format (set_has_data_labels true chart)
  else chart.

(** Lines 122-134 when [add_chart] raises nothing: the chart of the new
    graphic frame once the handler is done with it. *)
Definition build_chart (lib : Pptx) (chart_type : string) (cd : ChartData) : Chart :=
  customize chart_type
    (new_chart lib (dict_get CHART_TYPE_MAP chart_type COLUMN_CLUSTERED)
               (Inches 2) (Inches 2) (Inches 6) (Inches 4) cd).

(** The graphic frame goes to the end of the shapes of slide [i]. *)
Definition add_shape (sh : Shape) (s : Slide) : Slide :=
  {| slide_layout := slide_layout s; shapes := shapes s ++ [sh] |}.

Definition place_chart (prs : Presentation) (i : nat) (c : Chart) : Presentation :=
  {| slide_layouts := slide_layouts prs;
     slides := match slides prs !! i with
               | Some s => <[i := add_shape (GraphicFrame c) s]> (slides prs)
               | None => slides prs
               end |}.

(** ** [io.BytesIO]

    A buffer is what was written to it, and open or closed. *)
Record BytesIO : Type := mkBytesIO {
  getvalue : Presentation;
  closed : bool
}.

(** [pptx_buffer = io.BytesIO(); prs.save(pptx_buffer)] *)
Definition save (lib : Pptx) (prs : Presentation) : exc + BytesIO :=
  match save_raises lib prs with
  | Some e => inl e
  | None => inr (mkBytesIO prs false)
  end.

(** [buffer.seek(0)] *)
Definition seek0 (b : BytesIO) : exc + unit :=
  if closed b then inl (ValueError "I/O operation on closed file.") else inr tt.

(** [buffer.close()] *)
Definition close (b : BytesIO) : BytesIO := mkBytesIO (getvalue b) true.

(* ===================================================================== *)
(** * The registry, responses and the handler monad *)
(* ===================================================================== *)

(** An entry of [GENERATED_FILES]. A buffer belongs to one entry: line
    137 makes a new one for each entry it stores. *)
Record Artifact : Type := mkArtifact {
  buffer : BytesIO;
  filename : string;
  created : Datetime.datetime;
  content_type : string
}.

(** [GENERATED_FILES] *)
Abbreviation registry := (gmap string Artifact).

Inductive jval : Type :=
| JStr (s : string)
| JInt (z : Z)
| JStrOf (e : exc).        (* [str(e)] *)

Inductive Body : Type :=
| Json (fields : list (string * jval))                       (* [jsonify({...})] *)
| Attachment (data : Presentation) (mimetype download_name : string)
                                                             (* [send_file(..., as_attachment=True)] *)
| InternalServerError.     (* Flask's answer to an exception no handler caught *)

Record Response : Type := mkResponse {
  status : Z;
  body : Body
}.

(** How a block of statements ends: it falls through with a value, it
    executes a [return], or it raises. *)
Inductive outcome (A : Type) : Type :=
| Next (a : A)
| Return (r : Response)
| Raise (e : exc).
Arguments Next {A} a.
Arguments Return {A} r.
Arguments Raise {A} e.

(** Statements run against the registry. *)
Definition handler (A : Type) : Type := registry -> outcome A * registry.

Definition ret {A : Type} (a : A) : handler A := fun reg => (Next a, reg).

Definition bind {A B : Type} (m : handler A) (k : A -> handler B) : handler B :=
  fun reg =>
    match m reg with
    | (Next a, reg') => k a reg'
    | (Return r, reg') => (Return r, reg')
    | (Raise e, reg') => (Raise e, reg')
    end.

Definition return_ {A : Type} (r : Response) : handler A := fun reg => (Return r, reg).
Definition raise {A : Type} (e : exc) : handler A := fun reg => (Raise e, reg).

(** A call that returns or raises without touching the registry. *)
Definition call {A : Type} (x : exc + A) : handler A :=
  match x with inr a => ret a | inl e => raise e end.

Notation "x <- m ;; k" := (bind m (fun x => k))
  (at level 100, m at next level, right associativity).
Notation "m ;;; k" := (bind m (fun _ => k))
  (at level 100, right associativity).

(** [key in GENERATED_FILES], [GENERATED_FILES[key]],
    [GENERATED_FILES[key] = v], [del GENERATED_FILES[key]],
    [list(GENERATED_FILES.keys())] and [len(GENERATED_FILES)]. The keys
    come in the order of the finite map, each once; the insertion order of
    the dictionary is not modelled, and the sweep is shown below to give
    the same result for any listing of the keys. *)
Definition contains_key (key : string) : handler bool :=
  fun reg => (Next (bool_decide (is_Some (reg !! key))), reg).

Definition get_item (key : string) : handler Artifact :=
  fun reg => match reg !! key with
             | Some v => (Next v, reg)
             | None => (Raise (KeyError key), reg)
             end.

Definition set_item (key : string) (v : Artifact) : handler unit :=
  fun reg => (Next tt, <[key := v]> reg).

Definition del_item (key : string) : handler unit :=
  fun reg => match reg !! key with
             | Some _ => (Next tt, delete key reg)
             | None => (Raise (KeyError key), reg)
             end.

Definition keys : handler (list string) :=
  fun reg => (Next ((map_to_list reg).*1), reg).

Definition len : handler nat :=
  fun reg => (Next (size reg), reg).

(** [jsonify(fields), code] *)
Definition json (code : Z) (fields : list (string * jval)) : Response :=
  {| status := code; body := Json fields |}.

(** A view function under Flask: a returned response is sent; an exception
    that escapes it is answered with status 500. *)
Definition flask_view (m : handler Response) (reg : registry) : Response * registry :=
  match m reg with
  | (Next r, reg') | (Return r, reg') => (r, reg')
  | (Raise _, reg') => ({| status := 500; body := InternalServerError |}, reg')
  end.

(** [try: body except Exception as e: return jsonify({"error": str(e)}), 500] *)
Definition try_except (m : handler Response) : handler Response :=
  fun reg =>
    match m reg with
    | (Raise e, reg') => (Return (json 500 [("error", JStrOf e)]), reg')
    | other => other
    end.

(* ===================================================================== *)
(** * POST /generate-chart *)
(* ===================================================================== *)

(** An uploaded file: its name, how saving it under the temporary
    directory goes ([file.save(path)]), and what the library that reads
    the saved file returns or raises ([pandas.read_csv] or
    [pandas.read_excel] for the data file, by its extension;
    [Presentation(path)] for the template). *)
Record FileStorage (A : Type) : Type := mkFile {
  file_name : string;
  file_save : exc + unit;
  file_read : exc + A
}.
Arguments mkFile {A} _ _ _.
Arguments file_name {A} _.
Arguments file_save {A} _.
Arguments file_read {A} _.

(** [request.files] and [request.form], as far as the handler reads them.
    File names and form fields are text of code points below 256. *)
Record Request : Type := mkRequest {
  dataFile : option (FileStorage DataFrame);
  templateFile : option (FileStorage Presentation);
  chartType : option string;
  slidePosition : option string
}.

(** [request.form.get('chartType', 'bar')] *)
Definition form_chart_type (req : Request) : string :=
  match chartType req with
  | Some c => c
  | None => "bar"
  end.

(** [int(request.form.get('slidePosition', 1))] *)
Definition form_slide_position (req : Request) : exc + Z :=
  match slidePosition req with
  | None => inr 1
  | Some s => match Int.of_string s with
              | Some z => inr z
              | None => inl (ValueError s)
              end
  end.

(** Lines 53-55: the template, when one was uploaded under a name. *)
Definition select_template (req : Request) : option (FileStorage Presentation) :=
  match templateFile req with
  | Some f => if negb (String.eqb (file_name f) EmptyString) then Some f else None
  | None => None
  end.

Definition unsupported_format (name : string) : Response :=
  json 400 [("error", JStr ("Unsupported file format: " ++ name)%string)].

(** Lines 60-69. [data_file_path] is the upload's name joined to the
    temporary directory after a separator, so it ends with one of the
    dotted extensions exactly when the name does. *)
Definition read_data_file (data_file : FileStorage DataFrame) : handler DataFrame :=
  call (file_save data_file) ;;;
  if Str.endswith (file_name data_file) ".csv" then call (file_read data_file)
  else if Str.endswith (file_name data_file) ".xlsx"
          || Str.endswith (file_name data_file) ".xls" then call (file_read data_file)
  else return_ (unsupported_format (file_name data_file)).

(** Lines 72-77: the template when there is one, a new presentation
    otherwise. *)
Definition load_presentation (template_file : option (FileStorage Presentation))
  : exc + Presentation :=
  match template_file with
  | Some f => match file_save f with
              | inr _ => file_read f
              | inl e => inl e
              end
  | None => inr default_presentation
  end.

(** What lines 42-91 leave in the local variables. *)
Record Setup : Type := mkSetup {
  chart_type : string;
  slide_position : Z;
  df : DataFrame;
  prs : Presentation;
  slide : nat               (* where [slide] sits in [prs.slides] *)
}.

Definition no_data_file : Response :=
  json 400 [("error", JStr "No data file provided")].

(** Lines 42-91. *)
Definition generate_chart_setup (req : Request) : handler Setup :=
  data_file <- match dataFile req with
               | None => return_ no_data_file
               | Some f => ret f
               end ;;
  let chart_type := form_chart_type req in
  slide_position <- call (form_slide_position req) ;;
  let template_file := select_template req in
  df <- read_data_file data_file ;;
  prs <- call (load_presentation template_file) ;;
  prs <- call (ensure_slides prs slide_position) ;;
  let slide_idx := slide_position - 1 in
  slide <- call (get_slide prs slide_idx) ;;
  ret (mkSetup chart_type slide_position df prs slide).

Definition insufficient_columns : Response :=
  json 400 [("error", JStr "Data must have at least two columns (categories and values)")].

Definition pptx_content_type : string :=
  "application/vnd.openxmlformats-officedocument.presentationml.presentation".

(** Lines 142-143. *)
Definition make_file_id (now : Datetime.datetime) (chart_type : string) : string :=
  (Datetime.strftime_YmdHMS now ++ "_" ++ chart_type)%string.

Definition generated (file_id chart_type : string) : Response :=
  json 200
    [("message", JStr "Chart generated successfully");
     ("downloadUrl", JStr ("/download-chart/" ++ file_id)%string);
     ("previewUrl",
      JStr ("https://via.placeholder.com/800x450.png?text=Chart+Preview+" ++ chart_type)%string);
     ("chartType", JStr chart_type)].

(** Lines 93-163. [now1] and [now2] are the two readings of
    [datetime.now()], for the identifier and for the creation time. The
    buffer is new and open, so the [seek(0)] of line 139 raises nothing. *)
Definition generate_chart_build (lib : Pptx) (now1 now2 : Datetime.datetime) (s : Setup)
  : handler Response :=
  (if (shape1 (df s) <? 2)%nat then return_ insufficient_columns else ret tt) ;;;
  chart_data <- call (build_chart_data (df s)) ;;
  chart <- call (add_chart lib (dict_get CHART_TYPE_MAP (chart_type s) COLUMN_CLUSTERED)
                           (Inches 2) (Inches 2) (Inches 6) (Inches 4) chart_data) ;;
  let chart := customize (chart_type s) chart in
  let prs := place_chart (prs s) (slide s) chart in
  pptx_buffer <- call (save lib prs) ;;
  call (seek0 pptx_buffer) ;;;
  let file_id := make_file_id now1 (chart_type s) in
  let filename := ("chart_" ++ file_id ++ ".pptx")%string in
  set_item file_id (mkArtifact pptx_buffer filename now2 pptx_content_type) ;;;
  ret (generated file_id (chart_type s)).

(** [generate_chart], the whole view. *)
Definition generate_chart (lib : Pptx) (now1 now2 : Datetime.datetime) (req : Request)
  : registry -> Response * registry :=
  flask_view
    (try_except (s <- generate_chart_setup req ;; generate_chart_build lib now1 now2 s)).

(* ===================================================================== *)
(** * GET /download-chart/<file_id> *)
(* ===================================================================== *)

Definition file_not_found : Response :=
  json 404 [("error", JStr "File not found")].

(** The entry [a] once its buffer is closed. *)
Definition close_buffer (a : Artifact) : Artifact :=
  mkArtifact (close (buffer a)) (filename a) (created a) (content_type a).

(** [send_file(file_data['buffer'], mimetype=..., as_attachment=True,
    download_name=...)]. The response streams the buffer object itself,
    the one the entry holds, and a stream that was sent is closed
    (Werkzeug closes the file of a response when the response is closed):
    when the request is over, the buffer of the entry is closed. *)
Definition send_file (file_id : string) (file_data : Artifact) : handler Response :=
  fun reg =>
    (Next {| status := 200;
             body := Attachment (getvalue (buffer file_data)) (content_type file_data)
                                (filename file_data) |},
     <[file_id := close_buffer file_data]> reg).

(** [download_chart] has no [try]: the [ValueError] of [seek(0)] on a
    closed buffer escapes it. *)
Definition download_chart (file_id : string) : registry -> Response * registry :=
  flask_view
    (present <- contains_key file_id ;;
     (if negb present then return_ file_not_found else ret tt) ;;;
     file_data <- get_item file_id ;;
     call (seek0 (buffer file_data)) ;;;
     send_file file_id file_data).

(* ===================================================================== *)
(** * GET /cleanup *)
(* ===================================================================== *)

(** The body of the loop of lines 191-198, for one key, with the count
    [removed] so far. *)
Definition cleanup_step (now : Datetime.datetime) (removed : nat) (file_id : string)
  : handler nat :=
  file_data <- get_item file_id ;;
  if Datetime.total_seconds_gt (Datetime.sub now (created file_data)) 3600 then
    del_item file_id ;;; ret (S removed)
  else ret removed.

Fixpoint cleanup_loop (now : Datetime.datetime) (removed : nat) (ids : list string)
  : handler nat :=
  match ids with
  | [] => ret removed
  | file_id :: rest =>
      removed' <- cleanup_step now removed file_id ;;
      cleanup_loop now removed' rest
  end.

Definition cleanup_done (removed remaining : nat) : Response :=
  json 200
    [("message",
      JStr ("Cleanup complete. Removed " ++ Int.to_string removed ++ " old files.")%string);
     ("remaining", JInt (Z.of_nat remaining))].

Definition cleanup (now : Datetime.datetime) : registry -> Response * registry :=
  flask_view
    (ids <- keys ;;
     removed <- cleanup_loop now 0%nat ids ;;
     remaining <- len ;;
     ret (cleanup_done removed remaining)).

(* ===================================================================== *)
(** * Reference definitions, from the words of the specification *)
(* ===================================================================== *)

Module Spec.

(** A null cell: Python's [None], or the [nan] that stands for a missing
    value in a data frame ([pandas.isnull]). *)
Definition is_null (val : pyval) : bool :=
  match val with
  | PyNone => true
  | PyFloat f => Float.is_nan f
  | _ => false
  end.

Definition or_zero (x : option spec_float) : spec_float :=
  match x with Some f => f | None => Float.zero end.

(** "If it is text containing a percent sign, strip the sign and parse
    the remainder as a floating-point number, defaulting to zero on parse
    failure; otherwise attempt direct numeric coercion, defaulting to
    zero on failure or on non-numeric/null input." *)
Definition coerce (val : pyval) : spec_float :=
  if is_null val then Float.zero
  else match val with
       | PyStr s =>
           if Str.contains "%" s then or_zero (Float.of_string (Str.strip "%" s))
           else or_zero (Float.of_string s)
       | PyFloat f => f
       | PyInt z => Float.of_Z z
       | PyBool b => if b then Float.one else Float.zero
       | PyNone | PyObject _ => Float.zero
       end.

(** "Contains [word]", case-insensitively: some substring of [name] is
    [word] up to the case of its letters. *)
Definition contains_ci (word name : string) : Prop :=
  exists pre mid post : string,
    name = (pre ++ mid ++ post)%string /\ Str.lower mid = word.

(** "A layout whose name contains "blank" or "title"
    (case-insensitive)". *)
Definition preferred (layout : SlideLayout) : Prop :=
  exists name, layout_name layout = Some name
               /\ (contains_ci "blank" name \/ contains_ci "title" name).

(** [selectLayout(names, fallbackIndex) -> index]: the first preferred
    layout, else the fallback. *)
Definition selects (layouts : list SlideLayout) (fallback idx : nat) : Prop :=
  (exists layout, layouts !! idx = Some layout /\ preferred layout
                  /\ forall j l, (j < idx)%nat -> layouts !! j = Some l -> ~ preferred l)
  \/ ((forall l, l ∈ layouts -> ~ preferred l) /\ idx = fallback).

(** The enumerated chart kinds. *)
Definition chart_kinds : list string := ["pie"; "bar"; "line"; "scatter"; "area"].

(** "Artifacts whose age exceeds the threshold", in seconds. *)
Definition older_than (secs : Z) (now : Datetime.datetime) (a : Artifact) : Prop :=
  secs * 1000000 < now - created a.

End Spec.

(** The number a value of the [values] list stands for. *)
Definition num_value (v : pyval) : spec_float :=
  match v with
  | PyFloat f => f
  | PyInt z => Float.of_Z z
  | PyBool b => if b then Float.one else Float.zero
  | _ => S754_nan
  end.

(** An integer cell that rounds beyond the largest float: [float] raises
    [OverflowError] for it, which neither [except] clause of the loop
    catches. *)
Definition overflows (val : pyval) : bool :=
  match val with
  | PyInt z => Float.is_infinite (Float.of_Z z)
  | _ => false
  end.

(** What the loop appends for the cell [val], when the cell does not
    overflow. *)
Definition appended (val : pyval) : pyval :=
  match coerce_value val with
  | inr v => v
  | inl _ => val
  end.

(** The chart data lines 101-118 build from a frame, when no cell of the
    value column overflows. *)
Definition chart_data_of (df : DataFrame) : ChartData :=
  {| categories := iloc_col df 0;
     series := [("Values", List.map appended (iloc_col df 1))] |}.

(** The extensions [read_data_file] accepts. *)
Definition supported_extension (name : string) : bool :=
  Str.endswith name ".csv" || Str.endswith name ".xlsx" || Str.endswith name ".xls".

(** The base document: what line 75 or line 77 binds [prs] to. *)
Definition base_document (req : Request) : exc + Presentation :=
  load_presentation (select_template req).

(** [s] holds the locals of a run of lines 42-91 on [req] that reaches
    line 93: every step on the way succeeded. *)
Definition reaches_column_check (req : Request) (s : Setup) : Prop :=
  exists f base,
    dataFile req = Some f
    /\ chart_type s = form_chart_type req
    /\ form_slide_position req = inr (slide_position s)
    /\ supported_extension (file_name f) = true
    /\ file_save f = inr tt
    /\ file_read f = inr (df s)
    /\ base_document req = inr base
    /\ ensure_slides base (slide_position s) = inr (prs s)
    /\ get_slide (prs s) (slide_position s - 1) = inr (slide s).

(** The request [req] with another [chartType] field. *)
Definition with_chart_type (c : string) (req : Request) : Request :=
  {| dataFile := dataFile req;
     templateFile := templateFile req;
     chartType := Some c;
     slidePosition := slidePosition req |}.

(** The document stored under the identifier of a chart generated at
    [now] for the kind [c]. *)
Definition stored_document (now : Datetime.datetime) (c : string) (reg : registry)
  : option Presentation :=
  (fun a => getvalue (buffer a)) <$> reg !! make_file_id now c.

(** The document that goes to [prs.save] for the locals [s]: the chart in
    the target slide. *)
Definition composed (lib : Pptx) (s : Setup) : Presentation :=
  place_chart (prs s) (slide s) (build_chart lib (chart_type s) (chart_data_of (df s))).

(** Lines 101-139 raise nothing for the locals [s]: no cell of the value
    column overflows, [add_chart] takes the chart and [save] writes the
    document. *)
Definition build_succeeds (lib : Pptx) (s : Setup) : Prop :=
  Forall (fun cell => overflows cell = false) (iloc_col (df s) 1)
  /\ add_chart_raises lib (dict_get CHART_TYPE_MAP (chart_type s) COLUMN_CLUSTERED)
       (chart_data_of (df s)) = None
  /\ save_raises lib (composed lib s) = None.

(** The exception lines 101-139 raise for the locals [s], if any: that of
    the loop over the values, of [add_chart] or of [save]. *)
Definition build_raises (lib : Pptx) (s : Setup) : option exc :=
  match build_chart_data (df s) with
  | inl e => Some e
  | inr cd =>
      match add_chart_raises lib (dict_get CHART_TYPE_MAP (chart_type s) COLUMN_CLUSTERED)
                             cd with
      | Some e => Some e
      | None => save_raises lib (place_chart (prs s) (slide s)
                                   (build_chart lib (chart_type s) cd))
      end
  end.

(** The artifact line 146 stores. *)
Definition new_artifact (lib : Pptx) (now1 now2 : Datetime.datetime) (s : Setup)
  : Artifact :=
  mkArtifact
    (mkBytesIO (composed lib s) false)
    ("chart_" ++ make_file_id now1 (chart_type s) ++ ".pptx")%string
    now2 pptx_content_type.

#[global] Instance older_than_dec secs now a : Decision (Spec.older_than secs now a).
Proof. unfold Spec.older_than. apply _. Defined.

(** What is left of [reg] once the entries among [ids] that are older than
    an hour at [now] are gone. *)
Definition survivors (now : Datetime.datetime) (ids : list string) (reg : registry)
  : registry :=
  filter (fun kv => ~ (kv.1 ∈ ids /\ Spec.older_than 3600 now kv.2)) reg.

(** The answer of [download_chart] for a stored artifact whose buffer is
    open. *)
Definition attachment (a : Artifact) : Response :=
  {| status := 200;
     body := Attachment (getvalue (buffer a)) (content_type a) (filename a) |}.

(** Flask's answer to an exception that escapes a view. *)
Definition internal_server_error : Response :=
  {| status := 500; body := InternalServerError |}.

(** A slide made by [add_slide] from the layout the padding loop selects
    in [base]. *)
Definition padding_slide (base : Presentation) (s : Slide) : Prop :=
  exists layout,
    slide_layouts base !! select_layout_idx (slide_layouts base) = Some layout
    /\ s = new_slide layout.

(* ===================================================================== *)
(** * GET / *)
(* ===================================================================== *)

Definition home : registry -> Response * registry :=
  flask_view
    (ret (json 200 [("status", JStr "online");
                    ("message", JStr "Chart generation service is running")])).

(** The request [req] without its [templateFile] part. *)
Definition without_template (req : Request) : Request :=
  {| dataFile := dataFile req;
     templateFile := None;
     chartType := chartType req;
     slidePosition := slidePosition req |}.

(** What [float] is applied to for the cell [val]: the cell, or the cell
    stripped of percent signs when it is text with one (lines 106-113). *)
Definition float_argument (val : pyval) : pyval :=
  if isinstance_str val && has_percent val then strip_percent val else val.

(** Two moments in the same second of the clock. *)
Definition same_second (t t' : Datetime.datetime) : Prop :=
  t / Datetime.us_per_second = t' / Datetime.us_per_second.

(** The answer of [generate_chart] to an exception [e]. *)
Definition server_error (e : exc) : Response :=
  json 500 [("error", JStrOf e)].

(* ===================================================================== *)
(** * Sample inputs *)
(* ===================================================================== *)

Module Sample.

(** A value python-pptx can chart: a number that is finite. *)
Definition chartable (v : pyval) : bool :=
  match v with
  | PyFloat (S754_zero _) | PyFloat (S754_finite _ _ _) | PyInt _ => true
  | _ => false
  end.

Definition values_chartable (cd : ChartData) : bool :=
  forallb (fun ser => forallb chartable ser.2) (series cd).

(** A [Pptx] that does what python-pptx does on the chart data of this
    handler, as far as the examples below go: [add_chart] raises for the
    XY scatter chart, which wants XY chart data, for chart data without a
    category, and for a value that is not a finite number, and a new area
    chart has data labels. The other charts start without data labels,
    [save] raises nothing, and the texts of the errors are this sample's
    own. *)
Definition library : Pptx :=
  {| add_chart_raises := fun t cd =>
       match t with
       | XY_SCATTER => Some (LibraryError "chart data is not XY chart data")
       | _ =>
           match categories cd with
           | [] => Some (LibraryError "chart data has no category")
           | _ :: _ =>
               if values_chartable cd then None
               else Some (LibraryError "value is not a finite number")
           end
       end;
     chart_defaults := fun t _ =>
       mkDefaults false None (match t with AREA => true | _ => false end) None;
     save_raises := fun _ => None |}.

(** 45.0 and 3.5 *)
Definition f45 : spec_float := Float.of_Z 45.
Definition f3_5 : spec_float := Float.of_decimal false 35 (-1).

(** A two-column table of three rows: a percentage, a word, a number. *)
Definition table : DataFrame :=
  mkDataFrame 3
    [ [PyStr "North"; PyStr "South"; PyStr "East"];
      [PyStr "45%"; PyStr "abc"; PyFloat f3_5] ].

(** A table with a single column. *)
Definition one_column : DataFrame :=
  mkDataFrame 2 [ [PyStr "North"; PyStr "South"] ].

(** The row [West,] of a CSV file: its value cell is missing. *)
Definition missing_cell : pyval := PyFloat S754_nan.

Definition csv (tbl : DataFrame) : FileStorage DataFrame :=
  mkFile "data.csv" (inr tt) (inr tbl).

Definition pptx (deck : exc + Presentation) : FileStorage Presentation :=
  mkFile "deck.pptx" (inr tt) deck.

(** [slidePosition = 5], no template. *)
Definition req_five : Request :=
  mkRequest (Some (csv table)) None None (Some "5").

(** The same with the chart kinds ["pie"], ["area"] and ["scatter"]. *)
Definition req_pie : Request := with_chart_type "pie" req_five.
Definition req_area : Request := with_chart_type "area" req_five.
Definition req_scatter : Request := with_chart_type "scatter" req_five.

(** A one-column table, with a template that python-pptx cannot open. *)
Definition req_one_column : Request :=
  mkRequest (Some (csv one_column))
            (Some (pptx (inl (LibraryError "Package not found")))) None None.

(** A template with no slide and a single layout, whose name has neither
    "blank" nor "title" in it. *)
Definition bare_deck : Presentation :=
  {| slide_layouts := [mkLayout (Some "Custom Layout") []]; slides := [] |}.

Definition req_bare : Request :=
  mkRequest (Some (csv table)) (Some (pptx (inr bare_deck))) None (Some "1").

(** A template with one slide, and [slidePosition = 0]. *)
Definition one_slide_deck : Presentation :=
  {| slide_layouts := slide_layouts default_presentation;
     slides := [new_slide (mkLayout (Some "Blank") [])] |}.

Definition req_zero : Request :=
  mkRequest (Some (csv table)) (Some (pptx (inr one_slide_deck))) None (Some "0").

(** The default presentation padded to five slides, and the locals of
    [req_five] at line 93. *)
Definition five_slides : Presentation :=
  match ensure_slides default_presentation 5 with
  | inr deck => deck
  | inl _ => default_presentation
  end.

Definition title_slide_layout : SlideLayout := mkLayout (Some "Title Slide") [0; 1]%nat.

Definition setup_five : Setup := mkSetup "bar" 5 table five_slides 4.

(** The default presentation padded for the position [p]. *)
Definition padded (p : Z) : Presentation :=
  match ensure_slides default_presentation p with
  | inr deck => deck
  | inl _ => default_presentation
  end.

(** A one-column table and nothing else: the locals at line 93. *)
Definition req_narrow : Request :=
  mkRequest (Some (csv one_column)) None None None.

Definition setup_narrow : Setup := mkSetup "bar" 1 one_column (padded 1) 0.

(** A moment, and the same moment two hours later. *)
Definition noon : Datetime.datetime := 1700000000 * 1000000.
Definition two_pm : Datetime.datetime := noon + 7200 * 1000000.

(** A registry of two artifacts, made at noon and ten minutes before two. *)
Definition at_noon : Artifact :=
  mkArtifact (mkBytesIO default_presentation false) "chart_a.pptx" noon
             pptx_content_type.

Definition at_ten_to_two : Artifact :=
  mkArtifact (mkBytesIO five_slides false) "chart_b.pptx" (two_pm - 600 * 1000000)
             pptx_content_type.

Definition files : registry := <["a" := at_noon]> (<["b" := at_ten_to_two]> ∅).

(** No data file at all, and a slide position that is not a number. *)
Definition req_empty : Request := mkRequest None None None (Some "abc").

(** A data file, and a slide position that is not a number. *)
Definition req_abc : Request := mkRequest (Some (csv table)) None None (Some "abc").

(** A data file whose name has no supported extension, with a template
    that cannot be opened. *)
Definition req_txt : Request :=
  mkRequest (Some (mkFile "notes.txt" (inr tt) (inr table)))
            (Some (pptx (inl (LibraryError "Package not found")))) None None.

(** A template part without a file name. *)
Definition req_unnamed_template : Request :=
  mkRequest (Some (csv table))
            (Some (mkFile EmptyString (inr tt) (inr one_slide_deck))) None None.

(** [slidePosition = -3] on a template of one slide. *)
Definition req_minus_three : Request :=
  mkRequest (Some (csv table)) (Some (pptx (inr one_slide_deck))) None (Some "-3").

(** The locals of [req_zero] at line 93. *)
Definition setup_zero : Setup := mkSetup "bar" 0 table one_slide_deck 0.

(** The locals of [req_pie] and of [req_scatter] at line 93. *)
Definition setup_pie : Setup := mkSetup "pie" 5 table five_slides 4.
Definition setup_scatter : Setup := mkSetup "scatter" 5 table five_slides 4.

End Sample.

(* ===================================================================== *)
(** * Theorems: the series extractor *)
(* ===================================================================== *)

(** [float] of a string raises nothing but [ValueError]. *)
Lemma py_float_str s :
  py_float (PyStr s) = match Float.of_string s with
                       | Some f => inr f
                       | None => inl (ValueError s)
                       end.
Proof. reflexivity. Qed.

(** What the loop appends for a text cell. *)
Lemma coerce_value_str s :
  coerce_value (PyStr s) =
  inr match Float.of_string (if Str.contains "%" s then Str.strip "%" s else s) with
      | Some f => PyFloat f
      | None => PyInt 0
      end.
Proof.
  unfold coerce_value, isinstance_str, has_percent, strip_percent.
  cbn [andb]. destruct (Str.contains "%" s); rewrite py_float_str;
    destruct (Float.of_string _); reflexivity.
Qed.

(** The two [except] clauses catch what their [try] raises for a cell
    that does not overflow: the loop body appends, a float or the integer
    0. *)
Lemma coerce_value_appended val :
  overflows val = false ->
  coerce_value val = inr (appended val)
  /\ (appended val = PyInt 0 \/ exists f, appended val = PyFloat f).
Proof.
  unfold appended. destruct val as [s|f|z|b| |r]; intros Hval.
  - rewrite coerce_value_str. split; [reflexivity|].
    destruct (Float.of_string _); eauto.
  - split; [reflexivity|]. right. eexists. reflexivity.
  - cbn [overflows] in Hval.
    unfold coerce_value. cbn [isinstance_str andb py_float]. rewrite Hval.
    split; [reflexivity|]. right. eexists. reflexivity.
  - split; [reflexivity|]. right. eexists. reflexivity.
  - split; [reflexivity|]. left. reflexivity.
  - split; [reflexivity|]. left. reflexivity.
Qed.

(** For a cell that overflows the [OverflowError] of [float] goes through
    the [except (ValueError, TypeError)] of line 114. *)
Lemma coerce_value_overflow val :
  overflows val = true -> coerce_value val = inl int_too_large.
Proof.
  destruct val as [s|f|z|b| |r]; try discriminate. cbn [overflows]. intros Hz.
  unfold coerce_value. cbn [isinstance_str andb py_float]. rewrite Hz. reflexivity.
Qed.

Lemma coerce_values_appended cells :
  Forall (fun cell => overflows cell = false) cells ->
  coerce_values cells = inr (List.map appended cells).
Proof.
  induction 1 as [|val rest Hval _ IH]; [reflexivity|].
  cbn [coerce_values List.map].
  rewrite (proj1 (coerce_value_appended val Hval)), IH. reflexivity.
Qed.

Lemma coerce_values_overflow cells :
  Exists (fun cell => overflows cell = true) cells ->
  coerce_values cells = inl int_too_large.
Proof.
  induction 1 as [val rest Hval|val rest _ IH]; cbn [coerce_values].
  - by rewrite coerce_value_overflow.
  - destruct (overflows val) eqn:Hval.
    + by rewrite coerce_value_overflow.
    + rewrite (proj1 (coerce_value_appended val Hval)), IH. reflexivity.
Qed.

(** Every cell overflows or does not. *)
Lemma overflow_cases cells :
  Forall (fun cell => overflows cell = false) cells
  \/ Exists (fun cell => overflows cell = true) cells.
Proof.
  induction cells as [|val rest [IH|IH]]; [left; constructor| |].
  - destruct (overflows val) eqn:Hval; [right; by left | left; by constructor].
  - right. by right.
Qed.

(** Lines 101-118 raise nothing when no cell of the value column
    overflows, and the [OverflowError] of [float] otherwise. *)
Lemma build_chart_data_ok df :
  Forall (fun cell => overflows cell = false) (iloc_col df 1) ->
  build_chart_data df = inr (chart_data_of df).
Proof.
  intros Hcells.
  unfold build_chart_data, extract_values, extract_categories, chart_data_of.
  rewrite coerce_values_appended by exact Hcells. reflexivity.
Qed.

Lemma build_chart_data_overflow df :
  Exists (fun cell => overflows cell = true) (iloc_col df 1) ->
  build_chart_data df = inl int_too_large.
Proof.
  intros Hcells. unfold build_chart_data, extract_values.
  rewrite coerce_values_overflow by exact Hcells. reflexivity.
Qed.

(** The examples of the specification that the code meets: ["45%"] gives
    45.0, ["abc"] gives zero, 3.5 stays 3.5, and [None] gives zero. *)
Lemma coerce_value_examples :
  coerce_value (PyStr "45%") = inr (PyFloat Sample.f45)
  /\ coerce_value (PyStr "abc") = inr (PyInt 0)
  /\ num_value (PyInt 0) = Float.zero
  /\ coerce_value (PyFloat Sample.f3_5) = inr (PyFloat Sample.f3_5)
  /\ coerce_value (PyStr "3.5") = inr (PyFloat Sample.f3_5)
  /\ coerce_value PyNone = inr (PyInt 0).
Proof. repeat split; vm_compute; reflexivity. Qed.

(** On every cell that is not the missing-value [nan] and does not
    overflow, the loop appends the number the specification describes. *)
Lemma coerce_value_refines_spec val :
  val <> PyFloat S754_nan -> overflows val = false ->
  exists v, coerce_value val = inr v /\ num_value v = Spec.coerce val.
Proof.
  intros Hnan Hval. destruct val as [s|f|z|b| |r].
  - rewrite coerce_value_str. eexists. split; [reflexivity|].
    unfold Spec.coerce. cbn [Spec.is_null].
    destruct (Str.contains "%" s); destruct (Float.of_string _); reflexivity.
  - exists (PyFloat f). split; [reflexivity|].
    destruct f; try reflexivity. congruence.
  - exists (PyFloat (Float.of_Z z)).
    split; [|reflexivity]. cbn [overflows] in Hval.
    unfold coerce_value. cbn [isinstance_str andb py_float]. by rewrite Hval.
  - eexists. split; [reflexivity|]. destruct b; reflexivity.
  - eexists. split; reflexivity.
  - eexists. split; reflexivity.
Qed.

(** C1 (where the code departs from the claim): a missing value cell is
    the float [nan]; it is not text and [float] accepts it, so the loop
    appends [nan], where the coercion the specification describes gives
    zero. *)
Theorem coerce_value_missing_cell :
  coerce_value Sample.missing_cell = inr (PyFloat S754_nan)
  /\ Spec.coerce Sample.missing_cell = Float.zero
  /\ num_value (PyFloat S754_nan) <> Spec.coerce Sample.missing_cell.
Proof. repeat split. discriminate. Qed.






(* ===================================================================== *)
(** * Theorems: strings *)
(* ===================================================================== *)

Lemma append_cons c (a b : string) :
  (String c a ++ b)%string = String c (a ++ b)%string.
Proof. reflexivity. Qed.

Lemma append_empty (b : string) : (EmptyString ++ b)%string = b.
Proof. reflexivity. Qed.

Lemma prefix_app (p s : string) :
  String.prefix p s = true <-> exists post, s = (p ++ post)%string.
Proof.
  revert s. induction p as [|a p IH]; intros s.
  - split; [intros _; exists s; reflexivity | destruct s; reflexivity].
  - destruct s as [|b s].
    + split; [discriminate | intros [post H]; discriminate].
    + cbn [String.prefix]. destruct (Ascii.ascii_dec a b) as [->|Hne].
      * rewrite IH. split; intros [post H]; exists post;
          rewrite append_cons in *; congruence.
      * split; [discriminate|]. intros [post H].
        rewrite append_cons in H. congruence.
Qed.

(** [needle in hay]: [hay] is [needle] between two strings. *)
Lemma contains_app (needle hay : string) :
  Str.contains needle hay = true
  <-> exists pre post, hay = (pre ++ needle ++ post)%string.
Proof.
  induction hay as [|c hay IH]; cbn [Str.contains].
  - destruct (String.prefix needle EmptyString) eqn:Hp.
    + apply prefix_app in Hp as [post Hp]. split; [|reflexivity].
      intros _. exists EmptyString, post. exact Hp.
    + split; [discriminate|]. intros (pre & post & H).
      destruct pre; [|discriminate]. rewrite append_empty in H.
      assert (String.prefix needle EmptyString = true) by (apply prefix_app; eauto).
      congruence.
  - destruct (String.prefix needle (String c hay)) eqn:Hp.
    + apply prefix_app in Hp as [post Hp]. split; [|reflexivity].
      intros _. exists EmptyString, post. exact Hp.
    + rewrite IH. split.
      * intros (pre & post & ->). exists (String c pre), post. reflexivity.
      * intros (pre & post & H). destruct pre as [|c' pre].
        -- rewrite append_empty in H.
           assert (String.prefix needle (String c hay) = true)
             by (apply prefix_app; eauto).
           congruence.
        -- rewrite append_cons in H. injection H as _ ->. eauto.
Qed.

Lemma lower_cons c s :
  Str.lower (String c s) = String (Str.lower_char c) (Str.lower s).
Proof. reflexivity. Qed.

Lemma lower_app (a b : string) :
  Str.lower (a ++ b) = (Str.lower a ++ Str.lower b)%string.
Proof.
  induction a as [|c a IH]; [reflexivity|].
  rewrite append_cons, !lower_cons, append_cons, IH. reflexivity.
Qed.

(** Lowering keeps the positions: a split of [s.lower()] is the lowering
    of a split of [s]. *)
Lemma lower_split (s x y : string) :
  Str.lower s = (x ++ y)%string ->
  exists a b, s = (a ++ b)%string /\ Str.lower a = x /\ Str.lower b = y.
Proof.
  revert s. induction x as [|c x IH]; intros s H.
  - exists EmptyString, s. auto.
  - destruct s as [|d s]; [discriminate|].
    rewrite lower_cons, append_cons in H. injection H as Hc Hs.
    destruct (IH _ Hs) as (a & b & -> & Ha & Hb).
    exists (String d a), b. rewrite lower_cons, Ha, Hc. auto.
Qed.

(** The test of the source, [word in name.lower()], is containment up to
    case. *)
Lemma contains_lower_ci (word name : string) :
  Str.contains word (Str.lower name) = true <-> Spec.contains_ci word name.
Proof.
  rewrite contains_app. unfold Spec.contains_ci. split.
  - intros (pre & post & H).
    apply lower_split in H as (a & rest & -> & Ha & Hrest).
    apply lower_split in Hrest as (mid & b & -> & Hmid & Hb).
    exists a, mid, b. auto.
  - intros (pre & mid & post & -> & Hmid).
    exists (Str.lower pre), (Str.lower post).
    rewrite !lower_app, Hmid. reflexivity.
Qed.

Lemma contains_ci_nonempty (word name : string) :
  word <> EmptyString -> Spec.contains_ci word name -> name <> EmptyString.
Proof.
  intros Hw (pre & mid & post & -> & Hmid) Hname.
  destruct pre; [|discriminate]. destruct mid; [|discriminate].
  apply Hw. rewrite <- Hmid. reflexivity.
Qed.

(* ===================================================================== *)
(** * Theorems: the layout of a padding slide *)
(* ===================================================================== *)

(** The test of line 84 is the preference of the specification. *)
Lemma layout_matches_preferred layout :
  layout_matches layout = true <-> Spec.preferred layout.
Proof.
  unfold layout_matches, Spec.preferred.
  destruct (layout_name layout) as [name|].
  - rewrite andb_true_iff, orb_true_iff, negb_true_iff, !contains_lower_ci.
    split.
    + intros [_ H]. eauto.
    + intros (name' & [= <-] & H). split; [|exact H].
      apply String.eqb_neq.
      destruct H as [H|H]; eapply contains_ci_nonempty; try exact H; discriminate.
  - split; [discriminate | intros (name & H & _); discriminate].
Qed.

Lemma scan_layouts_some i0 layouts idx :
  scan_layouts i0 layouts = Some idx ->
  exists k layout, idx = (i0 + k)%nat /\ layouts !! k = Some layout
    /\ layout_matches layout = true
    /\ forall j l, (j < k)%nat -> layouts !! j = Some l -> layout_matches l = false.
Proof.
  revert i0. induction layouts as [|l0 layouts IH]; intros i0 H; simpl in H.
  - discriminate.
  - destruct (layout_matches l0) eqn:Hm.
    + injection H as <-. exists 0%nat, l0. repeat split; [lia | exact Hm | lia].
    + destruct (IH _ H) as (k & layout & -> & Hk & Hmk & Hbefore).
      exists (S k), layout. repeat split; [lia | exact Hk | exact Hmk |].
      intros [|j] l Hj Hl; simpl in Hl.
      * congruence.
      * apply (Hbefore j); [lia | exact Hl].
Qed.

Lemma scan_layouts_none i0 layouts :
  scan_layouts i0 layouts = None ->
  forall l, l ∈ layouts -> layout_matches l = false.
Proof.
  revert i0. induction layouts as [|l0 layouts IH]; intros i0 H l Hl; simpl in H.
  - inversion Hl.
  - destruct (layout_matches l0) eqn:Hm; [discriminate|].
    apply elem_of_cons in Hl as [->|Hl]; [exact Hm | eauto].
Qed.

(** The index of lines 82-86 is the one [selectLayout] describes, with
    fallback 5. *)
Lemma select_layout_idx_selects layouts :
  Spec.selects layouts 5 (select_layout_idx layouts).
Proof.
  unfold Spec.selects, select_layout_idx.
  destruct (scan_layouts 0 layouts) as [idx|] eqn:Hscan.
  - left. apply scan_layouts_some in Hscan as (k & layout & -> & Hk & Hm & Hbefore).
    exists layout. simpl. repeat split; [exact Hk | by apply layout_matches_preferred |].
    intros j l Hj Hl Hp. apply layout_matches_preferred in Hp.
    rewrite (Hbefore j l Hj Hl) in Hp. discriminate.
  - right. split; [|reflexivity]. intros l Hl Hp.
    apply layout_matches_preferred in Hp.
    rewrite (scan_layouts_none _ _ Hscan l Hl) in Hp. discriminate.
Qed.

Lemma ensure_slides_loop_inr n base p prs' :
  ensure_slides_loop n base p = inr prs' ->
  slide_layouts prs' = slide_layouts base
  /\ exists added,
       slides prs' = slides base ++ added
       /\ length added
          = Nat.min n (Z.to_nat (p - Z.of_nat (length (slides base))))
       /\ Forall (padding_slide base) added.
Proof.
  revert base. induction n as [|n IH]; intros base H; simpl in H.
  - injection H as <-. split; [reflexivity|]. exists []. rewrite app_nil_r.
    repeat split. constructor.
  - destruct (Z.ltb_spec (Z.of_nat (length (slides base))) p) as [Hlt|Hge].
    + unfold get_layout in H.
      destruct (slide_layouts base !! select_layout_idx (slide_layouts base))
        as [layout|] eqn:Hlayout; [|discriminate].
      apply IH in H as (Hl & added & Hs & Hlen & Hall).
      cbn [add_slide slide_layouts slides] in *.
      split; [exact Hl|]. exists (new_slide layout :: added).
      rewrite Hs, <- app_assoc. repeat split.
      * rewrite length_app in Hlen. cbn [length] in *. lia.
      * constructor; [exists layout; auto|]. exact Hall.
    + injection H as <-. split; [reflexivity|]. exists []. rewrite app_nil_r.
      repeat split; [cbn [length]; lia | constructor].
Qed.

Lemma ensure_slides_loop_ok n base p :
  p <= Z.of_nat (length (slides base))
  \/ is_Some (slide_layouts base !! select_layout_idx (slide_layouts base)) ->
  exists prs', ensure_slides_loop n base p = inr prs'.
Proof.
  revert base. induction n as [|n IH]; intros base H; simpl.
  - eauto.
  - destruct (Z.ltb_spec (Z.of_nat (length (slides base))) p) as [Hlt|Hge]; [|eauto].
    destruct H as [H|[layout Hlayout]]; [lia|].
    unfold get_layout. rewrite Hlayout. apply IH.
    right. cbn [add_slide slide_layouts]. eauto.
Qed.

(** Without the selected layout the first missing slide cannot be added. *)
Lemma ensure_slides_no_layout base p :
  Z.of_nat (length (slides base)) < p ->
  slide_layouts base !! select_layout_idx (slide_layouts base) = None ->
  ensure_slides base p = inl (IndexError "slide layout index out of range").
Proof.
  intros Hlt Hnone. unfold ensure_slides.
  destruct (Z.to_nat (p - Z.of_nat (length (slides base)))) as [|n] eqn:Hn; [lia|].
  simpl. destruct (Z.ltb_spec (Z.of_nat (length (slides base))) p); [|lia].
  unfold get_layout. rewrite Hnone. reflexivity.
Qed.

(** The loop stops only when its condition is false: the bound on its
    iterations is never what ends it. *)
Lemma ensure_slides_exit base p prs' :
  ensure_slides base p = inr prs' -> p <= Z.of_nat (length (slides prs')).
Proof.
  unfold ensure_slides. intros H.
  apply ensure_slides_loop_inr in H as (_ & added & -> & Hlen & _).
  rewrite length_app. lia.
Qed.

(** C4: the index the padding loop computes is that of the first layout
    whose name contains "blank" or "title" in any case, and 5 when there
    is none; every slide the loop appends is made from the layout at that
    index. *)
Theorem padding_uses_selected_layout (base : Presentation) (p : Z) :
  Spec.selects (slide_layouts base) 5 (select_layout_idx (slide_layouts base))
  /\ forall prs', ensure_slides base p = inr prs' ->
       exists added,
         slides prs' = slides base ++ added
         /\ forall s, s ∈ added ->
              exists layout,
                slide_layouts base !! select_layout_idx (slide_layouts base)
                = Some layout
                /\ s = new_slide layout /\ slide_layout s = layout.
Proof.
  split; [apply select_layout_idx_selects|].
  intros prs' H. unfold ensure_slides in H.
  apply ensure_slides_loop_inr in H as (_ & added & Hs & _ & Hall).
  exists added. split; [exact Hs|]. intros s Hin.
  rewrite List.Forall_forall in Hall.
  destruct (Hall s) as (layout & Hl & ->); [by apply list_elem_of_In|].
  exists layout. auto.
Qed.

(** C4 on the default presentation padded to five slides: the layout is
    "Title Slide", at index 0. *)
Lemma padding_uses_selected_layout_witness :
  select_layout_idx (slide_layouts default_presentation) = 0%nat
  /\ exists added,
       slides Sample.five_slides = added
       /\ forall s, s ∈ added -> slide_layout s = Sample.title_slide_layout.
Proof.
  destruct (padding_uses_selected_layout default_presentation 5) as [_ Hpad].
  destruct (Hpad Sample.five_slides) as (added & Hslides & Hall);
    [vm_compute; reflexivity|].
  split; [vm_compute; reflexivity|].
  exists added. split; [exact Hslides|].
  intros s Hin. destruct (Hall s Hin) as (layout & Hlayout & _ & ->).
  vm_compute in Hlayout. injection Hlayout as <-. reflexivity.
Defined.

(* ===================================================================== *)
(** * Theorems: how a run of [generate_chart] goes *)
(* ===================================================================== *)

Ltac unfold_handler :=
  cbv [bind ret return_ raise call set_item get_item del_item
       contains_key keys len try_except flask_view send_file] in *.

Lemma read_data_file_eq f :
  read_data_file f =
  (call (file_save f) ;;;
   if supported_extension (file_name f) then call (file_read f)
   else return_ (unsupported_format (file_name f))).
Proof.
  unfold read_data_file, supported_extension.
  destruct (Str.endswith (file_name f) ".csv"); [reflexivity|].
  destruct (Str.endswith (file_name f) ".xlsx"); [reflexivity|].
  destruct (Str.endswith (file_name f) ".xls"); reflexivity.
Qed.

(** Lines 42-91 leave the registry alone, and what they end with is read
    off the request step by step. *)
Lemma generate_chart_setup_run req reg :
  generate_chart_setup req reg =
  (match dataFile req with
   | None => Return no_data_file
   | Some f =>
       match form_slide_position req with
       | inl e => Raise e
       | inr p =>
           match file_save f with
           | inl e => Raise e
           | inr _ =>
           if supported_extension (file_name f) then
             match file_read f with
             | inl e => Raise e
             | inr tbl =>
                 match base_document req with
                 | inl e => Raise e
                 | inr base =>
                     match ensure_slides base p with
                     | inl e => Raise e
                     | inr prs' =>
                         match get_slide prs' (p - 1) with
                         | inl e => Raise e
                         | inr i =>
                             Next (mkSetup (form_chart_type req) p tbl prs' i)
                         end
                     end
                 end
             end
           else Return (unsupported_format (file_name f))
           end
       end
   end, reg).
Proof.
  unfold generate_chart_setup, base_document. unfold_handler.
  destruct (dataFile req) as [f|]; [|reflexivity].
  destruct (form_slide_position req) as [e|p]; [reflexivity|].
  rewrite read_data_file_eq. unfold_handler.
  destruct (file_save f) as [e|[]]; [reflexivity|].
  destruct (supported_extension (file_name f)); [|reflexivity]. unfold_handler.
  destruct (file_read f) as [e|tbl]; [reflexivity|].
  destruct (load_presentation (select_template req)) as [e|base]; [reflexivity|].
  destruct (ensure_slides base p) as [e|prs']; [reflexivity|].
  destruct (get_slide prs' (p - 1)) as [e|i]; reflexivity.
Qed.

Lemma generate_chart_setup_registry req reg :
  (generate_chart_setup req reg).2 = reg.
Proof. rewrite generate_chart_setup_run. reflexivity. Qed.

(** A run of lines 42-91 falls through to line 93 exactly when each of
    its steps succeeds. *)
Lemma generate_chart_setup_next req reg s reg' :
  generate_chart_setup req reg = (Next s, reg')
  <-> reg' = reg /\ reaches_column_check req s.
Proof.
  rewrite generate_chart_setup_run. unfold reaches_column_check. split.
  - destruct (dataFile req) as [f|]; [|discriminate].
    destruct (form_slide_position req) as [e|p]; [discriminate|].
    destruct (file_save f) as [e|[]] eqn:Hsave; [discriminate|].
    destruct (supported_extension (file_name f)) eqn:Hext; [|discriminate].
    destruct (file_read f) as [e|tbl] eqn:Hread; [discriminate|].
    destruct (base_document req) as [e|base]; [discriminate|].
    destruct (ensure_slides base p) as [e|prs'] eqn:Hpad; [discriminate|].
    destruct (get_slide prs' (p - 1)) as [e|i] eqn:Hget; [discriminate|].
    intros [= <- <-]. split; [reflexivity|]. exists f, base. auto 10.
  - intros (-> & f & base & Hf & Hc & Hp & Hext & Hsave & Hread & Hbase & Hpad & Hget).
    destruct s as [c p tbl prs' i]. cbn [chart_type slide_position df prs slide] in *.
    rewrite Hf, Hp, Hsave, Hext, Hread, Hbase, Hpad, Hget, Hc. reflexivity.
Qed.

(** The only [return]s of lines 42-91 are the two 400 responses. *)
Lemma generate_chart_setup_return req reg r reg' :
  generate_chart_setup req reg = (Return r, reg') ->
  r = no_data_file \/ exists name, r = unsupported_format name.
Proof.
  rewrite generate_chart_setup_run.
  destruct (dataFile req) as [f|]; [|intros [= <- _]; auto].
  destruct (form_slide_position req) as [e|p]; [discriminate|].
  destruct (file_save f) as [e|[]]; [discriminate|].
  destruct (supported_extension (file_name f)); [|intros [= <- _]; eauto].
  destruct (file_read f) as [e|tbl]; [discriminate|].
  destruct (base_document req) as [e|base]; [discriminate|].
  destruct (ensure_slides base p) as [e|prs']; [discriminate|].
  destruct (get_slide prs' (p - 1)) as [e|i]; discriminate.
Qed.

Lemma overflow_exclusive cells :
  Forall (fun cell => overflows cell = false) cells ->
  Exists (fun cell => overflows cell = true) cells -> False.
Proof.
  intros Hall Hex. induction Hex as [val rest Hval|val rest _ IH];
    inversion Hall; subst; [congruence | auto].
Qed.

(** Lines 101-139 raise nothing exactly when no cell of the value column
    overflows, [add_chart] takes the chart and [save] writes the
    document. *)
Lemma build_raises_none lib s : build_raises lib s = None <-> build_succeeds lib s.
Proof.
  unfold build_raises, build_succeeds, composed.
  destruct (overflow_cases (iloc_col (df s) 1)) as [Hok|Hbad].
  - rewrite build_chart_data_ok by exact Hok.
    destruct (add_chart_raises lib _ _) as [e|].
    + split; [discriminate | intros (_ & H & _); discriminate H].
    + split; [auto | intros (_ & _ & H); exact H].
  - rewrite build_chart_data_overflow by exact Hbad.
    split; [discriminate|]. intros [Hok _]. destruct (overflow_exclusive _ Hok Hbad).
Qed.

(** Lines 93-163, read off the locals. *)
Lemma generate_chart_build_run lib now1 now2 s reg :
  generate_chart_build lib now1 now2 s reg =
  if (shape1 (df s) <? 2)%nat then (Return insufficient_columns, reg)
  else match build_raises lib s with
       | Some e => (Raise e, reg)
       | None =>
           (Next (generated (make_file_id now1 (chart_type s)) (chart_type s)),
            <[make_file_id now1 (chart_type s) := new_artifact lib now1 now2 s]> reg)
       end.
Proof.
  unfold generate_chart_build, build_raises, new_artifact, composed, add_chart,
    save, seek0. unfold_handler.
  destruct (shape1 (df s) <? 2)%nat; [reflexivity|].
  destruct (overflow_cases (iloc_col (df s) 1)) as [Hok|Hbad].
  - rewrite build_chart_data_ok by exact Hok.
    destruct (add_chart_raises lib _ _) as [e|]; [reflexivity|].
    fold (build_chart lib (chart_type s) (chart_data_of (df s))).
    destruct (save_raises lib _) as [e|]; reflexivity.
  - rewrite build_chart_data_overflow by exact Hbad. reflexivity.
Qed.

(** The whole handler, read off the request. *)
Lemma generate_chart_run lib now1 now2 req reg :
  generate_chart lib now1 now2 req reg =
  match generate_chart_setup req reg with
  | (Next s, _) =>
      if (shape1 (df s) <? 2)%nat then (insufficient_columns, reg)
      else match build_raises lib s with
           | Some e => (server_error e, reg)
           | None =>
               (generated (make_file_id now1 (chart_type s)) (chart_type s),
                <[make_file_id now1 (chart_type s) := new_artifact lib now1 now2 s]> reg)
           end
  | (Return r, _) => (r, reg)
  | (Raise e, _) => (server_error e, reg)
  end.
Proof.
  pose proof (generate_chart_setup_registry req reg) as Hreg.
  unfold generate_chart, flask_view, try_except, bind at 1.
  destruct (generate_chart_setup req reg) as [[s|r|e] reg'] eqn:Hsetup;
    cbn [snd] in Hreg; subst reg'; [|reflexivity..].
  rewrite generate_chart_build_run.
  destruct (shape1 (df s) <? 2)%nat; [reflexivity|].
  destruct (build_raises lib s); reflexivity.
Qed.

(** A run that reaches line 93 with a table of two or more columns, and
    in which lines 101-139 raise nothing, stores the chart and answers
    200, whatever the registry holds. *)
Lemma generate_chart_reaching lib now1 now2 req reg s :
  reaches_column_check req s -> (2 <= shape1 (df s))%nat -> build_succeeds lib s ->
  generate_chart lib now1 now2 req reg
  = (generated (make_file_id now1 (chart_type s)) (chart_type s),
     <[make_file_id now1 (chart_type s) := new_artifact lib now1 now2 s]> reg).
Proof.
  intros Hs Hcols Hbuild.
  assert (Hsetup : generate_chart_setup req reg = (Next s, reg))
    by (apply generate_chart_setup_next; auto).
  rewrite generate_chart_run, Hsetup.
  destruct (Nat.ltb_spec (shape1 (df s)) 2); [lia|].
  apply build_raises_none in Hbuild. rewrite Hbuild. reflexivity.
Qed.

(** A 200 answer means that the run reached line 93, that the table has
    two columns or more and that lines 101-139 raised nothing: the chart
    was built and stored. *)
Lemma generate_chart_200 lib now1 now2 req reg :
  status (generate_chart lib now1 now2 req reg).1 = 200 ->
  exists s,
    reaches_column_check req s /\ (2 <= shape1 (df s))%nat /\ build_succeeds lib s
    /\ forall reg',
         generate_chart lib now1 now2 req reg'
         = (generated (make_file_id now1 (chart_type s)) (chart_type s),
            <[make_file_id now1 (chart_type s) := new_artifact lib now1 now2 s]> reg').
Proof.
  rewrite generate_chart_run.
  destruct (generate_chart_setup req reg) as [[s|r|e] reg'] eqn:Hsetup.
  - apply generate_chart_setup_next in Hsetup as [-> Hs].
    destruct (Nat.ltb_spec (shape1 (df s)) 2); [discriminate|].
    destruct (build_raises lib s) as [e|] eqn:Hbuild; [discriminate|]. intros _.
    apply build_raises_none in Hbuild. exists s.
    split; [exact Hs|]. split; [assumption|]. split; [exact Hbuild|].
    intros reg'. by apply generate_chart_reaching.
  - apply generate_chart_setup_return in Hsetup as [->|[name ->]]; discriminate.
  - discriminate.
Qed.

(** The locals at line 93 are a function of the request. *)
Lemma reaches_column_check_unique req s1 s2 :
  reaches_column_check req s1 -> reaches_column_check req s2 -> s1 = s2.
Proof.
  intros H1 H2.
  assert (E1 : generate_chart_setup req ∅ = (Next s1, ∅))
    by (apply generate_chart_setup_next; auto).
  assert (E2 : generate_chart_setup req ∅ = (Next s2, ∅))
    by (apply generate_chart_setup_next; auto).
  congruence.
Qed.

Lemma get_slide_lookup (deck : Presentation) z i :
  get_slide deck z = inr i -> exists target, slides deck !! i = Some target.
Proof.
  unfold get_slide, py_index. intros H.
  destruct (_ && _) eqn:Hrange; [|discriminate]. injection H as <-.
  apply lookup_lt_is_Some. destruct (z <? 0); lia.
Qed.

Lemma get_slide_position (deck : Presentation) p :
  1 <= p <= Z.of_nat (length (slides deck)) ->
  get_slide deck (p - 1) = inr (Z.to_nat (p - 1)).
Proof.
  intros Hp. unfold get_slide, py_index.
  destruct (Z.ltb_spec (p - 1) 0); [lia|].
  destruct (Z.leb_spec 0 (p - 1)); [|lia].
  destruct (Z.ltb_spec (p - 1) (Z.of_nat (length (slides deck)))); [|lia].
  reflexivity.
Qed.

Lemma place_chart_slides (deck : Presentation) i c target :
  slides deck !! i = Some target ->
  slides (place_chart deck i c)
  = <[i := add_shape (GraphicFrame c) target]> (slides deck)
  /\ slides (place_chart deck i c) !! i = Some (add_shape (GraphicFrame c) target)
  /\ length (slides (place_chart deck i c)) = length (slides deck).
Proof.
  intros H. unfold place_chart. cbn [slides]. rewrite H.
  repeat split.
  - apply list_lookup_insert_eq. by eapply lookup_lt_Some.
  - apply length_insert.
Qed.

(* ===================================================================== *)
(** * Theorems: the column check *)
(* ===================================================================== *)

(** C3 (as stated, refuted): the table has one column, yet the answer is
    not the 400 of the column check: the template cannot be opened, line 75
    raises, and the handler answers 500 before it looks at the columns. *)
Lemma one_column_without_column_error :
  dataFile Sample.req_one_column = Some (Sample.csv Sample.one_column)
  /\ (shape1 Sample.one_column < 2)%nat
  /\ generate_chart Sample.library Sample.noon Sample.noon Sample.req_one_column ∅
     = (json 500 [("error", JStrOf (LibraryError "Package not found"))], ∅)
  /\ (generate_chart Sample.library Sample.noon Sample.noon Sample.req_one_column ∅).1
     <> insufficient_columns.
Proof.
  assert (E : generate_chart Sample.library Sample.noon Sample.noon
                Sample.req_one_column ∅
              = (json 500 [("error", JStrOf (LibraryError "Package not found"))], ∅))
    by (vm_compute; reflexivity).
  split; [reflexivity|]. split; [unfold shape1; simpl; lia|].
  split; [exact E|]. rewrite E. discriminate.
Qed.

(** C3 (amended): the handler answers with the 400 response of the column
    check exactly when the run reaches the check, every earlier step of
    lines 42-91 having succeeded, and the loaded table has fewer than two
    columns; the registry is then unchanged. With a loaded table of two or
    more columns that response is never produced. *)
Theorem insufficient_columns_iff lib now1 now2 req reg :
  ((generate_chart lib now1 now2 req reg).1 = insufficient_columns
   <-> exists s, reaches_column_check req s /\ (shape1 (df s) < 2)%nat)
  /\ ((generate_chart lib now1 now2 req reg).1 = insufficient_columns ->
      (generate_chart lib now1 now2 req reg).2 = reg)
  /\ (forall f tbl,
        dataFile req = Some f -> file_read f = inr tbl -> (2 <= shape1 tbl)%nat ->
        (generate_chart lib now1 now2 req reg).1 <> insufficient_columns).
Proof.
  assert (Hiff : (generate_chart lib now1 now2 req reg).1 = insufficient_columns
                 -> exists s, reaches_column_check req s /\ (shape1 (df s) < 2)%nat
                              /\ (generate_chart lib now1 now2 req reg).2 = reg).
  { rewrite generate_chart_run.
    destruct (generate_chart_setup req reg) as [[s|r|e] reg'] eqn:Hsetup.
    - apply generate_chart_setup_next in Hsetup as [-> Hs].
      destruct (Nat.ltb_spec (shape1 (df s)) 2); [eauto|].
      destruct (build_raises lib s); discriminate.
    - cbn [fst].
      apply generate_chart_setup_return in Hsetup as [->|[name ->]]; discriminate.
    - discriminate. }
  repeat split.
  - intros H. destruct (Hiff H) as (s & ? & ? & _). eauto.
  - intros (s & Hs & Hlt).
    assert (Hsetup : generate_chart_setup req reg = (Next s, reg))
      by (apply generate_chart_setup_next; auto).
    rewrite generate_chart_run, Hsetup.
    destruct (Nat.ltb_spec (shape1 (df s)) 2); [reflexivity | lia].
  - intros H. destruct (Hiff H) as (s & _ & _ & Hreg). exact Hreg.
  - intros f tbl Hf Hread Hcols H.
    destruct (Hiff H) as (s & (f' & base & Hf' & _ & _ & _ & _ & Hread' & _) & Hlt & _).
    assert (f' = f) by congruence. subst f'.
    assert (df s = tbl) by congruence. subst tbl. lia.
Qed.

(** C3 on a one-column table that reaches the check, and on a table of
    two columns. *)
Lemma insufficient_columns_iff_witness :
  (generate_chart Sample.library Sample.noon Sample.noon Sample.req_narrow
     Sample.files).1
  = insufficient_columns
  /\ (generate_chart Sample.library Sample.noon Sample.noon Sample.req_narrow
        Sample.files).2
     = Sample.files
  /\ (generate_chart Sample.library Sample.noon Sample.noon Sample.req_five
        Sample.files).1
     <> insufficient_columns.
Proof.
  destruct (insufficient_columns_iff Sample.library Sample.noon Sample.noon
              Sample.req_narrow Sample.files) as ([_ Hnarrow] & Hreg & _).
  destruct (insufficient_columns_iff Sample.library Sample.noon Sample.noon
              Sample.req_five Sample.files) as (_ & _ & Hwide).
  assert (Hs : reaches_column_check Sample.req_narrow Sample.setup_narrow).
  { apply (generate_chart_setup_next Sample.req_narrow ∅ Sample.setup_narrow ∅).
    vm_compute. reflexivity. }
  assert (H400 : (generate_chart Sample.library Sample.noon Sample.noon
                    Sample.req_narrow Sample.files).1 = insufficient_columns).
  { apply Hnarrow. exists Sample.setup_narrow. split; [exact Hs|].
    unfold shape1; simpl; lia. }
  split; [exact H400|]. split; [exact (Hreg H400)|].
  apply (Hwide (Sample.csv Sample.table) Sample.table);
    [reflexivity | reflexivity | unfold shape1; simpl; lia].
Defined.

(* ===================================================================== *)
(** * Theorems: composition *)
(* ===================================================================== *)

(** What a 200 answer leaves in the registry: the padded base document
    with the chart appended to the shapes of the target slide. *)
Lemma generate_chart_200_document lib now1 now2 req reg :
  status (generate_chart lib now1 now2 req reg).1 = 200 ->
  exists s target doc,
    reaches_column_check req s /\ (2 <= shape1 (df s))%nat
    /\ slides (prs s) !! slide s = Some target
    /\ stored_document now1 (chart_type s) (generate_chart lib now1 now2 req reg).2
       = Some doc
    /\ slide_layouts doc = slide_layouts (prs s)
    /\ slides doc
       = <[slide s := add_shape
                        (GraphicFrame (build_chart lib (chart_type s)
                                                   (chart_data_of (df s))))
                        target]> (slides (prs s)).
Proof.
  intros H. apply generate_chart_200 in H as (s & Hs & Hcols & _ & Hrun).
  rewrite Hrun.
  pose proof Hs as (f & base & _ & _ & _ & _ & _ & _ & _ & _ & Hget).
  apply get_slide_lookup in Hget as [target Htarget].
  exists s, target, (composed lib s).
  repeat split; try assumption.
  - unfold stored_document. cbn [snd]. by rewrite lookup_insert_eq.
  - unfold composed. by apply place_chart_slides.
Qed.

(** C5 (as stated, refuted): the base document has no slide and one
    layout, named "Custom Layout"; at position 1 the loop needs a slide,
    finds no preferred layout, asks for layout 5 and raises: no document
    comes out. *)
Lemma composition_fails_without_layout :
  base_document Sample.req_bare = inr Sample.bare_deck
  /\ length (slides Sample.bare_deck) = 0%nat
  /\ form_slide_position Sample.req_bare = inr 1
  /\ ensure_slides Sample.bare_deck 1
     = inl (IndexError "slide layout index out of range")
  /\ generate_chart Sample.library Sample.noon Sample.noon Sample.req_bare ∅
     = (json 500 [("error", JStrOf (IndexError "slide layout index out of range"))], ∅).
Proof. repeat split; vm_compute; reflexivity. Qed.

(** C5 (amended): for a target position p >= 1 and a base document of k
    slides in which the padding loop finds its layout (p <= k, or the
    selected layout index exists), a request with a readable table of two
    or more columns, none of whose value cells is an integer beyond the
    range of [float], and for which python-pptx raises nothing in
    [add_chart] and [save], is answered 200 and the stored document has
    max(k, p) slides: the base slides, then the padding, with the chart
    appended to the shapes of the slide at index p - 1 and no other slide
    changed. *)
Theorem composition_pads_and_places lib now1 now2 req reg f tbl base p :
  dataFile req = Some f ->
  supported_extension (file_name f) = true ->
  file_save f = inr tt ->
  file_read f = inr tbl ->
  (2 <= shape1 tbl)%nat ->
  form_slide_position req = inr p ->
  1 <= p ->
  base_document req = inr base ->
  (p <= Z.of_nat (length (slides base))
   \/ is_Some (slide_layouts base !! select_layout_idx (slide_layouts base))) ->
  Forall (fun cell => overflows cell = false) (iloc_col tbl 1) ->
  add_chart_raises lib (dict_get CHART_TYPE_MAP (form_chart_type req) COLUMN_CLUSTERED)
    (chart_data_of tbl) = None ->
  (forall padded,
     ensure_slides base p = inr padded ->
     save_raises lib
       (place_chart padded (Z.to_nat (p - 1))
          (build_chart lib (form_chart_type req) (chart_data_of tbl))) = None) ->
  exists padded target doc,
    status (generate_chart lib now1 now2 req reg).1 = 200
    /\ stored_document now1 (form_chart_type req)
         (generate_chart lib now1 now2 req reg).2
       = Some doc
    /\ length (slides doc) = Nat.max (length (slides base)) (Z.to_nat p)
    /\ ensure_slides base p = inr padded
    /\ take (length (slides base)) (slides padded) = slides base
    /\ slides padded !! Z.to_nat (p - 1) = Some target
    /\ slides doc
       = <[Z.to_nat (p - 1) :=
             add_shape (GraphicFrame (build_chart lib (form_chart_type req)
                                                  (chart_data_of tbl)))
                       target]> (slides padded)
    /\ slides doc !! Z.to_nat (p - 1)
       = Some (add_shape (GraphicFrame (build_chart lib (form_chart_type req)
                                                    (chart_data_of tbl)))
                         target).
Proof.
  intros Hf Hext Hsave Hread Hcols Hp Hpos Hbase Hlayout Hcells Hadd Hwrite.
  destruct (ensure_slides_loop_ok
              (Z.to_nat (p - Z.of_nat (length (slides base)))) base p Hlayout)
    as [padded Hpad].
  fold (ensure_slides base p) in Hpad.
  pose proof (ensure_slides_exit _ _ _ Hpad) as Hexit.
  pose proof Hpad as Hpad'. unfold ensure_slides in Hpad'.
  apply ensure_slides_loop_inr in Hpad' as (_ & added & Hslides & Hlen & _).
  assert (Hget : get_slide padded (p - 1) = inr (Z.to_nat (p - 1)))
    by (apply get_slide_position; lia).
  destruct (get_slide_lookup _ _ _ Hget) as [target Htarget].
  set (s := mkSetup (form_chart_type req) p tbl padded (Z.to_nat (p - 1))).
  assert (Hs : reaches_column_check req s) by (exists f, base; auto 10).
  assert (Hbuild : build_succeeds lib s).
  { split; [exact Hcells|]. split; [exact Hadd|]. by apply Hwrite. }
  pose proof (generate_chart_reaching lib now1 now2 req reg s Hs Hcols Hbuild) as Hrun.
  destruct (place_chart_slides padded (Z.to_nat (p - 1))
              (build_chart lib (form_chart_type req) (chart_data_of tbl))
              target Htarget) as (Hdoc & Hat & Hsame).
  exists padded, target, (composed lib s).
  rewrite Hrun. cbn [fst snd status generated json].
  repeat split; try assumption.
  - unfold stored_document. by rewrite lookup_insert_eq.
  - unfold composed. cbn [s prs slide chart_type df].
    rewrite Hsame, Hslides, length_app, Hlen. lia.
  - rewrite Hslides. by rewrite take_app_length.
Qed.

(** C5 on [slidePosition = 5] and the default presentation: five slides,
    the chart in the slide at index 4. *)
Lemma composition_pads_and_places_witness :
  exists doc target,
    status (generate_chart Sample.library Sample.noon Sample.noon Sample.req_five ∅).1
    = 200
    /\ stored_document Sample.noon "bar"
         (generate_chart Sample.library Sample.noon Sample.noon Sample.req_five ∅).2
       = Some doc
    /\ length (slides doc) = 5%nat
    /\ slides doc !! 4%nat
       = Some (add_shape (GraphicFrame (build_chart Sample.library "bar"
                                          (chart_data_of Sample.table)))
                         target).
Proof.
  destruct (composition_pads_and_places Sample.library Sample.noon Sample.noon
              Sample.req_five ∅
              (Sample.csv Sample.table) Sample.table default_presentation 5)
    as (padded & target & doc & H200 & Hdoc & Hlen & _ & _ & _ & _ & Hat).
  - reflexivity.
  - vm_compute; reflexivity.
  - reflexivity.
  - reflexivity.
  - unfold shape1; simpl; lia.
  - vm_compute; reflexivity.
  - lia.
  - reflexivity.
  - right. vm_compute. eexists; reflexivity.
  - unfold iloc_col; simpl. repeat constructor.
  - vm_compute; reflexivity.
  - intros padded _. reflexivity.
  - exists doc, target. repeat split; assumption.
Defined.

(* ===================================================================== *)
(** * Theorems: the registry *)
(* ===================================================================== *)

Lemma total_seconds_gt_older now a :
  Datetime.total_seconds_gt (Datetime.sub now (created a)) 3600 = true
  <-> Spec.older_than 3600 now a.
Proof.
  unfold Datetime.total_seconds_gt, Datetime.sub, Datetime.us_per_second,
    Spec.older_than. apply Z.ltb_lt.
Qed.

(** At the threshold of [cleanup] the float comparison and the exact one
    agree: an hour is not older than an hour, an hour and a microsecond
    is. *)
Lemma total_seconds_at_threshold :
  SFltb (Float.of_Z 3600) (Datetime.total_seconds 3600000000) = false
  /\ Datetime.total_seconds_gt 3600000000 3600 = false
  /\ SFltb (Float.of_Z 3600) (Datetime.total_seconds 3600000001) = true
  /\ Datetime.total_seconds_gt 3600000001 3600 = true.
Proof. repeat split; vm_compute; reflexivity. Qed.

Lemma survivors_nil now (reg : registry) : survivors now [] reg = reg.
Proof.
  unfold survivors. apply map_eq. intros k. apply option_eq. intros a.
  rewrite map_lookup_filter_Some. cbn. split; [tauto|].
  intros H. split; [exact H|]. intros [Hin _]. inversion Hin.
Qed.

Lemma survivors_cons_old now id rest (reg : registry) a :
  reg !! id = Some a -> Spec.older_than 3600 now a ->
  survivors now (id :: rest) reg = survivors now rest (delete id reg).
Proof.
  intros Hid Hold. unfold survivors. apply map_eq. intros k. apply option_eq.
  intros b. rewrite !map_lookup_filter_Some, lookup_delete_Some. cbn.
  rewrite elem_of_cons. split.
  - intros [Hk Hkeep]. destruct (decide (id = k)) as [->|Hne].
    + exfalso. apply Hkeep. split; [auto | congruence].
    + tauto.
  - intros [[Hne Hk] Hkeep]. split; [exact Hk|]. intros [[->|Hin] Hb]; tauto.
Qed.

Lemma survivors_cons_young now id rest (reg : registry) a :
  reg !! id = Some a -> ~ Spec.older_than 3600 now a ->
  survivors now (id :: rest) reg = survivors now rest reg.
Proof.
  intros Hid Hyoung. unfold survivors. apply map_eq. intros k. apply option_eq.
  intros b. rewrite !map_lookup_filter_Some. cbn. rewrite elem_of_cons. split.
  - intros [Hk Hkeep]. split; [exact Hk | tauto].
  - intros [Hk Hkeep]. split; [exact Hk|]. intros [[->|Hin] Hb]; [|tauto].
    apply Hyoung. congruence.
Qed.

Lemma survivors_size now ids (reg : registry) :
  (size (survivors now ids reg) <= size reg)%nat.
Proof. apply map_subseteq_size, map_filter_subseteq. Qed.

(** The loop of lines 191-198 over keys that are all present, each once:
    it never raises, it deletes the old entries among them, and it counts
    one for each entry it deletes. *)
Lemma cleanup_loop_run now ids :
  forall removed (reg : registry),
    NoDup ids -> (forall k, k ∈ ids -> is_Some (reg !! k)) ->
    cleanup_loop now removed ids reg
    = (Next (removed + (size reg - size (survivors now ids reg)))%nat,
       survivors now ids reg).
Proof.
  induction ids as [|id rest IH]; intros removed reg Hnodup Hin.
  - rewrite survivors_nil. cbn [cleanup_loop]. unfold ret. do 2 f_equal. lia.
  - apply NoDup_cons in Hnodup as [Hfresh Hnodup].
    destruct (Hin id) as [a Ha]; [left|].
    cbn [cleanup_loop]. unfold cleanup_step. unfold_handler. rewrite Ha.
    destruct (Datetime.total_seconds_gt (Datetime.sub now (created a)) 3600)
      eqn:Hold.
    + apply total_seconds_gt_older in Hold. rewrite Ha.
      rewrite (survivors_cons_old _ _ _ _ _ Ha Hold).
      rewrite IH; [|exact Hnodup|].
      * pose proof (survivors_size now rest (delete id reg)).
        assert (size (delete id reg) = pred (size reg))
          by (apply map_size_delete_Some; eauto).
        assert (size reg <> 0)%nat
          by (apply map_size_ne_0_lookup_2 with id; eauto).
        do 2 f_equal. lia.
      * intros k Hk. rewrite lookup_delete_ne; [apply Hin; by right|].
        intros ->. contradiction.
    + assert (Hyoung : ~ Spec.older_than 3600 now a).
      { rewrite <- total_seconds_gt_older. congruence. }
      rewrite (survivors_cons_young _ _ _ _ _ Ha Hyoung).
      apply IH; [exact Hnodup|]. intros k Hk. apply Hin. by right.
Qed.

Lemma survivors_all_keys now (reg : registry) :
  survivors now (map_to_list reg).*1 reg
  = filter (fun kv => ~ Spec.older_than 3600 now kv.2) reg.
Proof.
  unfold survivors. apply map_eq. intros k. apply option_eq. intros a.
  rewrite !map_lookup_filter_Some. cbn. split; [|tauto].
  intros [Hk Hkeep]. split; [exact Hk|]. intros Hold. apply Hkeep.
  split; [|exact Hold]. apply list_elem_of_fmap. exists (k, a).
  split; [reflexivity|]. by apply elem_of_map_to_list.
Qed.

(** C8: for every registry, the sweep of [cleanup] removes exactly the
    artifacts whose age exceeds 3600 seconds: what remains is what was
    there and is at most 3600 seconds old, what is gone was older; the
    count it reports is the number of entries deleted and the remaining
    count is the size of the registry after the sweep. *)
Theorem cleanup_sweeps now (reg : registry) :
  exists (reg' : registry) (removed : nat),
    cleanup now reg = (cleanup_done removed (size reg'), reg')
    /\ reg' = filter (fun kv => ~ Spec.older_than 3600 now kv.2) reg
    /\ (forall k a, reg' !! k = Some a
                    <-> reg !! k = Some a /\ now - created a <= 3600 * 1000000)
    /\ (forall k a, reg !! k = Some a -> reg' !! k = None
                    -> 3600 * 1000000 < now - created a)
    /\ (forall k a, reg !! k = Some a -> 3600 * 1000000 < now - created a
                    -> reg' !! k = None)
    /\ size reg = (removed + size reg')%nat.
Proof.
  set (reg' := filter (fun kv => ~ Spec.older_than 3600 now kv.2) reg).
  assert (Hsize : (size reg' <= size reg)%nat)
    by apply map_subseteq_size, map_filter_subseteq.
  assert (Hlookup : forall k a, reg' !! k = Some a
                    <-> reg !! k = Some a /\ now - created a <= 3600 * 1000000).
  { intros k a. unfold reg'. rewrite map_lookup_filter_Some. cbn.
    unfold Spec.older_than. split; intros [? ?]; split; auto; lia. }
  exists reg', (size reg - size reg')%nat.
  split; [|split; [reflexivity|split; [exact Hlookup|repeat split]]].
  - unfold cleanup. unfold_handler.
    rewrite cleanup_loop_run.
    + rewrite survivors_all_keys. reflexivity.
    + apply NoDup_fst_map_to_list.
    + intros k Hk. apply list_elem_of_fmap in Hk as ([k' a] & -> & Hk).
      apply elem_of_map_to_list in Hk. eauto.
  - intros k a Hk Hgone.
    destruct (Z.lt_ge_cases (3600 * 1000000) (now - created a)) as [|Hyoung];
      [assumption|].
    assert (reg' !! k = Some a) by (apply Hlookup; split; [assumption | lia]).
    congruence.
  - intros k a Hk Hold. apply eq_None_not_Some. intros [b Hb].
    apply Hlookup in Hb as [Hb Hyoung].
    assert (b = a) by congruence. subst b. lia.
  - lia.
Qed.

(** C8 on a registry of two artifacts, two hours and ten minutes old. *)
Lemma cleanup_sweeps_witness :
  exists (reg' : registry) (removed : nat),
    cleanup Sample.two_pm Sample.files = (cleanup_done removed (size reg'), reg')
    /\ reg' !! "a" = None
    /\ reg' !! "b" = Some Sample.at_ten_to_two
    /\ size Sample.files = (removed + size reg')%nat.
Proof.
  destruct (cleanup_sweeps Sample.two_pm Sample.files)
    as (reg' & removed & Hrun & _ & Hkept & _ & Hgone & Hcount).
  exists reg', removed. split; [exact Hrun|].
  split; [apply (Hgone "a" Sample.at_noon); vm_compute; reflexivity|].
  split; [|exact Hcount].
  apply Hkept. split; [vm_compute; reflexivity|]. vm_compute. discriminate.
Defined.

(* ===================================================================== *)
(** * Theorems: downloads *)
(* ===================================================================== *)

(** [download_chart], read off the registry: a lookup, a [seek(0)] that
    raises when the buffer was closed, and a send that closes it. *)
Lemma download_chart_run file_id (reg : registry) :
  download_chart file_id reg
  = match reg !! file_id with
    | None => (file_not_found, reg)
    | Some a =>
        if closed (buffer a) then (internal_server_error, reg)
        else (attachment a, <[file_id := close_buffer a]> reg)
    end.
Proof.
  unfold download_chart, seek0. unfold_handler.
  destruct (reg !! file_id) as [a|] eqn:Ha.
  - rewrite bool_decide_eq_true_2 by eauto. cbn [negb]. rewrite Ha.
    destruct (closed (buffer a)); reflexivity.
  - rewrite bool_decide_eq_false_2 by (intros [? ?]; discriminate). reflexivity.
Qed.

(** C9 (where the code departs from the claim): the answer is 404 with
    "File not found" exactly when the identifier is absent, and the first
    download of an entry returns 200 with the stored document, content
    type and file name and keeps the entry. But the download is not
    repeatable: the response streams the [BytesIO] of the entry, which is
    closed once sent, so the next download of the same identifier raises
    at [seek(0)] and is answered 500, the entry still being there. *)
Theorem second_download_fails file_id (reg : registry) a :
  reg !! file_id = Some a -> closed (buffer a) = false ->
  (forall id, (download_chart id reg).1 = file_not_found <-> reg !! id = None)
  /\ (download_chart file_id reg).1 = attachment a
  /\ (download_chart file_id reg).2 = <[file_id := close_buffer a]> reg
  /\ (download_chart file_id reg).2 !! file_id = Some (close_buffer a)
  /\ download_chart file_id (download_chart file_id reg).2
     = (internal_server_error, (download_chart file_id reg).2)
  /\ status (download_chart file_id (download_chart file_id reg).2).1 = 500.
Proof.
  intros Ha Hopen. split.
  - intros id. rewrite download_chart_run.
    destruct (reg !! id) as [b|]; [|split; reflexivity].
    destruct (closed (buffer b)); split; discriminate.
  - rewrite !download_chart_run, Ha, Hopen. cbn [fst snd].
    rewrite ?download_chart_run, ?Ha, ?Hopen, ?lookup_insert_eq.
    cbn [fst snd close_buffer buffer close closed].
    repeat split; reflexivity.
Qed.

(** C9 on a registry of two artifacts: the key that is there is served
    once, 500 comes the second time, and a key that is not there gets
    404. *)
Lemma second_download_fails_witness :
  (download_chart "a" Sample.files).1 = attachment Sample.at_noon
  /\ (download_chart "c" Sample.files).1 = file_not_found
  /\ status (download_chart "a" (download_chart "a" Sample.files).2).1 = 500.
Proof.
  destruct (second_download_fails "a" Sample.files Sample.at_noon)
    as (Habsent & Hfirst & _ & _ & _ & Hsecond); [reflexivity | reflexivity|].
  split; [exact Hfirst|]. split; [|exact Hsecond].
  apply Habsent. reflexivity.
Defined.

(* ===================================================================== *)
(** * Theorems: the chart kind *)
(* ===================================================================== *)

Lemma dict_get_unknown_kind c :
  c ∉ Spec.chart_kinds ->
  dict_get CHART_TYPE_MAP c COLUMN_CLUSTERED = COLUMN_CLUSTERED.
Proof.
  unfold Spec.chart_kinds. intros Hc.
  repeat (apply not_elem_of_cons in Hc as [? Hc]).
  cbn [dict_get CHART_TYPE_MAP].
  repeat match goal with
         | |- context [String.eqb ?k c] =>
             destruct (String.eqb_spec k c) as [?|_]; [congruence|]
         end.
  reflexivity.
Qed.

(** Lines 128-134 for a chart type that is not "pie": the legend, and
    nothing else. *)
Lemma customize_not_pie c chart :
  c <> "pie" ->
  customize c chart = set_legend_position LEGEND_RIGHT (set_has_legend true chart).
Proof.
  intros Hc. unfold customize.
  destruct (String.eqb_spec c "pie"); [contradiction | reflexivity].
Qed.

(** The chart of an unknown kind is the chart of "bar". *)
Lemma build_chart_unknown_kind lib c cd :
  c ∉ Spec.chart_kinds -> build_chart lib c cd = build_chart lib "bar" cd.
Proof.
  intros Hc. unfold build_chart.
  rewrite (dict_get_unknown_kind c Hc).
  rewrite !customize_not_pie; [reflexivity | discriminate|].
  intros ->. apply Hc. unfold Spec.chart_kinds. by left.
Qed.

(** The chart type does not matter to lines 42-91. *)
Lemma generate_chart_setup_with_chart_type c req reg :
  generate_chart_setup (with_chart_type c req) reg =
  match generate_chart_setup req reg with
  | (Next s, reg') =>
      (Next (mkSetup c (slide_position s) (df s) (prs s) (slide s)), reg')
  | other => other
  end.
Proof.
  rewrite !generate_chart_setup_run.
  change (dataFile (with_chart_type c req)) with (dataFile req).
  change (form_slide_position (with_chart_type c req)) with (form_slide_position req).
  change (base_document (with_chart_type c req)) with (base_document req).
  destruct (dataFile req) as [f|]; [|reflexivity].
  destruct (form_slide_position req) as [e|p]; [reflexivity|].
  destruct (file_save f) as [e|[]]; [reflexivity|].
  destruct (supported_extension (file_name f)); [|reflexivity].
  destruct (file_read f) as [e|tbl]; [reflexivity|].
  destruct (base_document req) as [e|base]; [reflexivity|].
  destruct (ensure_slides base p) as [e|prs']; [reflexivity|].
  destruct (get_slide prs' (p - 1)) as [e|i]; reflexivity.
Qed.

(** A whole run for a given chart type, from the run of lines 42-91. *)
Lemma generate_chart_with_chart_type lib now1 now2 c req reg :
  generate_chart lib now1 now2 (with_chart_type c req) reg =
  match generate_chart_setup req reg with
  | (Next s, _) =>
      if (shape1 (df s) <? 2)%nat then (insufficient_columns, reg)
      else match build_raises lib (mkSetup c (slide_position s) (df s) (prs s) (slide s))
           with
           | Some e => (server_error e, reg)
           | None =>
               (generated (make_file_id now1 c) c,
                <[make_file_id now1 c :=
                    new_artifact lib now1 now2
                      (mkSetup c (slide_position s) (df s) (prs s) (slide s))]> reg)
           end
  | (Return r, _) => (r, reg)
  | (Raise e, _) => (server_error e, reg)
  end.
Proof.
  rewrite generate_chart_run, generate_chart_setup_with_chart_type.
  destruct (generate_chart_setup req reg) as [[s|r|e] reg']; reflexivity.
Qed.

(** For an unknown kind python-pptx is asked what it is asked for "bar":
    lines 101-139 raise the same, and compose the same document. *)
Lemma build_unknown_kind lib c p tbl deck i :
  c ∉ Spec.chart_kinds ->
  build_raises lib (mkSetup c p tbl deck i) = build_raises lib (mkSetup "bar" p tbl deck i)
  /\ composed lib (mkSetup c p tbl deck i) = composed lib (mkSetup "bar" p tbl deck i).
Proof.
  intros Hc. unfold build_raises, composed. cbn [chart_type df prs slide].
  rewrite (dict_get_unknown_kind c Hc).
  change (dict_get CHART_TYPE_MAP "bar" COLUMN_CLUSTERED) with COLUMN_CLUSTERED.
  split; [|by rewrite (build_chart_unknown_kind lib c)].
  destruct (build_chart_data tbl) as [e|cd]; [reflexivity|].
  destruct (add_chart_raises lib COLUMN_CLUSTERED cd); [reflexivity|].
  by rewrite (build_chart_unknown_kind lib c).
Qed.

(** C6: a chart type outside pie, bar, line, scatter and area is mapped
    to the clustered column chart, as "bar" is, and the request goes as it
    does for "bar": it has the same status, when that one fails it fails
    with the same answer, and when that one is answered 200 so is this
    one, and the document it stores is the document stored for "bar": it
    has, at the end of the shapes of the target slide, a clustered column
    chart of the loaded table, the chart built for "bar". *)
Theorem unknown_chart_kind_is_bar lib now1 now2 req reg c :
  c ∉ Spec.chart_kinds ->
  dict_get CHART_TYPE_MAP c COLUMN_CLUSTERED = COLUMN_CLUSTERED
  /\ dict_get CHART_TYPE_MAP "bar" COLUMN_CLUSTERED = COLUMN_CLUSTERED
  /\ status (generate_chart lib now1 now2 (with_chart_type c req) reg).1
     = status (generate_chart lib now1 now2 (with_chart_type "bar" req) reg).1
  /\ (status (generate_chart lib now1 now2 (with_chart_type "bar" req) reg).1 <> 200 ->
      generate_chart lib now1 now2 (with_chart_type c req) reg
      = generate_chart lib now1 now2 (with_chart_type "bar" req) reg)
  /\ (status (generate_chart lib now1 now2 (with_chart_type "bar" req) reg).1 = 200 ->
      (generate_chart lib now1 now2 (with_chart_type c req) reg).1
      = generated (make_file_id now1 c) c
      /\ exists doc i target chart f tbl,
           stored_document now1 c
             (generate_chart lib now1 now2 (with_chart_type c req) reg).2 = Some doc
           /\ stored_document now1 "bar"
                (generate_chart lib now1 now2 (with_chart_type "bar" req) reg).2
              = Some doc
           /\ slides doc !! i = Some (add_shape (GraphicFrame chart) target)
           /\ shapes (add_shape (GraphicFrame chart) target)
              = shapes target ++ [GraphicFrame chart]
           /\ chart_type_of chart = COLUMN_CLUSTERED
           /\ dataFile req = Some f /\ file_read f = inr tbl
           /\ chart_data chart = chart_data_of tbl
           /\ chart = build_chart lib c (chart_data_of tbl)
           /\ chart = build_chart lib "bar" (chart_data_of tbl)).
Proof.
  intros Hc.
  pose proof (dict_get_unknown_kind c Hc) as Hmap.
  split; [exact Hmap|]. split; [reflexivity|].
  rewrite !generate_chart_with_chart_type.
  destruct (generate_chart_setup req reg) as [[s|r|e] reg'] eqn:Hsetup.
  - apply generate_chart_setup_next in Hsetup as [-> Hs].
    destruct s as [c0 p tbl deck i]. cbn [slide_position df prs slide].
    destruct (shape1 tbl <? 2)%nat.
    + split; [reflexivity|]. split; [intros _; reflexivity|].
      intros H200; discriminate H200.
    + destruct (build_unknown_kind lib c p tbl deck i Hc) as [Hraises Hdoc].
      rewrite Hraises.
      destruct (build_raises lib (mkSetup "bar" p tbl deck i)) as [e|].
      * split; [reflexivity|]. split; [intros _; reflexivity|].
        intros H200; discriminate H200.
      * split; [reflexivity|].
        split; [intros Hfail; exfalso; apply Hfail; reflexivity|].
        intros _. split; [reflexivity|].
        destruct Hs as (f & base & Hf & _ & _ & _ & _ & Hread & _ & _ & Hget).
        cbn [slide_position df prs slide] in *.
        apply get_slide_lookup in Hget as [target Htarget].
        exists (composed lib (mkSetup "bar" p tbl deck i)), i, target,
               (build_chart lib "bar" (chart_data_of tbl)), f, tbl.
        unfold stored_document. cbn [snd]. rewrite !lookup_insert_eq.
        cbn [fmap option_fmap option_map new_artifact buffer getvalue].
        rewrite Hdoc.
        repeat split; try assumption; try reflexivity.
        -- unfold composed. cbn [prs slide chart_type df].
           by apply place_chart_slides.
        -- by rewrite (build_chart_unknown_kind lib c).
  - split; [reflexivity|]. split; [intros _; reflexivity|].
    cbn [fst]. intros H200.
    apply generate_chart_setup_return in Hsetup as [->|[name ->]];
      discriminate H200.
  - split; [reflexivity|]. split; [intros _; reflexivity|].
    intros H200; discriminate H200.
Qed.

(** C6 on the chart type "foo": the answer is 200 and the slide at index
    4 of the stored document ends with a clustered column chart. *)
Lemma unknown_chart_kind_is_bar_witness :
  status (generate_chart Sample.library Sample.noon Sample.noon
            (with_chart_type "foo" Sample.req_five) ∅).1 = 200
  /\ exists doc i target chart,
       stored_document Sample.noon "foo"
         (generate_chart Sample.library Sample.noon Sample.noon
            (with_chart_type "foo" Sample.req_five) ∅).2 = Some doc
       /\ slides doc !! i = Some (add_shape (GraphicFrame chart) target)
       /\ chart_type_of chart = COLUMN_CLUSTERED.
Proof.
  assert (Hfoo : "foo" ∉ Spec.chart_kinds).
  { unfold Spec.chart_kinds. intros H.
    repeat (apply elem_of_cons in H as [H|H]; [discriminate H|]).
    inversion H. }
  destruct (unknown_chart_kind_is_bar Sample.library Sample.noon Sample.noon
              Sample.req_five ∅ "foo" Hfoo) as (_ & _ & Hstatus & _ & Hstored).
  split; [rewrite Hstatus; vm_compute; reflexivity|].
  destruct Hstored as (_ & doc & i & target & chart & f & tbl & Hdoc & _ & Hat & _
                       & Htype & _); [vm_compute; reflexivity|].
  exists doc, i, target, chart. auto.
Defined.

(* ===================================================================== *)
(** * Theorems: data labels *)
(* ===================================================================== *)

(** C7 (as stated, refuted): an area chart is not a pie chart, and it has
    data labels. The handler does not enable them: with python-pptx a
    new area chart has them already, and the handler leaves them on. *)
Lemma area_chart_keeps_its_data_labels :
  form_chart_type Sample.req_area = "area"
  /\ status (generate_chart Sample.library Sample.noon Sample.noon Sample.req_area ∅).1
     = 200
  /\ exists doc target chart,
       stored_document Sample.noon "area"
         (generate_chart Sample.library Sample.noon Sample.noon Sample.req_area ∅).2
       = Some doc
       /\ slides doc !! 4%nat = Some (add_shape (GraphicFrame chart) target)
       /\ chart_type_of chart = AREA
       /\ has_data_labels chart = true.
Proof.
  split; [reflexivity|]. split; [vm_compute; reflexivity|].
  exists (composed Sample.library (mkSetup "area" 5 Sample.table Sample.five_slides 4)),
         (new_slide Sample.title_slide_layout),
         (build_chart Sample.library "area" (chart_data_of Sample.table)).
  split; [vm_compute; reflexivity|].
  split; [vm_compute; reflexivity|]. split; reflexivity.
Qed.

(** C7 (amended): the handler turns the data labels on, with the number
    format of one decimal and a quoted percent sign, exactly when the
    chart type is "pie"; for any other chart type it leaves the data
    labels and their number format as [add_chart] made them. The chart a
    200 answer leaves at the end of the shapes of the target slide is the
    chart of [add_chart] so customised. *)
Theorem data_labels_iff_pie lib now1 now2 req reg :
  (forall c fresh,
     (c = "pie" ->
      has_data_labels (customize c fresh) = true
      /\ data_labels_number_format (customize c fresh) = Some pie_number_format)
     /\ (c <> "pie" ->
         has_data_labels (customize c fresh) = has_data_labels fresh
         /\ data_labels_number_format (customize c fresh)
            = data_labels_number_format fresh))
  /\ Str.chars pie_number_format
     = ["0"; "."; "0"; ascii_of_nat 34; "%"; ascii_of_nat 34]%char
  /\ (status (generate_chart lib now1 now2 req reg).1 = 200 ->
      exists doc i target f tbl fresh,
        stored_document now1 (form_chart_type req)
          (generate_chart lib now1 now2 req reg).2 = Some doc
        /\ dataFile req = Some f /\ file_read f = inr tbl
        /\ fresh = new_chart lib
                     (dict_get CHART_TYPE_MAP (form_chart_type req) COLUMN_CLUSTERED)
                     (Inches 2) (Inches 2) (Inches 6) (Inches 4) (chart_data_of tbl)
        /\ has_data_labels fresh
           = default_has_data_labels
               (chart_defaults lib
                  (dict_get CHART_TYPE_MAP (form_chart_type req) COLUMN_CLUSTERED)
                  (chart_data_of tbl))
        /\ slides doc !! i
           = Some (add_shape
                     (GraphicFrame (customize (form_chart_type req) fresh))
                     target)).
Proof.
  split; [|split; [reflexivity|]].
  - intros c fresh. split.
    + intros ->. split; reflexivity.
    + intros Hc. rewrite customize_not_pie by exact Hc. split; reflexivity.
  - intros H200.
    apply generate_chart_200_document in H200
      as (s & target & doc & Hs & _ & Htarget & Hdoc & _ & Hslides).
    pose proof Hs as (f & base & Hf & Hc & _ & _ & _ & Hread & _).
    exists doc, (slide s), target, f, (df s). eexists. rewrite <- Hc.
    split; [exact Hdoc|]. split; [exact Hf|]. split; [exact Hread|].
    split; [reflexivity|]. split; [reflexivity|].
    rewrite Hslides. apply list_lookup_insert_eq. by eapply lookup_lt_Some.
Qed.

(** C7 on a pie chart and a bar chart of [Sample.table]. *)
Lemma data_labels_iff_pie_witness :
  has_data_labels (build_chart Sample.library "pie" (chart_data_of Sample.table)) = true
  /\ data_labels_number_format
       (build_chart Sample.library "pie" (chart_data_of Sample.table))
     = Some pie_number_format
  /\ has_data_labels (build_chart Sample.library "bar" (chart_data_of Sample.table))
     = false
  /\ exists doc i target chart,
       stored_document Sample.noon "pie"
         (generate_chart Sample.library Sample.noon Sample.noon Sample.req_pie ∅).2
       = Some doc
       /\ slides doc !! i = Some (add_shape (GraphicFrame chart) target)
       /\ has_data_labels chart = true.
Proof.
  destruct (data_labels_iff_pie Sample.library Sample.noon Sample.noon Sample.req_pie ∅)
    as (Hlabels & _ & Hstored).
  destruct (proj1 (Hlabels "pie"
                     (new_chart Sample.library PIE (Inches 2) (Inches 2) (Inches 6)
                        (Inches 4) (chart_data_of Sample.table))) eq_refl)
    as [Hon Hfmt].
  destruct (proj2 (Hlabels "bar"
                     (new_chart Sample.library COLUMN_CLUSTERED (Inches 2) (Inches 2)
                        (Inches 6) (Inches 4) (chart_data_of Sample.table))))
    as [Hoff _]; [discriminate|].
  split; [exact Hon|]. split; [exact Hfmt|]. split; [exact Hoff|].
  destruct Hstored
    as (doc & i & target & f & tbl & fresh & Hdoc & _ & _ & Hfresh & _ & Hat);
    [vm_compute; reflexivity|].
  eexists doc, i, target, _. split; [exact Hdoc|]. split; [exact Hat|].
  subst fresh. reflexivity.
Defined.

(* ===================================================================== *)
(** * Theorems: the slide position *)
(* ===================================================================== *)

(** C10 (as stated, refuted): [slidePosition = 0] with a template of one
    slide is processed: the position used is 0, the target index is -1,
    which Python reads as the last slide, and the answer is 200, the chart
    being in that slide. *)
Lemma zero_position_is_processed :
  form_slide_position Sample.req_zero = inr 0
  /\ (exists s, generate_chart_setup Sample.req_zero ∅ = (Next s, ∅)
                /\ slide_position s = 0 /\ ~ 1 <= slide_position s)
  /\ status (generate_chart Sample.library Sample.noon Sample.noon Sample.req_zero ∅).1
     = 200
  /\ exists doc target,
       stored_document Sample.noon "bar"
         (generate_chart Sample.library Sample.noon Sample.noon Sample.req_zero ∅).2
       = Some doc
       /\ slides doc
          = [add_shape (GraphicFrame (build_chart Sample.library "bar"
                                        (chart_data_of Sample.table)))
                       target].
Proof.
  split; [vm_compute; reflexivity|]. split; [|split; [vm_compute; reflexivity|]].
  - exists (mkSetup "bar" 0 Sample.table Sample.one_slide_deck 0).
    split; [vm_compute; reflexivity|]. cbn [slide_position]. lia.
  - exists (composed Sample.library Sample.setup_zero),
           (new_slide (mkLayout (Some "Blank") [])).
    split; vm_compute; reflexivity.
Qed.

Lemma get_slide_index (deck : Presentation) z i :
  get_slide deck z = inr i ->
  py_index (slides deck) z = Some i
  /\ (0 <= z -> i = Z.to_nat z)
  /\ (z < 0 -> Z.of_nat i = Z.of_nat (length (slides deck)) + z).
Proof.
  unfold get_slide. destruct (py_index (slides deck) z) as [j|] eqn:Hj; [|discriminate].
  intros [= <-]. split; [reflexivity|]. revert Hj. unfold py_index.
  destruct (Z.ltb_spec z 0); destruct (_ && _) eqn:Hrange; try discriminate;
    intros [= <-]; (split; [intros; try lia; reflexivity|]); intros; lia.
Qed.

(** C10 (amended): the position a processed request is composed with is
    the integer [int] reads from the [slidePosition] field, whatever its
    sign, and 1 when the field is absent; no step checks that it is
    positive. The base document is padded to that position and the chart
    goes to the slide at the position minus one under Python's index rule:
    the index p - 1 for p >= 1, and for p <= 0 the index k + p - 1 of the
    base document of k slides, to which nothing is added. The position is
    at least 1 exactly when the field is absent or holds an integer that
    is at least 1. *)
Theorem slide_position_is_the_parsed_field lib now1 now2 req reg :
  status (generate_chart lib now1 now2 req reg).1 = 200 ->
  exists p base padded i target doc f tbl,
    form_slide_position req = inr p
    /\ (slidePosition req = None -> p = 1)
    /\ (forall txt, slidePosition req = Some txt -> Int.of_string txt = Some p)
    /\ (1 <= p
        <-> slidePosition req = None
            \/ exists txt z, slidePosition req = Some txt
                             /\ Int.of_string txt = Some z /\ 1 <= z)
    /\ base_document req = inr base
    /\ ensure_slides base p = inr padded
    /\ py_index (slides padded) (p - 1) = Some i
    /\ slides padded !! i = Some target
    /\ stored_document now1 (form_chart_type req)
         (generate_chart lib now1 now2 req reg).2 = Some doc
    /\ dataFile req = Some f /\ file_read f = inr tbl
    /\ slides doc
       = <[i := add_shape (GraphicFrame (build_chart lib (form_chart_type req)
                                                     (chart_data_of tbl)))
                          target]> (slides padded)
    /\ (1 <= p -> i = Z.to_nat (p - 1))
    /\ (p <= 0 ->
        padded = base /\ Z.of_nat i = Z.of_nat (length (slides base)) + p - 1).
Proof.
  intros H200.
  apply generate_chart_200_document in H200
    as (s & target & doc & Hs & _ & Htarget & Hdoc & _ & Hslides).
  destruct Hs as (f & base & Hf & Hc & Hp & _ & _ & Hread & Hbase & Hpad & Hget).
  destruct (get_slide_index _ _ _ Hget) as (Hindex & Hfront & Hback).
  exists (slide_position s), base, (prs s), (slide s), target, doc, f, (df s).
  rewrite <- Hc.
  assert (Hfield :
    (slidePosition req = None -> slide_position s = 1)
    /\ (forall txt, slidePosition req = Some txt
                    -> Int.of_string txt = Some (slide_position s))).
  { unfold form_slide_position in Hp. destruct (slidePosition req) as [txt|].
    - destruct (Int.of_string txt) as [z|] eqn:Hz; [|discriminate].
      injection Hp as Hp.
      split; [discriminate|]. intros txt' [= <-]. congruence.
    - injection Hp as Hp. split; [auto | discriminate]. }
  destruct Hfield as [Hnone Hsome].
  split; [exact Hp|]. split; [exact Hnone|]. split; [exact Hsome|].
  split.
  { split.
    - intros Hpos. destruct (slidePosition req) as [txt|] eqn:Htxt; [|by left].
      right. exists txt, (slide_position s). auto.
    - intros [Habsent|(txt & z & Htxt & Hz & Hpos)].
      + rewrite (Hnone Habsent). lia.
      + rewrite (Hsome txt Htxt) in Hz. injection Hz as ->. exact Hpos. }
  split; [exact Hbase|]. split; [exact Hpad|]. split; [exact Hindex|].
  split; [exact Htarget|]. split; [exact Hdoc|]. split; [exact Hf|].
  split; [exact Hread|]. split; [exact Hslides|].
  split; [intros Hpos; apply Hfront; lia|].
  intros Hneg. split; [|rewrite Hback by lia].
  - unfold ensure_slides in Hpad.
    replace (Z.to_nat (slide_position s - Z.of_nat (length (slides base))))
      with 0%nat in Hpad by lia.
    cbn [ensure_slides_loop] in Hpad. congruence.
  - unfold ensure_slides in Hpad.
    replace (Z.to_nat (slide_position s - Z.of_nat (length (slides base))))
      with 0%nat in Hpad by lia.
    cbn [ensure_slides_loop] in Hpad. injection Hpad as <-. lia.
Qed.

(** C10 on [slidePosition = 5]: the position is 5 and the chart is in the
    slide at index 4. *)
Lemma slide_position_is_the_parsed_field_witness :
  exists padded target doc,
    form_slide_position Sample.req_five = inr 5
    /\ Int.of_string "5" = Some 5
    /\ ensure_slides default_presentation 5 = inr padded
    /\ stored_document Sample.noon "bar"
         (generate_chart Sample.library Sample.noon Sample.noon Sample.req_five ∅).2
       = Some doc
    /\ slides doc
       = <[4%nat := add_shape (GraphicFrame (build_chart Sample.library "bar"
                                               (chart_data_of Sample.table)))
                              target]> (slides padded).
Proof.
  destruct (slide_position_is_the_parsed_field Sample.library Sample.noon Sample.noon
              Sample.req_five ∅)
    as (p & base & padded & i & target & doc & f & tbl & Hp & _ & Htxt & _ & Hbase
        & Hpad & _ & _ & Hdoc & Hf & Hread & Hslides & Hfront & _);
    [vm_compute; reflexivity|].
  assert (p = 5) by (vm_compute in Hp; congruence). subst p.
  assert (base = default_presentation).
  { assert (Hdefault : base_document Sample.req_five = inr default_presentation)
      by reflexivity.
    congruence. }
  subst base.
  rewrite (Hfront ltac:(lia)) in Hslides.
  assert (tbl = Sample.table).
  { assert (Hfile : dataFile Sample.req_five = Some (Sample.csv Sample.table))
      by reflexivity.
    assert (f = Sample.csv Sample.table) by congruence. subst f.
    cbn in Hread. congruence. }
  subst tbl.
  exists padded, target, doc.
  split; [exact Hp|]. split; [apply Htxt; reflexivity|].
  split; [exact Hpad|]. split; [exact Hdoc | exact Hslides].
Defined.

(* ===================================================================== *)
(** * Further properties: the answers of [generate_chart] *)
(* ===================================================================== *)

Lemma chars_app (a b : string) :
  Str.chars (a ++ b)%string = Str.chars a ++ Str.chars b.
Proof.
  unfold Str.chars. induction a as [|c a IH]; [reflexivity|].
  rewrite append_cons. cbn [list_ascii_of_string app]. by rewrite IH.
Qed.

Lemma chars_of_chars l : Str.chars (Str.of_chars l) = l.
Proof. apply list_ascii_of_string_of_list_ascii. Qed.

Lemma of_chars_chars s : Str.of_chars (Str.chars s) = s.
Proof. apply string_of_list_ascii_of_string. Qed.

Lemma list_prefix_app p l :
  Str.list_prefix p l = true <-> exists t, l = p ++ t.
Proof.
  revert l. induction p as [|a p IH]; intros l; cbn [Str.list_prefix].
  - split; [intros _; exists l; reflexivity | reflexivity].
  - destruct l as [|b l]; [split; [discriminate | intros [t H]; discriminate]|].
    rewrite andb_true_iff, IH. split.
    + intros [Hab [t ->]]. apply Ascii.eqb_eq in Hab as ->. exists t. reflexivity.
    + intros [t [= -> ->]]. split; [apply Ascii.eqb_refl | eauto].
Qed.

(** [s.endswith(suffix)]: [s] is some string followed by [suffix]. *)
Lemma endswith_app (s suffix : string) :
  Str.endswith s suffix = true <-> exists stem, s = (stem ++ suffix)%string.
Proof.
  unfold Str.endswith. rewrite list_prefix_app. split.
  - intros [t H]. exists (Str.of_chars (rev t)).
    rewrite <- (of_chars_chars s), <- (of_chars_chars (_ ++ _)%string).
    f_equal. rewrite chars_app, chars_of_chars.
    rewrite <- (rev_involutive (Str.chars s)), H, rev_app_distr, rev_involutive.
    reflexivity.
  - intros [stem ->]. exists (rev (Str.chars stem)).
    rewrite chars_app, rev_app_distr. reflexivity.
Qed.

(** The names [read_data_file] accepts. *)
Lemma supported_extension_suffix name :
  supported_extension name = true
  <-> exists stem, name = (stem ++ ".csv")%string
                   \/ name = (stem ++ ".xlsx")%string
                   \/ name = (stem ++ ".xls")%string.
Proof.
  unfold supported_extension. rewrite !orb_true_iff, !endswith_app. split.
  - intros [[[stem H]|[stem H]]|[stem H]]; exists stem; auto.
  - intros [stem [H|[H|H]]]; eauto.
Qed.

(** X1: the answer is 400 "No data file provided" exactly when the request
    has no [dataFile] part, whatever else it holds; the registry is then
    unchanged. *)
Theorem no_data_file_iff lib now1 now2 req reg :
  ((generate_chart lib now1 now2 req reg).1 = no_data_file <-> dataFile req = None)
  /\ (dataFile req = None ->
      generate_chart lib now1 now2 req reg = (no_data_file, reg)).
Proof.
  rewrite generate_chart_run, generate_chart_setup_run.
  destruct (dataFile req) as [f|]; [|split; [split|]; reflexivity].
  split; [|intros H; discriminate H]. split; [|intros H; discriminate H].
  destruct (form_slide_position req) as [e|p]; [intros H; discriminate H|].
  destruct (file_save f) as [e|[]]; [intros H; discriminate H|].
  destruct (supported_extension (file_name f)); [|intros H; discriminate H].
  destruct (file_read f) as [e|tbl]; [intros H; discriminate H|].
  destruct (base_document req) as [e|base]; [intros H; discriminate H|].
  destruct (ensure_slides base p) as [e|prs']; [intros H; discriminate H|].
  destruct (get_slide prs' (p - 1)) as [e|i]; [intros H; discriminate H|].
  cbn [df]. destruct (shape1 tbl <? 2)%nat; [intros H; discriminate H|].
  destruct (build_raises lib _); intros H; discriminate H.
Qed.

Lemma no_data_file_iff_witness :
  generate_chart Sample.library Sample.noon Sample.noon Sample.req_empty Sample.files
  = (no_data_file, Sample.files).
Proof.
  destruct (no_data_file_iff Sample.library Sample.noon Sample.noon Sample.req_empty
              Sample.files) as [_ Hnone].
  apply Hnone. reflexivity.
Defined.

(** X2: when a data file is present and [int] raises for the text of
    [slidePosition] (text that is not an integer numeral, or one of more
    than 4300 digits), the answer is 500 with the [ValueError] of [int],
    before the file is saved or read; the registry is unchanged. *)
Theorem bad_slide_position_is_500 lib now1 now2 req reg f txt :
  dataFile req = Some f ->
  slidePosition req = Some txt ->
  Int.of_string txt = None ->
  generate_chart lib now1 now2 req reg = (server_error (ValueError txt), reg).
Proof.
  intros Hf Htxt Hint.
  rewrite generate_chart_run, generate_chart_setup_run, Hf.
  unfold form_slide_position. rewrite Htxt, Hint. reflexivity.
Qed.

Lemma bad_slide_position_is_500_witness :
  generate_chart Sample.library Sample.noon Sample.noon Sample.req_abc Sample.files
  = (server_error (ValueError "abc"), Sample.files).
Proof.
  apply (bad_slide_position_is_500 Sample.library Sample.noon Sample.noon
           Sample.req_abc Sample.files (Sample.csv Sample.table) "abc");
    [reflexivity | reflexivity | vm_compute; reflexivity].
Defined.

(** X3: once the data file is saved, the answer is 400 "Unsupported file
    format: <name>" exactly when the name of the file ends in none of
    ".csv", ".xlsx" and ".xls" (the test is on the letters as they are);
    this comes before the template is opened. *)
Theorem unsupported_format_iff lib now1 now2 req reg f p :
  dataFile req = Some f ->
  form_slide_position req = inr p ->
  file_save f = inr tt ->
  ((generate_chart lib now1 now2 req reg).1 = unsupported_format (file_name f)
   <-> ~ exists stem, file_name f = (stem ++ ".csv")%string
                      \/ file_name f = (stem ++ ".xlsx")%string
                      \/ file_name f = (stem ++ ".xls")%string)
  /\ ((generate_chart lib now1 now2 req reg).1 = unsupported_format (file_name f) ->
      (generate_chart lib now1 now2 req reg).2 = reg).
Proof.
  intros Hf Hp Hsave. rewrite <- supported_extension_suffix.
  rewrite generate_chart_run, generate_chart_setup_run, Hf, Hp, Hsave.
  destruct (supported_extension (file_name f)).
  - assert (Hno : forall r : Response * registry,
              (r.1 = insufficient_columns \/ (exists id c, r.1 = generated id c)
               \/ exists e, r.1 = server_error e) ->
              r.1 <> unsupported_format (file_name f)).
    { intros r [H|[(id & c & H)|[e H]]] Heq; rewrite H in Heq; discriminate Heq. }
    match goal with |- (?r.1 = _ <-> _) /\ _ =>
      assert (Hr : r.1 <> unsupported_format (file_name f)) end.
    { apply Hno.
      destruct (file_read f) as [e|tbl]; [eauto|].
      destruct (base_document req) as [e|base]; [eauto|].
      destruct (ensure_slides base p) as [e|prs']; [eauto|].
      destruct (get_slide prs' (p - 1)) as [e|i]; [eauto|].
      cbn [df chart_type]. destruct (shape1 tbl <? 2)%nat; cbn [fst]; [eauto|].
      destruct (build_raises lib _); cbn [fst]; eauto 6. }
    split; [|intros H; contradiction]. split; [intros H; contradiction|].
    intros H. exfalso. apply H. reflexivity.
  - split; [|reflexivity]. split; [intros _ H; discriminate H | reflexivity].
Qed.

Lemma unsupported_format_iff_witness :
  generate_chart Sample.library Sample.noon Sample.noon Sample.req_txt Sample.files
  = (unsupported_format "notes.txt", Sample.files).
Proof.
  destruct (unsupported_format_iff Sample.library Sample.noon Sample.noon
              Sample.req_txt Sample.files
              (mkFile "notes.txt" (inr tt) (inr Sample.table)) 1)
    as [_ Hreg]; [reflexivity | reflexivity | reflexivity |].
  assert (H400 : (generate_chart Sample.library Sample.noon Sample.noon Sample.req_txt
                    Sample.files).1 = unsupported_format "notes.txt")
    by (vm_compute; reflexivity).
  specialize (Hreg H400).
  destruct (generate_chart Sample.library Sample.noon Sample.noon Sample.req_txt
              Sample.files) as [r reg']. cbn [fst snd] in *. congruence.
Defined.

(** X4: [generate_chart] always answers, with a JSON body and the status
    200, 400 or 500, whatever python-pptx does; the registry is touched by
    a 200 answer only, which sets the one key named in its [downloadUrl]
    and leaves every other key as it was. *)
Theorem generate_chart_answers lib now1 now2 req reg :
  (status (generate_chart lib now1 now2 req reg).1 = 200
   \/ status (generate_chart lib now1 now2 req reg).1 = 400
   \/ status (generate_chart lib now1 now2 req reg).1 = 500)
  /\ (exists fields, body (generate_chart lib now1 now2 req reg).1 = Json fields)
  /\ (status (generate_chart lib now1 now2 req reg).1 <> 200 ->
      (generate_chart lib now1 now2 req reg).2 = reg)
  /\ (status (generate_chart lib now1 now2 req reg).1 = 200 ->
      exists id a,
        (generate_chart lib now1 now2 req reg).1 = generated id (form_chart_type req)
        /\ (generate_chart lib now1 now2 req reg).2 = <[id := a]> reg
        /\ forall k, k <> id ->
             (generate_chart lib now1 now2 req reg).2 !! k = reg !! k).
Proof.
  rewrite generate_chart_run.
  destruct (generate_chart_setup req reg) as [[s|r|e] reg'] eqn:Hsetup.
  - apply generate_chart_setup_next in Hsetup as [_ (f & base & _ & Hc & _)].
    destruct (shape1 (df s) <? 2)%nat; cbn [fst snd].
    + split; [auto|]. split; [eexists; reflexivity|].
      split; [reflexivity | intros H; discriminate H].
    + destruct (build_raises lib s) as [e|]; cbn [fst snd].
      * split; [auto|]. split; [eexists; reflexivity|].
        split; [reflexivity | intros H; discriminate H].
      * split; [auto|]. split; [eexists; reflexivity|].
        split; [intros H; exfalso; apply H; reflexivity|]. intros _.
        exists (make_file_id now1 (chart_type s)), (new_artifact lib now1 now2 s).
        rewrite Hc. split; [reflexivity|]. split; [reflexivity|].
        intros k Hk. by rewrite lookup_insert_ne.
  - cbn [fst snd].
    apply generate_chart_setup_return in Hsetup as [->|[name ->]];
      (split; [auto|]); (split; [eexists; reflexivity|]);
      (split; [reflexivity | intros H; discriminate H]).
  - cbn [fst snd]. split; [auto|]. split; [eexists; reflexivity|].
    split; [reflexivity | intros H; discriminate H].
Qed.

(** X5: a chart that was generated can be downloaded: under the identifier
    of the [downloadUrl] of a 200 answer the registry holds an open
    buffer, and [download_chart] returns the stored document as an
    attachment named "chart_<id>.pptx", with the content type of a
    presentation; the entry stays, its buffer closed by the send. *)
Theorem generated_chart_downloads lib now1 now2 req reg :
  status (generate_chart lib now1 now2 req reg).1 = 200 ->
  exists id doc a,
    id = make_file_id now1 (form_chart_type req)
    /\ (generate_chart lib now1 now2 req reg).1 = generated id (form_chart_type req)
    /\ (generate_chart lib now1 now2 req reg).2 !! id = Some a
    /\ buffer a = mkBytesIO doc false
    /\ stored_document now1 (form_chart_type req)
         (generate_chart lib now1 now2 req reg).2 = Some doc
    /\ download_chart id (generate_chart lib now1 now2 req reg).2
       = ({| status := 200;
             body := Attachment doc pptx_content_type
                                ("chart_" ++ id ++ ".pptx")%string |},
          <[id := close_buffer a]> (generate_chart lib now1 now2 req reg).2).
Proof.
  intros H200. apply generate_chart_200 in H200 as (s & Hs & Hcols & _ & Hrun).
  rewrite Hrun.
  pose proof Hs as (f & base & _ & Hc & _). rewrite <- Hc.
  exists (make_file_id now1 (chart_type s)), (composed lib s),
         (new_artifact lib now1 now2 s).
  cbn [fst snd]. split; [reflexivity|]. split; [reflexivity|].
  split; [apply lookup_insert_eq|]. split; [reflexivity|].
  split; [unfold stored_document; by rewrite lookup_insert_eq|].
  rewrite download_chart_run, lookup_insert_eq. reflexivity.
Qed.

Lemma generated_chart_downloads_witness :
  exists doc,
    (download_chart "20231114221320_bar"
       (generate_chart Sample.library Sample.noon Sample.noon Sample.req_five ∅).2).1
    = {| status := 200;
         body := Attachment doc pptx_content_type "chart_20231114221320_bar.pptx" |}.
Proof.
  destruct (generated_chart_downloads Sample.library Sample.noon Sample.noon
              Sample.req_five ∅)
    as (id & doc & a & Hid & _ & _ & _ & _ & Hdown); [vm_compute; reflexivity|].
  exists doc. vm_compute in Hid. subst id. rewrite Hdown. reflexivity.
Defined.

(** X6: a [templateFile] part without a file name is not used: the request
    is answered as the same request without the part, from a new
    presentation. *)
Theorem unnamed_template_is_ignored lib now1 now2 req reg f :
  templateFile req = Some f ->
  file_name f = EmptyString ->
  base_document req = inr default_presentation
  /\ generate_chart lib now1 now2 req reg
     = generate_chart lib now1 now2 (without_template req) reg.
Proof.
  intros Hf Hname.
  assert (Hbase : base_document req = base_document (without_template req)).
  { unfold base_document, select_template. cbn [without_template templateFile].
    rewrite Hf, Hname. reflexivity. }
  split; [rewrite Hbase; reflexivity|].
  rewrite !generate_chart_run, !generate_chart_setup_run, <- Hbase.
  reflexivity.
Qed.

Lemma unnamed_template_is_ignored_witness :
  base_document Sample.req_unnamed_template = inr default_presentation
  /\ generate_chart Sample.library Sample.noon Sample.noon
       Sample.req_unnamed_template ∅
     = generate_chart Sample.library Sample.noon Sample.noon
         (without_template Sample.req_unnamed_template) ∅.
Proof.
  apply (unnamed_template_is_ignored Sample.library Sample.noon Sample.noon
           Sample.req_unnamed_template ∅
           (mkFile EmptyString (inr tt) (inr Sample.one_slide_deck)));
    reflexivity.
Defined.

(** X18: what raises between line 101 and line 139 is answered 500 and
    stores nothing. For a run that reaches line 93 with a table of two or
    more columns, the answer is 200 exactly when no value cell is an
    integer beyond the range of [float] and neither [add_chart] nor [save]
    raises; otherwise it is 500 with the error that was raised, the
    [OverflowError] of [float], the error of [add_chart] or the error of
    [save], in this order, and the registry is unchanged: the entry is
    written after [save] only. *)
Theorem build_failure_is_500 lib now1 now2 req reg s :
  reaches_column_check req s -> (2 <= shape1 (df s))%nat ->
  (status (generate_chart lib now1 now2 req reg).1 = 200 <-> build_succeeds lib s)
  /\ (Exists (fun cell => overflows cell = true) (iloc_col (df s) 1) ->
      generate_chart lib now1 now2 req reg = (server_error int_too_large, reg))
  /\ (Forall (fun cell => overflows cell = false) (iloc_col (df s) 1) ->
      forall e,
        add_chart_raises lib (dict_get CHART_TYPE_MAP (chart_type s) COLUMN_CLUSTERED)
          (chart_data_of (df s)) = Some e ->
        generate_chart lib now1 now2 req reg = (server_error e, reg))
  /\ (Forall (fun cell => overflows cell = false) (iloc_col (df s) 1) ->
      add_chart_raises lib (dict_get CHART_TYPE_MAP (chart_type s) COLUMN_CLUSTERED)
        (chart_data_of (df s)) = None ->
      forall e,
        save_raises lib (composed lib s) = Some e ->
        generate_chart lib now1 now2 req reg = (server_error e, reg)).
Proof.
  intros Hs Hcols.
  assert (Hsetup : generate_chart_setup req reg = (Next s, reg))
    by (apply generate_chart_setup_next; auto).
  rewrite generate_chart_run, Hsetup.
  destruct (Nat.ltb_spec (shape1 (df s)) 2); [lia|].
  split; [|split; [|split]].
  - rewrite <- build_raises_none.
    destruct (build_raises lib s); [split; discriminate | split; reflexivity].
  - intros Hbad. unfold build_raises.
    rewrite build_chart_data_overflow by exact Hbad. reflexivity.
  - intros Hok e Hadd. unfold build_raises.
    rewrite build_chart_data_ok by exact Hok. rewrite Hadd. reflexivity.
  - intros Hok Hadd e Hwrite. unfold build_raises.
    rewrite build_chart_data_ok by exact Hok. rewrite Hadd.
    fold (composed lib s). rewrite Hwrite. reflexivity.
Qed.

(** X18 on a scatter chart: python-pptx wants XY chart data for it. *)
Lemma build_failure_is_500_witness :
  generate_chart Sample.library Sample.noon Sample.noon Sample.req_scatter Sample.files
  = (server_error (LibraryError "chart data is not XY chart data"), Sample.files).
Proof.
  assert (Hs : reaches_column_check Sample.req_scatter Sample.setup_scatter).
  { apply (generate_chart_setup_next Sample.req_scatter ∅ Sample.setup_scatter ∅).
    vm_compute. reflexivity. }
  destruct (build_failure_is_500 Sample.library Sample.noon Sample.noon
              Sample.req_scatter Sample.files Sample.setup_scatter Hs)
    as (_ & _ & Hadd & _); [unfold shape1; simpl; lia|].
  apply Hadd; [unfold iloc_col; simpl; repeat constructor | reflexivity].
Defined.

(* ===================================================================== *)
(** * Further properties: identifiers and the life of an artifact *)
(* ===================================================================== *)

(** The text of [strftime('%Y%m%d%H%M%S')] is that of the second. *)
Lemma strftime_same_second t t' :
  same_second t t' -> Datetime.strftime_YmdHMS t = Datetime.strftime_YmdHMS t'.
Proof.
  unfold same_second, Datetime.strftime_YmdHMS, Datetime.us_per_day,
    Datetime.us_per_second. intros Hq.
  assert (Hday : forall x, x / (86400 * 1000000) = x / 1000000 / 86400).
  { intros x. rewrite Z.div_div by lia. reflexivity. }
  assert (Hsec : forall x, x mod (86400 * 1000000) / 1000000 = (x / 1000000) mod 86400).
  { intros x. rewrite (Z.mul_comm 86400), Z.rem_mul_r by lia.
    rewrite (Z.mul_comm 1000000), Z.div_add by lia.
    rewrite Z.div_small by (apply Z.mod_pos_bound; lia). reflexivity. }
  rewrite !Hday, !Hsec, Hq. reflexivity.
Qed.

Lemma make_file_id_same_second t t' c :
  same_second t t' -> make_file_id t c = make_file_id t' c.
Proof. intros H. unfold make_file_id. by rewrite (strftime_same_second t t'). Qed.

(** X7: the identifier has the resolution of a second. When two charts of
    the same kind are generated within one second of the clock, the
    second generation gets the identifier of the first and overwrites its
    entry: the registry is what the second generation alone would have
    left, with one new entry, not two, and a download returns the second
    chart. *)
Theorem same_second_overwrites lib now1 now2 now1' now2' req req' reg :
  status (generate_chart lib now1 now2 req reg).1 = 200 ->
  status (generate_chart lib now1' now2' req'
            (generate_chart lib now1 now2 req reg).2).1 = 200 ->
  form_chart_type req = form_chart_type req' ->
  same_second now1 now1' ->
  make_file_id now1' (form_chart_type req') = make_file_id now1 (form_chart_type req)
  /\ (generate_chart lib now1' now2' req' (generate_chart lib now1 now2 req reg).2).1
     = generated (make_file_id now1 (form_chart_type req)) (form_chart_type req')
  /\ (generate_chart lib now1' now2' req' (generate_chart lib now1 now2 req reg).2).2
     = (generate_chart lib now1' now2' req' reg).2
  /\ (forall k, k <> make_file_id now1 (form_chart_type req) ->
        (generate_chart lib now1' now2' req'
           (generate_chart lib now1 now2 req reg).2).2 !! k = reg !! k)
  /\ exists doc',
       stored_document now1' (form_chart_type req') (generate_chart lib now1' now2' req' reg).2
       = Some doc'
       /\ (download_chart (make_file_id now1 (form_chart_type req))
             (generate_chart lib now1' now2' req'
                (generate_chart lib now1 now2 req reg).2).2).1
          = {| status := 200;
               body := Attachment doc' pptx_content_type
                         ("chart_" ++ make_file_id now1' (form_chart_type req')
                          ++ ".pptx")%string |}.
Proof.
  intros H200 H200' Hc Hsec.
  apply generate_chart_200 in H200 as (s & Hs & _ & _ & Hrun).
  apply generate_chart_200 in H200' as (s' & Hs' & _ & _ & Hrun').
  pose proof Hs as (f & base & _ & Hcs & _).
  pose proof Hs' as (f' & base' & _ & Hcs' & _).
  rewrite <- Hcs' in *. rewrite <- Hcs in *.
  assert (Hid : make_file_id now1' (chart_type s') = make_file_id now1 (chart_type s))
    by (rewrite Hc; symmetry; by apply make_file_id_same_second).
  rewrite !Hrun', Hrun. cbn [fst snd]. rewrite <- Hid, insert_insert_eq.
  split; [reflexivity|]. split; [reflexivity|]. split; [reflexivity|].
  split; [intros k Hk; by rewrite lookup_insert_ne|].
  exists (composed lib s'). unfold stored_document.
  rewrite download_chart_run, !lookup_insert_eq. split; reflexivity.
Qed.

Lemma same_second_overwrites_witness :
  (generate_chart Sample.library (Sample.noon + 999999) Sample.two_pm Sample.req_zero
     (generate_chart Sample.library Sample.noon Sample.noon Sample.req_five ∅).2).2
  = (generate_chart Sample.library (Sample.noon + 999999) Sample.two_pm
       Sample.req_zero ∅).2.
Proof.
  destruct (same_second_overwrites Sample.library Sample.noon Sample.noon
              (Sample.noon + 999999) Sample.two_pm Sample.req_five Sample.req_zero ∅)
    as (_ & _ & Hsame & _);
    [vm_compute; reflexivity | vm_compute; reflexivity | reflexivity
     | vm_compute; reflexivity |].
  exact Hsame.
Defined.

Lemma length_of_chars l : String.length (Str.of_chars l) = length l.
Proof.
  unfold Str.of_chars. induction l as [|c l IH]; [reflexivity|].
  cbn [string_of_list_ascii String.length length]. by rewrite IH.
Qed.

Lemma length_last_digits n z acc :
  length (Int.last_digits n z acc) = (n + length acc)%nat.
Proof.
  revert z acc. induction n as [|n IH]; intros z acc; [reflexivity|].
  cbn [Int.last_digits]. rewrite IH. cbn [length]. lia.
Qed.

Lemma length_padded w z : String.length (Int.padded w z) = w.
Proof.
  unfold Int.padded. rewrite length_of_chars, length_last_digits.
  cbn [length]. lia.
Qed.

Lemma length_append (a b : string) :
  String.length (a ++ b)%string = (String.length a + String.length b)%nat.
Proof.
  induction a as [|c a IH]; [reflexivity|].
  rewrite append_cons. cbn [String.length]. by rewrite IH.
Qed.

(** [strftime('%Y%m%d%H%M%S')] always writes fourteen characters. *)
Lemma length_strftime t : String.length (Datetime.strftime_YmdHMS t) = 14%nat.
Proof.
  unfold Datetime.strftime_YmdHMS.
  destruct (Datetime.civil_from_days _) as [[y m] d].
  rewrite !length_append, !length_padded. reflexivity.
Qed.

Lemma append_inj (a a' b b' : string) :
  String.length a = String.length a' ->
  (a ++ b)%string = (a' ++ b')%string -> a = a' /\ b = b'.
Proof.
  revert a'. induction a as [|c a IH]; intros [|c' a'] Hlen H;
    try discriminate Hlen.
  - rewrite !append_empty in H. auto.
  - rewrite !append_cons in H. injection H as -> H.
    injection Hlen as Hlen. destruct (IH a' Hlen H) as [-> ->]. auto.
Qed.

(** The chart type can be read back from the identifier. *)
Lemma make_file_id_inj t t' c c' :
  make_file_id t c = make_file_id t' c' ->
  Datetime.strftime_YmdHMS t = Datetime.strftime_YmdHMS t' /\ c = c'.
Proof.
  unfold make_file_id. intros H.
  apply append_inj in H as [Ht H]; [|by rewrite !length_strftime].
  split; [exact Ht|]. rewrite !append_cons, !append_empty in H. congruence.
Qed.

(** X8: charts of different kinds never share an identifier, whenever they
    are generated: the second generation leaves the entry of the first as
    it was, and after both generations each chart is downloaded under its
    own identifier. *)
Theorem different_kinds_do_not_collide lib now1 now2 now1' now2' req req' reg :
  status (generate_chart lib now1 now2 req reg).1 = 200 ->
  status (generate_chart lib now1' now2' req'
            (generate_chart lib now1 now2 req reg).2).1 = 200 ->
  form_chart_type req <> form_chart_type req' ->
  make_file_id now1 (form_chart_type req) <> make_file_id now1' (form_chart_type req')
  /\ exists doc doc',
       stored_document now1 (form_chart_type req)
         (generate_chart lib now1 now2 req reg).2 = Some doc
       /\ stored_document now1' (form_chart_type req')
            (generate_chart lib now1' now2' req'
               (generate_chart lib now1 now2 req reg).2).2 = Some doc'
       /\ (download_chart (make_file_id now1 (form_chart_type req))
             (generate_chart lib now1' now2' req'
                (generate_chart lib now1 now2 req reg).2).2).1
          = {| status := 200;
               body := Attachment doc pptx_content_type
                         ("chart_" ++ make_file_id now1 (form_chart_type req)
                          ++ ".pptx")%string |}
       /\ (download_chart (make_file_id now1' (form_chart_type req'))
             (generate_chart lib now1' now2' req'
                (generate_chart lib now1 now2 req reg).2).2).1
          = {| status := 200;
               body := Attachment doc' pptx_content_type
                         ("chart_" ++ make_file_id now1' (form_chart_type req')
                          ++ ".pptx")%string |}.
Proof.
  intros H200 H200' Hc.
  apply generate_chart_200 in H200 as (s & Hs & _ & _ & Hrun).
  apply generate_chart_200 in H200' as (s' & Hs' & _ & _ & Hrun').
  pose proof Hs as (f & base & _ & Hcs & _).
  pose proof Hs' as (f' & base' & _ & Hcs' & _).
  rewrite <- Hcs' in *. rewrite <- Hcs in *.
  assert (Hid : make_file_id now1 (chart_type s) <> make_file_id now1' (chart_type s')).
  { intros H. apply make_file_id_inj in H as [_ H]. contradiction. }
  rewrite !Hrun', Hrun. cbn [fst snd].
  split; [exact Hid|]. exists (composed lib s), (composed lib s').
  unfold stored_document. rewrite !download_chart_run.
  rewrite ?lookup_insert_eq. rewrite lookup_insert_ne by congruence.
  rewrite lookup_insert_eq. repeat split; reflexivity.
Qed.

Lemma different_kinds_do_not_collide_witness :
  exists doc doc',
    (download_chart "20231114221320_bar"
       (generate_chart Sample.library Sample.noon Sample.noon Sample.req_pie
          (generate_chart Sample.library Sample.noon Sample.noon Sample.req_five ∅).2).2).1
    = {| status := 200;
         body := Attachment doc pptx_content_type "chart_20231114221320_bar.pptx" |}
    /\ (download_chart "20231114221320_pie"
          (generate_chart Sample.library Sample.noon Sample.noon Sample.req_pie
             (generate_chart Sample.library Sample.noon Sample.noon Sample.req_five
                ∅).2).2).1
       = {| status := 200;
            body := Attachment doc' pptx_content_type "chart_20231114221320_pie.pptx" |}.
Proof.
  destruct (different_kinds_do_not_collide Sample.library Sample.noon Sample.noon
              Sample.noon Sample.noon Sample.req_five Sample.req_pie ∅)
    as (_ & doc & doc' & _ & _ & Hbar & Hpie);
    [vm_compute; reflexivity | vm_compute; reflexivity | discriminate |].
  exists doc, doc'. split; [exact Hbar | exact Hpie].
Defined.

(** [cleanup], read off the registry. *)
Lemma cleanup_run now (reg : registry) :
  cleanup now reg
  = (cleanup_done
       (size reg - size (filter (fun kv => ~ Spec.older_than 3600 now kv.2) reg))
       (size (filter (fun kv => ~ Spec.older_than 3600 now kv.2) reg)),
     filter (fun kv => ~ Spec.older_than 3600 now kv.2) reg).
Proof.
  unfold cleanup. unfold_handler. rewrite cleanup_loop_run.
  - rewrite survivors_all_keys. reflexivity.
  - apply NoDup_fst_map_to_list.
  - intros k Hk. apply list_elem_of_fmap in Hk as ([k' a] & -> & Hk).
    apply elem_of_map_to_list in Hk. eauto.
Qed.

Lemma sweep_after_sweep now now' (reg : registry) :
  now <= now' ->
  filter (fun kv => ~ Spec.older_than 3600 now' kv.2)
    (filter (fun kv => ~ Spec.older_than 3600 now kv.2) reg)
  = filter (fun kv => ~ Spec.older_than 3600 now' kv.2) reg.
Proof.
  intros Hle. apply map_eq. intros k. apply option_eq. intros a.
  rewrite !map_lookup_filter_Some. cbn. unfold Spec.older_than.
  split; [tauto|]. intros [Hk Hkeep]. repeat split; [exact Hk | lia | exact Hkeep].
Qed.

(** X9: sweeping twice at the same moment removes nothing the second time
    and reports zero; a sweep at a later moment after an earlier one leaves
    the registry that the later sweep alone would leave. *)
Theorem cleanup_twice now now' (reg : registry) :
  cleanup now (cleanup now reg).2
  = (cleanup_done 0 (size (cleanup now reg).2), (cleanup now reg).2)
  /\ (now <= now' ->
      (cleanup now' (cleanup now reg).2).2 = (cleanup now' reg).2).
Proof.
  rewrite !cleanup_run. cbn [snd]. split.
  - rewrite sweep_after_sweep by lia. rewrite Nat.sub_diag. reflexivity.
  - intros Hle. by apply sweep_after_sweep.
Qed.

Lemma cleanup_twice_witness :
  cleanup Sample.two_pm (cleanup Sample.two_pm Sample.files).2
  = (cleanup_done 0 (size (cleanup Sample.two_pm Sample.files).2),
     (cleanup Sample.two_pm Sample.files).2)
  /\ (cleanup Sample.two_pm (cleanup Sample.noon Sample.files).2).2
     = (cleanup Sample.two_pm Sample.files).2.
Proof.
  destruct (cleanup_twice Sample.two_pm Sample.two_pm Sample.files) as [Hsame _].
  destruct (cleanup_twice Sample.noon Sample.two_pm Sample.files) as [_ Hlater].
  split; [exact Hsame|]. apply Hlater. vm_compute. discriminate.
Defined.

(** X10: the life of a generated chart. It is created at the second
    reading of the clock; a sweep at most 3600 seconds after that keeps
    it, and it can still be downloaded; a sweep later than that removes
    it, and the download answers 404. *)
Theorem generated_chart_expires lib now1 now2 now req reg :
  status (generate_chart lib now1 now2 req reg).1 = 200 ->
  exists doc,
    stored_document now1 (form_chart_type req)
      (generate_chart lib now1 now2 req reg).2 = Some doc
    /\ (now - now2 <= 3600 * 1000000 ->
        (download_chart (make_file_id now1 (form_chart_type req))
           (cleanup now (generate_chart lib now1 now2 req reg).2).2).1
        = {| status := 200;
             body := Attachment doc pptx_content_type
                       ("chart_" ++ make_file_id now1 (form_chart_type req)
                        ++ ".pptx")%string |})
    /\ (3600 * 1000000 < now - now2 ->
        (download_chart (make_file_id now1 (form_chart_type req))
           (cleanup now (generate_chart lib now1 now2 req reg).2).2).1
        = file_not_found).
Proof.
  intros H200. apply generate_chart_200 in H200 as (s & Hs & _ & _ & Hrun).
  pose proof Hs as (f & base & _ & Hcs & _). rewrite <- Hcs.
  rewrite Hrun. cbn [snd]. exists (composed lib s).
  split; [unfold stored_document; by rewrite lookup_insert_eq|].
  rewrite cleanup_run, download_chart_run. cbn [fst snd].
  split; intros Hage.
  - rewrite (map_lookup_filter_Some_2 _ _ _ (new_artifact lib now1 now2 s));
      [reflexivity | apply lookup_insert_eq|].
    cbn. unfold Spec.older_than. cbn [new_artifact created]. lia.
  - rewrite (proj2 (map_lookup_filter_None _ _ _)); [reflexivity|].
    right. intros a Ha. rewrite lookup_insert_eq in Ha. injection Ha as <-.
    cbn. unfold Spec.older_than. cbn [new_artifact created]. lia.
Qed.

Lemma generated_chart_expires_witness :
  exists doc,
    (download_chart "20231114221320_bar"
       (cleanup (Sample.noon + 3600 * 1000000)
          (generate_chart Sample.library Sample.noon Sample.noon Sample.req_five ∅).2).2).1
    = {| status := 200;
         body := Attachment doc pptx_content_type "chart_20231114221320_bar.pptx" |}
    /\ (download_chart "20231114221320_bar"
          (cleanup Sample.two_pm
             (generate_chart Sample.library Sample.noon Sample.noon Sample.req_five
                ∅).2).2).1
       = file_not_found.
Proof.
  destruct (generated_chart_expires Sample.library Sample.noon Sample.noon
              (Sample.noon + 3600 * 1000000) Sample.req_five ∅)
    as (doc & Hdoc & Hkept & _); [vm_compute; reflexivity|].
  destruct (generated_chart_expires Sample.library Sample.noon Sample.noon
              Sample.two_pm Sample.req_five ∅)
    as (doc' & Hdoc' & _ & Hgone); [vm_compute; reflexivity|].
  exists doc. split; [apply Hkept | apply Hgone]; vm_compute; [discriminate | reflexivity].
Defined.

(* ===================================================================== *)
(** * Further properties: padding, the target slide and the template *)
(* ===================================================================== *)

(** The selected layout is missing exactly when no layout passes the test
    of line 84 and there are at most five layouts. *)
Lemma selected_layout_missing (layouts : list SlideLayout) :
  layouts !! select_layout_idx layouts = None
  <-> (forall l, l ∈ layouts -> layout_matches l = false)
      /\ (length layouts <= 5)%nat.
Proof.
  unfold select_layout_idx.
  destruct (scan_layouts 0 layouts) as [idx|] eqn:Hscan.
  - apply scan_layouts_some in Hscan as (k & layout & -> & Hk & Hm & _).
    cbn [Nat.add]. rewrite Hk. split; [discriminate|]. intros [Hnone _].
    rewrite (Hnone layout) in Hm; [discriminate|].
    by eapply list_elem_of_lookup_2.
  - rewrite lookup_ge_None. split.
    + intros Hlen. split; [exact (scan_layouts_none _ _ Hscan) | lia].
    + intros [_ Hlen]. lia.
Qed.

(** X11: the padding loop of lines 80-87. It raises, an [IndexError] of
    the layout list, exactly when a slide is missing, no layout name
    contains "blank" or "title", and the presentation has at most five
    layouts; it raises nothing else. When the presentation has enough
    slides it is returned as it is, and whenever the loop returns, the
    layouts and the slides that were there are unchanged and the number of
    slides is the larger of the old number and the position. *)
Theorem padding_fails_iff (base : Presentation) (p : Z) :
  (ensure_slides base p = inl (IndexError "slide layout index out of range")
   <-> Z.of_nat (length (slides base)) < p
       /\ (forall l, l ∈ slide_layouts base -> layout_matches l = false)
       /\ (length (slide_layouts base) <= 5)%nat)
  /\ (forall e, ensure_slides base p = inl e ->
                e = IndexError "slide layout index out of range")
  /\ (p <= Z.of_nat (length (slides base)) -> ensure_slides base p = inr base)
  /\ (forall prs',
        ensure_slides base p = inr prs' ->
        slide_layouts prs' = slide_layouts base
        /\ take (length (slides base)) (slides prs') = slides base
        /\ length (slides prs') = Nat.max (length (slides base)) (Z.to_nat p)).
Proof.
  assert (Hcases :
    (Z.of_nat (length (slides base)) < p
     /\ slide_layouts base !! select_layout_idx (slide_layouts base) = None
     /\ ensure_slides base p = inl (IndexError "slide layout index out of range"))
    \/ ((p <= Z.of_nat (length (slides base))
         \/ is_Some (slide_layouts base !! select_layout_idx (slide_layouts base)))
        /\ exists prs', ensure_slides base p = inr prs')).
  { destruct (Z.lt_ge_cases (Z.of_nat (length (slides base))) p) as [Hlt|Hge].
    - destruct (slide_layouts base !! select_layout_idx (slide_layouts base))
        as [layout|] eqn:Hlayout.
      + right. split; [right; eauto|]. apply ensure_slides_loop_ok. right.
        rewrite Hlayout. eauto.
      + left. split; [exact Hlt|]. split; [reflexivity|].
        by apply ensure_slides_no_layout.
    - right. split; [left; lia|]. apply ensure_slides_loop_ok. left. lia. }
  split; [|split; [|split]].
  - rewrite <- selected_layout_missing. split.
    + intros Hfail. destruct Hcases as [(? & ? & _)|[_ [prs' Hok]]]; [auto|].
      congruence.
    + intros [Hlt Hnone]. by apply ensure_slides_no_layout.
  - intros e He. destruct Hcases as [(_ & _ & Hfail)|[_ [prs' Hok]]]; congruence.
  - intros Hle. unfold ensure_slides.
    replace (Z.to_nat (p - Z.of_nat (length (slides base)))) with 0%nat by lia.
    reflexivity.
  - intros prs' Hok. unfold ensure_slides in Hok.
    apply ensure_slides_loop_inr in Hok as (Hlayouts & added & Hslides & Hlen & _).
    split; [exact Hlayouts|]. rewrite Hslides. split; [by rewrite take_app_length|].
    rewrite length_app, Hlen. lia.
Qed.

Lemma padding_fails_iff_witness :
  ensure_slides Sample.bare_deck 1
  = inl (IndexError "slide layout index out of range")
  /\ ensure_slides Sample.one_slide_deck 1 = inr Sample.one_slide_deck.
Proof.
  destruct (padding_fails_iff Sample.bare_deck 1) as ([_ Hfail] & _).
  destruct (padding_fails_iff Sample.one_slide_deck 1) as (_ & _ & Hkeep & _).
  split; [apply Hfail | apply Hkeep; vm_compute; discriminate].
  split; [vm_compute; reflexivity|]. split; [|cbn; lia].
  intros l Hl. apply list_elem_of_singleton in Hl as ->. vm_compute. reflexivity.
Defined.

Lemma get_slide_negative (deck : Presentation) z :
  z < 0 ->
  get_slide deck z
  = if 0 <=? z + Z.of_nat (length (slides deck))
    then inr (Z.to_nat (z + Z.of_nat (length (slides deck))))
    else inl (IndexError "slide index out of range").
Proof.
  intros Hz. unfold get_slide, py_index.
  destruct (Z.ltb_spec z 0); [|lia].
  destruct (Z.leb_spec 0 (z + Z.of_nat (length (slides deck)))); cbn [andb];
    [|reflexivity].
  destruct (Z.ltb_spec (z + Z.of_nat (length (slides deck)))
              (Z.of_nat (length (slides deck)))); [reflexivity | lia].
Qed.

(** X12: a slide position p that is zero or negative is not refused. No
    slide is added, and the target index p - 1 counts from the end of the
    k slides of the base document: when k + p <= 0 the answer is 500 with
    the [IndexError] of the slide list and the registry is unchanged;
    otherwise, for a table of two or more columns for which lines 101-139
    raise nothing, the answer is 200 and the chart is appended to the
    slide at index k + p - 1 of the base document, which keeps its k
    slides. *)
Theorem nonpositive_position lib now1 now2 req reg f tbl base p :
  dataFile req = Some f ->
  supported_extension (file_name f) = true ->
  file_save f = inr tt ->
  file_read f = inr tbl ->
  form_slide_position req = inr p ->
  p <= 0 ->
  base_document req = inr base ->
  (Z.of_nat (length (slides base)) + p <= 0 ->
   generate_chart lib now1 now2 req reg
   = (server_error (IndexError "slide index out of range"), reg))
  /\ (0 < Z.of_nat (length (slides base)) + p ->
      (2 <= shape1 tbl)%nat ->
      Forall (fun cell => overflows cell = false) (iloc_col tbl 1) ->
      add_chart_raises lib
        (dict_get CHART_TYPE_MAP (form_chart_type req) COLUMN_CLUSTERED)
        (chart_data_of tbl) = None ->
      save_raises lib
        (place_chart base (Z.to_nat (Z.of_nat (length (slides base)) + p - 1))
           (build_chart lib (form_chart_type req) (chart_data_of tbl))) = None ->
      exists target doc,
        slides base !! Z.to_nat (Z.of_nat (length (slides base)) + p - 1)
        = Some target
        /\ status (generate_chart lib now1 now2 req reg).1 = 200
        /\ stored_document now1 (form_chart_type req)
             (generate_chart lib now1 now2 req reg).2 = Some doc
        /\ slides doc
           = <[Z.to_nat (Z.of_nat (length (slides base)) + p - 1) :=
                 add_shape (GraphicFrame (build_chart lib (form_chart_type req)
                                                      (chart_data_of tbl)))
                           target]> (slides base)).
Proof.
  intros Hf Hext Hsave Hread Hp Hpos Hbase.
  assert (Hpad : ensure_slides base p = inr base).
  { unfold ensure_slides.
    replace (Z.to_nat (p - Z.of_nat (length (slides base)))) with 0%nat by lia.
    reflexivity. }
  pose proof (get_slide_negative base (p - 1) ltac:(lia)) as Hget.
  split.
  - intros Hout.
    destruct (Z.leb_spec 0 (p - 1 + Z.of_nat (length (slides base)))); [lia|].
    rewrite generate_chart_run, generate_chart_setup_run.
    rewrite Hf, Hp, Hsave, Hext, Hread, Hbase, Hpad, Hget. reflexivity.
  - intros Hin Hcols Hcells Hadd Hwrite.
    destruct (Z.leb_spec 0 (p - 1 + Z.of_nat (length (slides base)))); [|lia].
    replace (p - 1 + Z.of_nat (length (slides base)))
      with (Z.of_nat (length (slides base)) + p - 1) in Hget by lia.
    destruct (get_slide_lookup _ _ _ Hget) as [target Htarget].
    set (i := Z.to_nat (Z.of_nat (length (slides base)) + p - 1)) in *.
    set (s := mkSetup (form_chart_type req) p tbl base i).
    assert (Hs : reaches_column_check req s) by (exists f, base; auto 10).
    assert (Hbuild : build_succeeds lib s) by (repeat split; assumption).
    rewrite (generate_chart_reaching lib now1 now2 req reg s Hs Hcols Hbuild).
    exists target, (composed lib s).
    split; [exact Htarget|]. split; [reflexivity|].
    split; [unfold stored_document; cbn [snd chart_type s];
            by rewrite lookup_insert_eq|].
    unfold composed. cbn [s prs slide chart_type df].
    by apply place_chart_slides.
Qed.

Lemma nonpositive_position_witness :
  generate_chart Sample.library Sample.noon Sample.noon Sample.req_minus_three
    Sample.files
  = (server_error (IndexError "slide index out of range"), Sample.files)
  /\ exists target doc,
       slides Sample.one_slide_deck !! 0%nat = Some target
       /\ stored_document Sample.noon "bar"
            (generate_chart Sample.library Sample.noon Sample.noon Sample.req_zero ∅).2
          = Some doc
       /\ slides doc
          = [add_shape (GraphicFrame (build_chart Sample.library "bar"
                                        (chart_data_of Sample.table)))
                       target].
Proof.
  destruct (nonpositive_position Sample.library Sample.noon Sample.noon
              Sample.req_minus_three
              Sample.files (Sample.csv Sample.table) Sample.table
              Sample.one_slide_deck (-3)) as [Hout _];
    [reflexivity | vm_compute; reflexivity | reflexivity | reflexivity
     | vm_compute; reflexivity | lia | reflexivity |].
  destruct (nonpositive_position Sample.library Sample.noon Sample.noon
              Sample.req_zero ∅
              (Sample.csv Sample.table) Sample.table Sample.one_slide_deck 0)
    as [_ Hin];
    [reflexivity | vm_compute; reflexivity | reflexivity | reflexivity
     | vm_compute; reflexivity | lia | reflexivity |].
  split; [apply Hout; vm_compute; discriminate|].
  destruct Hin as (target & doc & Htarget & _ & Hdoc & Hslides);
    [vm_compute; reflexivity | unfold shape1; simpl; lia
     | unfold iloc_col; simpl; repeat constructor
     | vm_compute; reflexivity | reflexivity |].
  exists target, doc. split; [exact Htarget|]. split; [exact Hdoc|].
  rewrite Hslides. reflexivity.
Defined.

(** X13: a 200 answer keeps what the template held. The stored document
    has the layouts of the base document, and every slide of the base
    document is still at its index, with its layout and with its shapes
    in front of whatever was added. *)
Theorem template_is_preserved lib now1 now2 req reg base :
  status (generate_chart lib now1 now2 req reg).1 = 200 ->
  base_document req = inr base ->
  exists doc,
    stored_document now1 (form_chart_type req)
      (generate_chart lib now1 now2 req reg).2 = Some doc
    /\ slide_layouts doc = slide_layouts base
    /\ forall j sl,
         slides base !! j = Some sl ->
         exists sl' more,
           slides doc !! j = Some sl'
           /\ slide_layout sl' = slide_layout sl
           /\ shapes sl' = shapes sl ++ more.
Proof.
  intros H200 Hbase.
  apply generate_chart_200_document in H200
    as (s & target & doc & Hs & _ & Htarget & Hdoc & Hlayouts & Hslides).
  pose proof Hs as (f & base' & _ & Hc & _ & _ & _ & _ & Hbase' & Hpad & _).
  assert (base' = base) by congruence. subst base'.
  unfold ensure_slides in Hpad.
  apply ensure_slides_loop_inr in Hpad as (Hsame & added & Hpadded & _ & _).
  exists doc. rewrite <- Hc. split; [exact Hdoc|].
  split; [congruence|]. intros j sl Hj.
  assert (Hj' : slides (prs s) !! j = Some sl)
    by (rewrite Hpadded; by apply lookup_app_l_Some).
  rewrite Hslides. destruct (decide (j = slide s)) as [->|Hne].
  - assert (target = sl) by congruence. subst target.
    exists (add_shape (GraphicFrame (build_chart lib (chart_type s)
                                        (chart_data_of (df s)))) sl),
           [GraphicFrame (build_chart lib (chart_type s) (chart_data_of (df s)))].
    split; [|split; reflexivity].
    apply list_lookup_insert_eq. by eapply lookup_lt_Some.
  - exists sl, []. rewrite list_lookup_insert_ne by congruence.
    split; [exact Hj'|]. split; [reflexivity | by rewrite app_nil_r].
Qed.

Lemma template_is_preserved_witness :
  exists doc sl' more,
    stored_document Sample.noon "bar"
      (generate_chart Sample.library Sample.noon Sample.noon Sample.req_zero ∅).2
    = Some doc
    /\ slide_layouts doc = slide_layouts Sample.one_slide_deck
    /\ slides doc !! 0%nat = Some sl'
    /\ shapes sl' = [] ++ more.
Proof.
  destruct (template_is_preserved Sample.library Sample.noon Sample.noon
              Sample.req_zero ∅
              Sample.one_slide_deck) as (doc & Hdoc & Hlayouts & Hslides);
    [vm_compute; reflexivity | reflexivity|].
  destruct (Hslides 0%nat (new_slide (mkLayout (Some "Blank") [])))
    as (sl' & more & Hsl & _ & Hshapes); [reflexivity|].
  exists doc, sl', more. auto.
Defined.

(* ===================================================================== *)
(** * Further properties: the values of the series and decimal text *)
(* ===================================================================== *)

(** What [float] raises: [ValueError] on text, [TypeError] on what is
    not a number, [OverflowError] on an integer beyond its range. *)
Lemma py_float_raises val e :
  py_float val = inl e ->
  (exists s, val = PyStr s /\ e = ValueError s)
  \/ (exists r, e = TypeError r)
  \/ (overflows val = true /\ e = int_too_large).
Proof.
  destruct val as [s|f|z|b| |r]; cbn [py_float overflows]; try discriminate.
  - destruct (Float.of_string s); [discriminate|]. intros [= <-]. eauto.
  - destruct (Float.is_infinite (Float.of_Z z)); [|discriminate].
    intros [= <-]. auto.
  - intros [= <-]. eauto.
  - intros [= <-]. eauto.
Qed.

Lemma py_float_strip_percent_raises val e :
  isinstance_str val = true ->
  py_float (strip_percent val) = inl e -> exists s, e = ValueError s.
Proof.
  destruct val as [s|f|z|b| |r]; try discriminate. intros _.
  cbn [strip_percent py_float].
  destruct (Float.of_string _); [discriminate|]. intros [= <-]. eauto.
Qed.

(** What the loop body appends for a cell that does not overflow. *)
Lemma coerce_value_float val value :
  coerce_value val = inr value ->
  match py_float (float_argument val) with
  | inr f => value = PyFloat f
  | inl _ => value = PyInt 0
  end.
Proof.
  unfold coerce_value, float_argument.
  destruct (isinstance_str val && has_percent val) eqn:Htext.
  - apply andb_true_iff in Htext as [Hstr _].
    destruct (py_float (strip_percent val)) as [e|f] eqn:Hfloat; [|congruence].
    destruct (py_float_strip_percent_raises _ _ Hstr Hfloat) as [s ->]. congruence.
  - destruct (py_float val) as [e|f] eqn:Hfloat; [|congruence].
    destruct (py_float_raises _ _ Hfloat) as [(s & _ & ->)|[[r ->]|[_ ->]]];
      [congruence | congruence | discriminate].
Qed.

(** X14: the loop over the value column raises for one kind of cell only,
    an integer that rounds beyond the largest float: [float] raises
    [OverflowError] for it, which neither [except] clause catches. When no
    cell is of that kind the loop appends one value for each cell, in
    order: the float that [float] returns for the cell (for the cell
    stripped of percent signs when it is text containing one), and the
    integer 0 whenever [float] raises. *)
Theorem value_loop_raises_iff (cells : list pyval) :
  ((exists values, coerce_values cells = inr values)
   <-> Forall (fun cell => overflows cell = false) cells)
  /\ (coerce_values cells = inl int_too_large
      <-> Exists (fun cell => overflows cell = true) cells)
  /\ (forall e, coerce_values cells = inl e -> e = int_too_large)
  /\ (forall values,
        coerce_values cells = inr values ->
        length values = length cells
        /\ Forall2 (fun cell value =>
                      match py_float (float_argument cell) with
                      | inr f => value = PyFloat f
                      | inl _ => value = PyInt 0
                      end) cells values).
Proof.
  destruct (overflow_cases cells) as [Hok|Hbad].
  - rewrite coerce_values_appended by exact Hok.
    split; [split; [auto | eauto]|].
    split; [split; [discriminate | intros Hbad; destruct (overflow_exclusive _ Hok Hbad)]|].
    split; [discriminate|]. intros values [= <-].
    split; [apply length_map|].
    induction Hok as [|cell cells Hcell _ IH]; constructor; [|exact IH].
    apply coerce_value_float. by apply coerce_value_appended.
  - rewrite coerce_values_overflow by exact Hbad.
    split; [split; [intros [values H]; discriminate H
                   | intros Hok; destruct (overflow_exclusive _ Hok Hbad)]|].
    split; [split; auto|]. split; [congruence | discriminate].
Qed.

(** X14 on a column of four cells, and on the same column with 10^400. *)
Lemma value_loop_raises_iff_witness :
  coerce_values [PyStr "45%"; PyStr "abc"; PyFloat Sample.f3_5; PyInt 7]
  = inr [PyFloat Sample.f45; PyInt 0; PyFloat Sample.f3_5; PyFloat (Float.of_Z 7)]
  /\ coerce_values [PyStr "45%"; PyInt (10 ^ 400)] = inl int_too_large.
Proof.
  destruct (value_loop_raises_iff [PyStr "45%"; PyInt (10 ^ 400)])
    as (_ & [_ Hraises] & _).
  split; [vm_compute; reflexivity|].
  apply Hraises. right. left. vm_compute. reflexivity.
Defined.

(** The characters of a decimal numeral. *)
Lemma digit_not_space c : Str.is_digit c = true -> Str.is_space c = false.
Proof.
  unfold Str.is_digit, Str.is_space. generalize (Str.code c). intros n H.
  apply andb_true_iff in H as [H1 H2].
  apply Nat.leb_le in H1. apply Nat.leb_le in H2.
  repeat (apply orb_false_iff; split);
    [apply andb_false_iff; right; apply Nat.leb_gt; lia
    | apply Nat.eqb_neq; lia ..].
Qed.

Lemma digit_not_upper c : Str.is_digit c = true -> Str.is_upper c = false.
Proof.
  unfold Str.is_digit, Str.is_upper. generalize (Str.code c). intros n H.
  apply andb_true_iff in H as [H1 H2].
  apply Nat.leb_le in H1. apply Nat.leb_le in H2.
  repeat (apply orb_false_iff; split);
    apply andb_false_iff; left; apply Nat.leb_gt; lia.
Qed.

Lemma lstrip_chars_none p l :
  match l with c :: _ => p c = false | [] => True end ->
  Str.lstrip_chars p l = l.
Proof. destruct l as [|c l]; [reflexivity|]. cbn. by intros ->. Qed.

Lemma strip_chars_none p l :
  Forall (fun c => p c = false) l -> Str.strip_chars p l = l.
Proof.
  intros Hall. unfold Str.strip_chars.
  rewrite (lstrip_chars_none p l) by (destruct Hall; auto).
  rewrite lstrip_chars_none; [apply rev_involutive|].
  apply List.Forall_rev in Hall. destruct Hall; auto.
Qed.

Lemma digitpart_rest_digits l acc :
  Forall (fun c => Str.is_digit c = true) l ->
  Lex.digitpart_rest l acc = (rev acc ++ List.map Lex.digit_val l, []).
Proof.
  intros Hall. revert acc. induction Hall as [|c l Hc _ IH]; intros acc.
  - cbn. by rewrite app_nil_r.
  - cbn [Lex.digitpart_rest List.map]. rewrite Hc, IH. cbn [rev].
    by rewrite <- app_assoc.
Qed.

Lemma digitpart_digits c l :
  Forall (fun c => Str.is_digit c = true) (c :: l) ->
  Lex.digitpart (c :: l) = Some (List.map Lex.digit_val (c :: l), []).
Proof.
  intros Hall. inversion Hall as [|? ? Hc Hl]; subst.
  cbn [Lex.digitpart]. rewrite Hc, digitpart_rest_digits by exact Hl.
  reflexivity.
Qed.

Lemma uint_chars_digits d :
  Forall (fun c => Str.is_digit c = true) (Str.chars (NilEmpty.string_of_uint d)).
Proof.
  unfold Str.chars.
  induction d; cbn [NilEmpty.string_of_uint list_ascii_of_string];
    constructor; try reflexivity; assumption.
Qed.

Lemma uint_chars_value d acc :
  fold_left (fun a x => 10 * a + x)
    (List.map Lex.digit_val (Str.chars (NilEmpty.string_of_uint d))) (Z.of_nat acc)
  = Z.of_nat (Nat.of_uint_acc d acc).
Proof.
  unfold Str.chars. revert acc.
  induction d as [|d IH|d IH|d IH|d IH|d IH|d IH|d IH|d IH|d IH|d IH];
    intros acc; [reflexivity|..];
    cbn [NilEmpty.string_of_uint list_ascii_of_string List.map fold_left
         Nat.of_uint_acc];
    rewrite <- IH; f_equal; rewrite Nat.tail_mul_spec;
    match goal with |- context [Lex.digit_val ?c] =>
      let v := eval vm_compute in (Lex.digit_val c) in
      change (Lex.digit_val c) with v
    end; lia.
Qed.

Lemma to_string_chars n :
  exists c l,
    Str.chars (Int.to_string n) = c :: l
    /\ Forall (fun c => Str.is_digit c = true) (c :: l)
    /\ Lex.digits_value (List.map Lex.digit_val (c :: l)) = Z.of_nat n.
Proof.
  unfold Int.to_string.
  pose proof (uint_chars_digits (Nat.to_uint n)) as Hdigits.
  pose proof (uint_chars_value (Nat.to_uint n) 0) as Hvalue.
  change (Nat.of_uint_acc (Nat.to_uint n) 0) with (Nat.of_uint (Nat.to_uint n))
    in Hvalue.
  rewrite DecimalNat.Unsigned.of_to in Hvalue.
  destruct (Str.chars (NilEmpty.string_of_uint (Nat.to_uint n))) as [|c l] eqn:Hchars.
  - exfalso. destruct n as [|n]; [discriminate Hchars|].
    cbn in Hvalue. lia.
  - exists c, l. auto.
Qed.

Lemma sign_digit c l :
  Str.is_digit c = true -> Lex.sign (c :: l) = (false, c :: l).
Proof.
  intros Hc. cbn [Lex.sign].
  destruct (Ascii.eqb_spec c "-") as [->|_]; [discriminate Hc|].
  destruct (Ascii.eqb_spec c "+") as [->|_]; [discriminate Hc|]. reflexivity.
Qed.

Lemma of_decimal_integer n :
  Float.of_decimal false (Z.of_nat n) 0 = Float.of_Z (Z.of_nat n).
Proof.
  unfold Float.of_decimal, Float.of_Z.
  destruct (Z.eqb_spec (Z.of_nat n) 0) as [->|_]; [reflexivity|].
  change (0 <=? 0) with true. cbn iota. change (10 ^ 0) with 1.
  by rewrite Z.mul_1_r.
Qed.

Lemma digit_word_neq c l w rest :
  Str.is_digit c = true -> Str.is_digit w = false ->
  String.eqb (Str.lower (Str.of_chars (c :: l))) (String w rest) = false.
Proof.
  intros Hc Hw. apply String.eqb_neq.
  change (Str.of_chars (c :: l)) with (String c (Str.of_chars l)).
  rewrite lower_cons. unfold Str.lower_char. rewrite digit_not_upper by exact Hc.
  intros [= -> _]. congruence.
Qed.

(** [float] of a decimal numeral without sign, point or exponent. *)
Lemma floatvalue_digits c l :
  Forall (fun c => Str.is_digit c = true) (c :: l) ->
  Float.floatvalue (c :: l)
  = Some (Float.of_decimal false
            (Lex.digits_value (List.map Lex.digit_val (c :: l))) 0).
Proof.
  intros Hdigits. inversion Hdigits as [|? ? Hc _]; subst.
  unfold Float.floatvalue. rewrite sign_digit by exact Hc.
  rewrite !(digit_word_neq c l) by (exact Hc || reflexivity). cbn [orb].
  unfold Float.floatnumber, Float.number.
  rewrite digitpart_digits by exact Hdigits.
  cbn [List.map length]. rewrite app_nil_r. reflexivity.
Qed.

Lemma float_of_to_string n :
  Float.of_string (Int.to_string n) = Some (Float.of_Z (Z.of_nat n)).
Proof.
  destruct (to_string_chars n) as (c & l & Hchars & Hdigits & Hvalue).
  unfold Float.of_string. rewrite Hchars.
  rewrite strip_chars_none
    by (eapply Forall_impl; [exact Hdigits | apply digit_not_space]).
  rewrite floatvalue_digits by exact Hdigits.
  by rewrite Hvalue, of_decimal_integer.
Qed.

Lemma strip_chars_trailing p l x :
  Forall (fun c => p c = false) l -> p x = true ->
  Str.strip_chars p (l ++ [x]) = l.
Proof.
  intros Hall Hx. unfold Str.strip_chars.
  assert (Hrev : Str.lstrip_chars p (x :: rev l) = rev l).
  { cbn [Str.lstrip_chars]. rewrite Hx. apply lstrip_chars_none.
    apply List.Forall_rev in Hall. destruct Hall; auto. }
  destruct Hall as [|c l Hc Hl].
  - cbn. rewrite Hx. reflexivity.
  - rewrite (lstrip_chars_none p ((c :: l) ++ [x])) by exact Hc.
    rewrite rev_app_distr. cbn [rev app] in *. rewrite Hrev.
    apply (rev_involutive (c :: l)).
Qed.

Lemma digit_not_percent c :
  Str.is_digit c = true -> existsb (Ascii.eqb c) (Str.chars "%") = false.
Proof.
  intros Hc. cbn. destruct (Ascii.eqb_spec c "%") as [->|_];
    [discriminate Hc | reflexivity].
Qed.

Lemma digits_without_percent s :
  Forall (fun c => Str.is_digit c = true) (Str.chars s) ->
  Str.contains "%" s = false.
Proof.
  intros Hdigits. destruct (Str.contains "%" s) eqn:Hin; [|reflexivity].
  apply contains_app in Hin as (pre & post & ->).
  rewrite !chars_app in Hdigits.
  apply List.Forall_app in Hdigits as [_ Hdigits].
  apply List.Forall_app in Hdigits as [Hdigits _].
  inversion Hdigits as [|? ? Hc _]. discriminate Hc.
Qed.

(** X16: a value cell holding the text of a natural number N, with or
    without a percent sign after it, gives the float nearest to N: "45%"
    and "45" both give 45.0, and so for every N. *)
Theorem integer_text_cells (n : nat) :
  coerce_value (PyStr (Int.to_string n ++ "%"))
  = inr (PyFloat (Float.of_Z (Z.of_nat n)))
  /\ coerce_value (PyStr (Int.to_string n))
     = inr (PyFloat (Float.of_Z (Z.of_nat n))).
Proof.
  destruct (to_string_chars n) as (c & l & Hchars & Hdigits & _).
  rewrite !coerce_value_str. split.
  - assert (Hin : Str.contains "%" (Int.to_string n ++ "%") = true).
    { apply contains_app. exists (Int.to_string n), EmptyString. reflexivity. }
    assert (Hstrip : Str.strip "%" (Int.to_string n ++ "%") = Int.to_string n).
    { unfold Str.strip. rewrite chars_app.
      change (Str.chars "%") with ["%"%char] at 2.
      rewrite strip_chars_trailing; [apply of_chars_chars | | reflexivity].
      rewrite Hchars.
      eapply Forall_impl; [exact Hdigits | apply digit_not_percent]. }
    by rewrite Hin, Hstrip, float_of_to_string.
  - rewrite digits_without_percent by (by rewrite Hchars).
    by rewrite float_of_to_string.
Qed.

(* ===================================================================== *)
(** * Further properties: the order of the sweep *)
(* ===================================================================== *)

(** X17: the loop of [cleanup] gives the same registry and the same count
    in whatever order it visits the keys of the registry, each once: the
    order in which the dictionary lists its keys does not matter, and the
    loop raises for none of them. *)
Theorem sweep_order_is_irrelevant now (ids : list string) (reg : registry) :
  NoDup ids ->
  (forall k, k ∈ ids <-> is_Some (reg !! k)) ->
  cleanup_loop now 0%nat ids reg
  = (Next (size reg - size (cleanup now reg).2)%nat, (cleanup now reg).2).
Proof.
  intros Hnodup Hkeys.
  rewrite cleanup_loop_run; [|exact Hnodup | intros k Hk; by apply Hkeys].
  rewrite cleanup_run. cbn [snd].
  assert (Hsame : survivors now ids reg
                  = filter (fun kv => ~ Spec.older_than 3600 now kv.2) reg).
  { unfold survivors. apply map_eq. intros k. apply option_eq. intros a.
    rewrite !map_lookup_filter_Some. cbn. split; [|tauto].
    intros [Hk Hkeep]. split; [exact Hk|]. intros Hold. apply Hkeep.
    split; [|exact Hold]. apply Hkeys. eauto. }
  rewrite Hsame. reflexivity.
Qed.

Lemma sweep_order_is_irrelevant_witness :
  cleanup_loop Sample.two_pm 0%nat ["b"; "a"] Sample.files
  = cleanup_loop Sample.two_pm 0%nat ["a"; "b"] Sample.files.
Proof.
  assert (Hkeys : forall ids : list string,
            (forall k, k ∈ ids <-> k = "a" \/ k = "b") ->
            forall k, k ∈ ids <-> is_Some (Sample.files !! k)).
  { intros ids Hids k. rewrite Hids. unfold Sample.files. split.
    - intros [-> | ->]; [rewrite lookup_insert_eq; eauto|].
      rewrite lookup_insert_ne by discriminate. rewrite lookup_insert_eq. eauto.
    - intros [a Ha]. destruct (decide (k = "a")) as [|Hna]; [auto|].
      rewrite lookup_insert_ne in Ha by congruence.
      destruct (decide (k = "b")) as [|Hnb]; [auto|].
      rewrite lookup_insert_ne in Ha by congruence. discriminate Ha. }
  rewrite (sweep_order_is_irrelevant Sample.two_pm ["b"; "a"] Sample.files).
  - rewrite (sweep_order_is_irrelevant Sample.two_pm ["a"; "b"] Sample.files).
    + reflexivity.
    + apply (bool_decide_unpack _). vm_compute. exact I.
    + apply Hkeys. intros k. rewrite !elem_of_cons, elem_of_nil. tauto.
  - apply (bool_decide_unpack _). vm_compute. exact I.
  - apply Hkeys. intros k. rewrite !elem_of_cons, elem_of_nil. tauto.
Defined.
